(** * Hint access and gamification bookkeeping of the Sudojo API

    A shallow embedding of [src/routes/solver.ts] (the solver proxy with its
    hint gate and hint-usage tracker) and of [src/services/access.ts] (the
    daily access counter), together with the properties the specification
    states about them.

    Asynchronous functions are embedded in a small state-and-exception
    monad over a [World]: the relational store plus the trace of the
    operations performed against the store and against the solver service.
    Everything outside the program (the solver's replies, the clock, whether
    a store operation fails) is read from an environment [Env], indexed by
    the number of operations performed so far. *)

From Stdlib Require Import ZArith Ascii String List Bool Lia.
From stdpp Require Import base option strings gmap list pretty.
Import ListNotations.

Local Open Scope string_scope.

(** ** Values exchanged with the solver service *)

(** [hints] of [SolveData]: only [level] is read by the program. *)
Module Hints.
Record t := mk { level : Z; technique : Z }.
End Hints.

(** [SolveData]: the [board] object is passed through untouched. *)
Module SolveData.
Record t := mk { board : string; hints : option Hints.t }.
End SolveData.

Module SolverError.
Record t := mk { code : string; message : string }.
End SolverError.

(** [interface SolverResponse<T>], at [T = SolveData]. *)
Module SolverResponse.
Record t := mk {
  success : bool;
  error : option SolverError.t;
  data : option SolveData.t
}.
End SolverResponse.

(** The query parameters [callSolver] sets on its [URLSearchParams]. *)
Module SolveParams.
Record t := mk {
  original : string;
  user : string;
  autopencilmarks : string;
  pencilmarks : string;
  techniques : option string
}.
End SolveParams.

(** What [fetch] can do with a solver request. *)
Inductive FetchResult :=
  | NetworkFailure
  | Aborted
  | HttpReply (status : Z) (json : option SolverResponse.t).

(** ** Access decision *)

Module UserState.
Inductive t := anonymous | free | blue_belt | red_belt | admin.
End UserState.

Module Entitlement.
Inductive t := blue_belt | red_belt.
End Entitlement.

(** A JavaScript number used as a bound: an integer or [Infinity]. *)
Inductive MaxLevel := Finite (n : Z) | Unbounded.

(** Modelled from the spec: [HintAccessContext] is declared in
    [middleware/hintAccess.ts], which is not among the sources; the spec
    gives it as [HintAccessDecision { maxHintLevel, userState }]. *)
Module HintAccessContext.
Record t := mk { maxHintLevel : MaxLevel; userState : UserState.t }.
End HintAccessContext.

(** ** Rows of the relational store *)

Module GameSession.
Record t := mk {
  userId : string;
  board : string;
  solution : string;
  level : Z;
  techniquesBitfield : Z;
  hintUsed : bool;
  hintsCount : Z;
  startedAt : Z;
  puzzleType : string;
  puzzleId : string
}.
End GameSession.

(** The columns of [userStats] the program reads or writes.  [updatedAt]
    is [None] while the column still holds the value the store gave it on
    insertion (the program never supplies it on insert). *)
Module UserStats.
Record t := mk {
  userId : string;
  totalPoints : Z;
  updatedAt : option Z
}.
End UserStats.

Module Metadata.
Record t := mk {
  techniqueLevel : Z;
  puzzleLevel : Z;
  puzzleType : string;
  puzzleId : string
}.
End Metadata.

Module PointTransaction.
Record t := mk {
  userId : string;
  points : Z;
  transactionType : string;
  metadata : Metadata.t
}.
End PointTransaction.

Module AccessLog.
Record t := mk { user_id : string; endpoint : string; access_date : string }.
End AccessLog.

Record Database := mkDatabase {
  gameSessions : list GameSession.t;
  userStats : list UserStats.t;
  pointTransactions : list PointTransaction.t;
  accessLogs : list AccessLog.t
}.

(** ** Worlds, traces and the environment *)

Inductive Table := TGameSessions | TUserStats | TPointTransactions | TAccessLogs.

Inductive Event :=
  | SolverFetch (endpoint : string) (params : SolveParams.t)
  | DbSelect (table : Table)
  | DbUpdate (table : Table)
  | DbInsert (table : Table).

Record World := mkWorld { db : Database; trace : list Event }.

Record Env := mkEnv {
  (** reply of the solver service to the request issued at a given step *)
  fetch : nat -> string -> SolveParams.t -> FetchResult;
  (** whether the store operation issued at a given step throws *)
  dbFails : nat -> bool;
  (** [Date.now()] at a given step, in milliseconds *)
  clock : nat -> Z;
  (** [Date.prototype.toISOString], of the JavaScript runtime *)
  toISOString : Z -> string
}.

Inductive Error :=
  | SolverServiceError (status : Z)
  | SolverServiceTimeout
  | FetchFailed
  | InvalidJson
  | StoreError.

(** ** The monad of asynchronous computations *)

Inductive Outcome (A : Type) :=
  | Return (a : A)
  | Throw (e : Error).
Arguments Return {A} a.
Arguments Throw {A} e.

Definition Async (A : Type) : Type := World -> Outcome A * World.

#[global] Instance Async_ret : MRet Async := fun A a w => (Return a, w).

#[global] Instance Async_bind : MBind Async := fun A B f m w =>
  match m w with
  | (Return a, w') => f a w'
  | (Throw e, w') => (Throw e, w')
  end.

Definition throw {A} (e : Error) : Async A := fun w => (Throw e, w).

(** [try { body } catch (err) { handler(err) }] *)
Definition try_catch {A} (body : Async A) (handler : Error -> Async A) : Async A :=
  fun w =>
    match body w with
    | (Return a, w') => (Return a, w')
    | (Throw e, w') => handler e w'
    end.

Definition step (w : World) : nat := length (trace w).

Definition record (ev : Event) (w : World) : World :=
  mkWorld (db w) (trace w ++ [ev]).

(** ** JavaScript helpers *)

(** Truthiness of an optional string: [undefined] and [""] are falsy. *)
Definition truthy (s : option string) : bool :=
  match s with
  | Some s => negb (String.eqb s "")
  | None => false
  end.

(** [a ?? b] *)
Definition nullish {A} (a : option A) (b : A) : A :=
  match a with Some x => x | None => b end.

(** [x > m] for an integer [x] and a bound [m]. *)
Definition exceeds (x : Z) (m : MaxLevel) : bool :=
  match m with
  | Finite n => (n <? x)%Z
  | Unbounded => false
  end.

Definition showMaxLevel (m : MaxLevel) : string :=
  match m with
  | Finite n => pretty n
  | Unbounded => "Infinity"
  end.

(** [s.split(sep)[0]] *)
Fixpoint splitHead (sep : ascii) (s : string) : string :=
  match s with
  | EmptyString => EmptyString
  | String c rest =>
      if Ascii.eqb c sep then EmptyString else String c (splitHead sep rest)
  end.


(** ** Responses of the solve route *)

Module PointsEarned.
Record t := mk { points : Z; techniqueLevel : Z }.
End PointsEarned.

(** The [error] object of [HintAccessDeniedResponse]. *)
Module HintAccessDenied.
Record t := mk {
  code : string;
  message : string;
  hintLevel : Z;
  requiredEntitlement : option Entitlement.t;
  userState : UserState.t
}.
End HintAccessDenied.

(** The JSON bodies the route sends: [successResponse(data)] with the
    optional [points] augmentation, [errorResponse(message)], and the
    structured denial. *)
Inductive Body :=
  | SuccessResponse (data : SolveData.t) (points : option PointsEarned.t)
  | ErrorResponse (message : string)
  | HintAccessDeniedResponse (error : HintAccessDenied.t) (timestamp : string).

Record Response := mkResponse { status : Z; body : Body }.

(** [c.json(body, status)]; the status defaults to 200. *)
Definition json (b : Body) (st : option Z) : Response :=
  mkResponse (nullish st 200%Z) b.

Module FirebaseUser.
Record t := mk { uid : string }.
End FirebaseUser.

(** The request as the handler sees it: the query string and the two
    context variables set by the middleware that ran before it. *)
Record RequestContext := mkRequestContext {
  query : gmap string string;
  hintAccess : option HintAccessContext.t;
  firebaseUser : option FirebaseUser.t
}.

Module TrackResult.
Record t := mk { tracked : bool; hintPoints : Z }.
End TrackResult.

Module AccessResult.
Record t := mk { granted : bool; remaining : Z }.
End AccessResult.

(** ** Constants *)

Fixpoint replicate_string (n : nat) (s : string) : string :=
  match n with
  | O => ""
  | S k => s +:+ replicate_string k s
  end.

(** Constants of the package [@sudobility/sudojo_types], as the route
    documentation describes them: 81 zeros, and 81 empty elements
    separated by commas. *)
Definition EMPTY_BOARD : string := replicate_string 81 "0".
Definition EMPTY_PENCILMARKS : string := replicate_string 80 ",".

Definition DEFAULT_AUTOPENCILMARKS : string := "false".

Definition SOLVER_TIMEOUT_MS : Z := 120000.

(** Daily access limits per endpoint for non-subscriber users. *)
Definition DAILY_LIMITS : gmap string Z :=
  <["boards" := 2%Z]> (<["dailies" := 2%Z]> (<["challenges" := 2%Z]>
    (<["solve" := 10%Z]> ∅))).

Definition DEFAULT_DAILY_LIMIT : Z := 2.

Definition getDailyLimit (endpoint : string) : Z :=
  nullish (DAILY_LIMITS !! endpoint) DEFAULT_DAILY_LIMIT.

(** Modelled from the spec: [getRequiredEntitlement] lives in
    [middleware/hintAccess.ts], which is not among the sources.  The spec
    derives it from the hint level by the inverse of the tier table:
    level at most 3 needs no entitlement, levels 4 and 5 need [blue_belt],
    levels above 5 need [red_belt]. *)
Definition getRequiredEntitlement (hintLevel : Z) : option Entitlement.t :=
  if (hintLevel <=? 3)%Z then None
  else if (hintLevel <=? 5)%Z then Some Entitlement.blue_belt
  else Some Entitlement.red_belt.

(** [response.ok] *)
Definition response_ok (status : Z) : bool :=
  (200 <=? status)%Z && (status <=? 299)%Z.

(** ** The program *)

Section Program.

Variable env : Env.

(** [new Date()] *)
Definition newDate : Async Z := fun w => (Return (clock env (step w)), w).

(** One operation against the store: it is recorded in the trace, and
    either throws, leaving the tables as they were, or runs. *)
Definition dbOp {A} (ev : Event) (run : Database -> A * Database) : Async A :=
  fun w =>
    if dbFails env (step w) then (Throw StoreError, record ev w)
    else let '(a, d) := run (db w) in (Return a, mkWorld d (trace w ++ [ev])).

(** *** Queries of [solver.ts] *)

Definition sessionOf (userId : string) (r : GameSession.t) : bool :=
  String.eqb (GameSession.userId r) userId.

Definition statsOf (userId : string) (r : UserStats.t) : bool :=
  String.eqb (UserStats.userId r) userId.

(** [db.select().from(gameSessions).where(eq(gameSessions.userId, userId))] *)
Definition selectGameSessions (userId : string) : Async (list GameSession.t) :=
  dbOp (DbSelect TGameSessions)
       (fun d => (filter (fun r => sessionOf userId r = true) (gameSessions d), d)).

Definition markHint (hintsCount : Z) (r : GameSession.t) : GameSession.t :=
  GameSession.mk (GameSession.userId r) (GameSession.board r)
    (GameSession.solution r) (GameSession.level r)
    (GameSession.techniquesBitfield r) true hintsCount
    (GameSession.startedAt r) (GameSession.puzzleType r)
    (GameSession.puzzleId r).

(** [db.update(gameSessions).set({hintUsed: true, hintsCount}).where(...)] *)
Definition updateGameSessions (userId : string) (hintsCount : Z) : Async unit :=
  dbOp (DbUpdate TGameSessions)
       (fun d => (tt, mkDatabase
          (map (fun r => if sessionOf userId r then markHint hintsCount r else r)
               (gameSessions d))
          (userStats d) (pointTransactions d) (accessLogs d))).

(** [db.select().from(userStats).where(eq(userStats.userId, userId))] *)
Definition selectUserStats (userId : string) : Async (list UserStats.t) :=
  dbOp (DbSelect TUserStats)
       (fun d => (filter (fun r => statsOf userId r = true) (userStats d), d)).

Definition setPoints (totalPoints updatedAt : Z) (r : UserStats.t) : UserStats.t :=
  UserStats.mk (UserStats.userId r) totalPoints (Some updatedAt).

(** [db.update(userStats).set({totalPoints, updatedAt}).where(...)] *)
Definition updateUserStats (userId : string) (totalPoints updatedAt : Z)
  : Async unit :=
  dbOp (DbUpdate TUserStats)
       (fun d => (tt, mkDatabase (gameSessions d)
          (map (fun r => if statsOf userId r then setPoints totalPoints updatedAt r
                         else r)
               (userStats d))
          (pointTransactions d) (accessLogs d))).

(** The row [db.insert(userStats).values({userId, totalPoints})] creates. *)
Definition freshStats (userId : string) (totalPoints : Z) : UserStats.t :=
  UserStats.mk userId totalPoints None.

Definition insertUserStats (row : UserStats.t) : Async unit :=
  dbOp (DbInsert TUserStats)
       (fun d => (tt, mkDatabase (gameSessions d) (userStats d ++ [row])
                        (pointTransactions d) (accessLogs d))).

Definition insertPointTransaction (row : PointTransaction.t) : Async unit :=
  dbOp (DbInsert TPointTransactions)
       (fun d => (tt, mkDatabase (gameSessions d) (userStats d)
                        (pointTransactions d ++ [row]) (accessLogs d))).

Definition notTracked : TrackResult.t := TrackResult.mk false 0.

(** The [try] block of [trackHintUsage]. *)
Definition trackHintUsage_body (userId originalBoard : string) (techniqueLevel : Z)
  : Async TrackResult.t :=
  sessions ← selectGameSessions userId;
  match sessions with
  | [] => mret notTracked
  | session :: _ =>
      if negb (String.eqb (GameSession.board session) originalBoard)
      then mret notTracked
      else
        let hintPoints := (2 * techniqueLevel)%Z in
        updateGameSessions userId (GameSession.hintsCount session + 1)%Z;;
        existingStats ← selectUserStats userId;
        match existingStats with
        | stats0 :: _ =>
            now ← newDate;
            updateUserStats userId
              (UserStats.totalPoints stats0 + hintPoints)%Z now
        | [] => insertUserStats (freshStats userId hintPoints)
        end;;
        insertPointTransaction
          (PointTransaction.mk userId hintPoints "hint_used"
             (Metadata.mk techniqueLevel (GameSession.level session)
                (GameSession.puzzleType session)
                (GameSession.puzzleId session)));;
        mret (TrackResult.mk true hintPoints)
  end.

(** Track hint usage for gamification when the user has an active session. *)
Definition trackHintUsage (userId originalBoard : string) (techniqueLevel : Z)
  : Async TrackResult.t :=
  try_catch (trackHintUsage_body userId originalBoard techniqueLevel)
            (fun _ => mret notTracked).

(** *** The solver proxy *)

(** [proxySolverRequest]: one [fetch] against the solver, bounded by the
    abort timer.  A network failure, the timer firing, a status outside
    200..299 and a body that is not JSON all end in a thrown error. *)
Definition proxySolverRequest (endpoint : string) (params : SolveParams.t)
  : Async SolverResponse.t :=
  fun w =>
    let w' := record (SolverFetch endpoint params) w in
    match fetch env (step w) endpoint params with
    | NetworkFailure => (Throw FetchFailed, w')
    | Aborted => (Throw SolverServiceTimeout, w')
    | HttpReply status body =>
        if negb (response_ok status) then (Throw (SolverServiceError status), w')
        else match body with
             | Some r => (Return r, w')
             | None => (Throw InvalidJson, w')
             end
    end.

(** [callSolver]: the [techniques] parameter is set only when truthy. *)
Definition callSolver (original user autopencilmarks pencilmarks : string)
    (techniques : option string) : Async SolverResponse.t :=
  proxySolverRequest "solve"
    (SolveParams.mk original user autopencilmarks pencilmarks
       (if truthy techniques then techniques else None)).

(** [!result.success || !result.data || result.data.hints?.level === 0] *)
Definition needsFallback (result : SolverResponse.t) : bool :=
  negb (SolverResponse.success result) ||
  match SolverResponse.data result with
  | None => true
  | Some d =>
      match SolveData.hints d with
      | Some h => (Hints.level h =? 0)%Z
      | None => false
      end
  end.

(** Lines 198-211 of [handleSolveRequest]: the solver call, with the
    fallback to a generic solve when a technique filter was given. *)
Definition solveWithFallback (original user autopencilmarks pencilmarks : string)
    (techniques : option string) : Async SolverResponse.t :=
  if truthy techniques then
    result ← callSolver original user autopencilmarks pencilmarks techniques;
    if needsFallback result
    then callSolver original user autopencilmarks pencilmarks None
    else mret result
  else callSolver original user autopencilmarks pencilmarks None.

(** [result.data.hints?.level ?? dflt] *)
Definition levelOr (d : SolveData.t) (dflt : Z) : Z :=
  nullish (Hints.level <$> SolveData.hints d) dflt.

Definition deniedMessage (hintLevel : Z) (maxHintLevel : MaxLevel) : string :=
  "This hint requires a higher subscription tier. Hint level: "
    +:+ pretty hintLevel +:+ ", your max level: " +:+ showMaxLevel maxHintLevel.

Definition solverErrorMessage (result : SolverResponse.t) : string :=
  match SolverResponse.error result with
  | Some e => SolverError.code e +:+ ": " +:+ SolverError.message e
  | None => "Solver error"
  end.

(** Lines 240-264 of [handleSolveRequest]: hint-usage tracking for an
    authenticated user, and the success response. *)
Definition trackAndRespond (c : RequestContext) (original : string)
    (d : SolveData.t) : Async Response :=
  let techniqueLevel := levelOr d 1 in
  pointsEarned ←
    (if truthy (FirebaseUser.uid <$> firebaseUser c) then
       r ← trackHintUsage (nullish (FirebaseUser.uid <$> firebaseUser c) "")
             original techniqueLevel;
       if TrackResult.tracked r
       then mret (Some (PointsEarned.mk (TrackResult.hintPoints r) techniqueLevel))
       else mret None
     else mret None);
  mret (json (SuccessResponse d pointsEarned) None).

(** Lines 213-264 of [handleSolveRequest]: what is done with the result of
    the (possibly retried) solver call. *)
Definition respond (c : RequestContext) (original : string)
    (result : SolverResponse.t) : Async Response :=
  match SolverResponse.success result, SolverResponse.data result with
  | true, Some d =>
      let hintLevel := levelOr d 0 in
      match hintAccess c with
      | Some access =>
          if exceeds hintLevel (HintAccessContext.maxHintLevel access) then
            now ← newDate;
            mret (json
              (HintAccessDeniedResponse
                 (HintAccessDenied.mk "HINT_ACCESS_DENIED"
                    (deniedMessage hintLevel (HintAccessContext.maxHintLevel access))
                    hintLevel
                    (getRequiredEntitlement hintLevel)
                    (HintAccessContext.userState access))
                 (toISOString env now))
              (Some 402%Z))
          else trackAndRespond c original d
      | None => trackAndRespond c original d
      end
  | _, _ => mret (json (ErrorResponse (solverErrorMessage result)) (Some 400%Z))
  end.

(** [c.req.query(name) ?? dflt] *)
Definition queryOr (c : RequestContext) (name dflt : string) : string :=
  nullish (query c !! name) dflt.

(** Lines 191-211 of [handleSolveRequest]: the query parameters with
    their defaults, handed to the solver. *)
Definition solverPhase (c : RequestContext) : Async SolverResponse.t :=
  solveWithFallback (queryOr c "original" "") (queryOr c "user" EMPTY_BOARD)
    (queryOr c "autopencilmarks" DEFAULT_AUTOPENCILMARKS)
    (queryOr c "pencilmarks" EMPTY_PENCILMARKS)
    (query c !! "techniques").

(** The [try] block of [handleSolveRequest]. *)
Definition handleSolveRequest_body (c : RequestContext) : Async Response :=
  result ← solverPhase c;
  respond c (queryOr c "original" "") result.

(** Helper to handle a solve request with hint access control. *)
Definition handleSolveRequest (c : RequestContext) : Async Response :=
  try_catch (handleSolveRequest_body c)
    (fun _ => mret (json (ErrorResponse "Solver service unavailable") (Some 503%Z))).

(** *** The daily access counter of [services/access.ts] *)

(** Today's date as a YYYY-MM-DD string. *)
Definition getTodayDate : Async string :=
  now ← newDate;
  mret (splitHead "T"%char (toISOString env now)).

Definition accessOf (userId endpoint today : string) (r : AccessLog.t) : bool :=
  String.eqb (AccessLog.user_id r) userId
  && String.eqb (AccessLog.endpoint r) endpoint
  && String.eqb (AccessLog.access_date r) today.

Definition countAccess (userId endpoint today : string) (d : Database) : Z :=
  Z.of_nat (length (filter (fun r => accessOf userId endpoint today r = true)
                           (accessLogs d))).

Definition getAccessCountToday (userId endpoint : string) : Async Z :=
  today ← getTodayDate;
  dbOp (DbSelect TAccessLogs) (fun d => (countAccess userId endpoint today d, d)).

Definition recordAccess (userId endpoint : string) : Async unit :=
  today ← getTodayDate;
  dbOp (DbInsert TAccessLogs)
       (fun d => (tt, mkDatabase (gameSessions d) (userStats d)
                        (pointTransactions d)
                        (accessLogs d ++ [AccessLog.mk userId endpoint today]))).

Definition checkAndRecordAccess (userId endpoint : string) : Async AccessResult.t :=
  let limit := getDailyLimit endpoint in
  accessCount ← getAccessCountToday userId endpoint;
  if (limit <=? accessCount)%Z then mret (AccessResult.mk false 0)
  else
    recordAccess userId endpoint;;
    mret (AccessResult.mk true (limit - accessCount - 1)).

End Program.

(** ** The access-tier resolver *)

(** Result of the external entitlement lookup. *)
Inductive EntitlementLookup :=
  | LookupFailed
  | LookupOk (entitlements : gset string).

(** Who is calling: no credential, or a verified identity together with
    what the administrator list and the entitlement lookup say about it. *)
Inductive Caller :=
  | Anonymous
  | Authenticated (isSiteAdmin : bool) (lookup : EntitlementLookup).

Definition isAdmin (c : Caller) : bool :=
  match c with
  | Authenticated true _ => true
  | _ => false
  end.

Definition holds (entitlement : string) (c : Caller) : bool :=
  match c with
  | Authenticated _ (LookupOk es) => bool_decide (entitlement ∈ es)
  | _ => false
  end.

Definition isAuthenticated (c : Caller) : bool :=
  match c with
  | Authenticated _ _ => true
  | Anonymous => false
  end.

Record Rule := mkRule {
  applies : Caller -> bool;
  decision : HintAccessContext.t
}.

(** Modelled from the spec: the policy table of the access-tier resolver
    ([middleware/hintAccess.ts] is not among the sources), in priority
    order.  A failed entitlement lookup holds no entitlement, so such a
    caller falls through to the rule for authenticated callers. *)
Definition policyTable : list Rule :=
  [ mkRule isAdmin (HintAccessContext.mk Unbounded UserState.admin);
    mkRule (holds "red_belt") (HintAccessContext.mk Unbounded UserState.red_belt);
    mkRule (holds "blue_belt") (HintAccessContext.mk (Finite 5) UserState.blue_belt);
    mkRule isAuthenticated (HintAccessContext.mk (Finite 3) UserState.free);
    mkRule (fun c => negb (isAuthenticated c))
           (HintAccessContext.mk (Finite 3) UserState.anonymous) ].

Fixpoint firstMatch (rules : list Rule) (c : Caller) : option HintAccessContext.t :=
  match rules with
  | [] => None
  | r :: rest => if applies r c then Some (decision r) else firstMatch rest c
  end.

(** Modelled from the spec: [hintAccessCheck(authContext)], first match
    wins. *)
Definition hintAccessCheck (c : Caller) : option HintAccessContext.t :=
  firstMatch policyTable c.

(** The tier table: the bound that goes with each user state. *)
Definition tierLevel (s : UserState.t) : MaxLevel :=
  match s with
  | UserState.admin | UserState.red_belt => Unbounded
  | UserState.blue_belt => Finite 5
  | UserState.free | UserState.anonymous => Finite 3
  end.

(** ** Concrete worlds and environments *)

Definition boardB : string := replicate_string 80 "0" +:+ "5".
Definition boardC : string := replicate_string 80 "0" +:+ "7".

Definition sessionOfAlice : GameSession.t :=
  GameSession.mk "alice" boardB (replicate_string 81 "5") 4 12 false 0 1000
    "daily" "2026-01-01".

Definition storeWithSession : Database :=
  mkDatabase [sessionOfAlice] [] [] [].

Definition storeWithStats : Database :=
  mkDatabase [sessionOfAlice] [UserStats.mk "alice" 40 None] [] [].

Definition emptyStore : Database := mkDatabase [] [] [] [].

Definition hintOfLevel (n : Z) : SolverResponse.t :=
  SolverResponse.mk true None
    (Some (SolveData.mk "{}" (Some (Hints.mk n 1)))).

Definition unsolvable : SolverResponse.t :=
  SolverResponse.mk false (Some (SolverError.mk "UNSOLVABLE" "no solution")) None.

(** A solver that answers every request with a hint of level [n]. *)
Definition solverOfLevel (n : Z) (faults : nat -> bool) : Env :=
  mkEnv (fun _ _ _ => HttpReply 200 (Some (hintOfLevel n))) faults
        (fun k => (1000 + Z.of_nat k)%Z) (fun t => "2026-01-01T" +:+ pretty t).

(** A solver that finds nothing under a technique filter (level 0) and a
    level-[n] hint without one. *)
Definition narrowSolver (n : Z) : Env :=
  mkEnv (fun _ _ p => match SolveParams.techniques p with
                      | Some _ => HttpReply 200 (Some (hintOfLevel 0))
                      | None => HttpReply 200 (Some (hintOfLevel n))
                      end)
        (fun _ => false)
        (fun k => (1000 + Z.of_nat k)%Z) (fun t => "2026-01-01T" +:+ pretty t).

(** A solver whose every reply is [r]. *)
Definition solverReplying (r : FetchResult) : Env :=
  mkEnv (fun _ _ _ => r) (fun _ => false)
        (fun k => (1000 + Z.of_nat k)%Z) (fun t => "2026-01-01T" +:+ pretty t).

Definition noFaults : nat -> bool := fun _ => false.
Definition faultAt (k : nat) : nat -> bool := fun n => Nat.eqb n k.

Definition requestOf (q : list (string * string))
    (access : option HintAccessContext.t) (uid : option string) : RequestContext :=
  mkRequestContext (list_to_map q) access (FirebaseUser.mk <$> uid).

Definition freeTier : HintAccessContext.t :=
  HintAccessContext.mk (Finite 3) UserState.free.

Definition start (d : Database) : World := mkWorld d [].

(** The user's active session: [sessions[0]] of the tracker's query. *)
Definition activeSession (userId : string) (d : Database) : option GameSession.t :=
  head (filter (fun r => sessionOf userId r = true) (gameSessions d)).

(** The user's statistics row: [existingStats[0]]. *)
Definition activeStats (userId : string) (d : Database) : option UserStats.t :=
  head (filter (fun r => statsOf userId r = true) (userStats d)).

(** Total points of a user; a user without a row has none. *)
Definition totalPointsOf (userId : string) (d : Database) : Z :=
  match activeStats userId d with
  | Some st => UserStats.totalPoints st
  | None => 0
  end.

(** [x > m] as a proposition. *)
Definition above (x : Z) (m : MaxLevel) : Prop :=
  match m with
  | Finite n => (n < x)%Z
  | Unbounded => False
  end.

(** The parameters of the filtered and of the generic solver call. *)
Definition paramsOf (c : RequestContext) (techniques : option string)
  : SolveParams.t :=
  SolveParams.mk (queryOr c "original" "") (queryOr c "user" EMPTY_BOARD)
    (queryOr c "autopencilmarks" DEFAULT_AUTOPENCILMARKS)
    (queryOr c "pencilmarks" EMPTY_PENCILMARKS) techniques.

Definition unavailable : Response :=
  mkResponse 503 (ErrorResponse "Solver service unavailable").

Definition isDbEvent (ev : Event) : bool :=
  match ev with
  | SolverFetch _ _ => false
  | _ => true
  end.

(** The rows a tracked hint leaves in the store, given the user's active
    session [s] and the time [now] of the statistics update. *)
Definition trackedSessions (userId : string) (s : GameSession.t)
    (d : Database) : list GameSession.t :=
  map (fun r => if sessionOf userId r
                then markHint (GameSession.hintsCount s + 1)%Z r else r)
      (gameSessions d).

Definition trackedStats (userId : string) (hintPoints now : Z)
    (d : Database) : list UserStats.t :=
  match activeStats userId d with
  | Some st =>
      map (fun r => if statsOf userId r
                    then setPoints (UserStats.totalPoints st + hintPoints)%Z now r
                    else r)
          (userStats d)
  | None => userStats d ++ [freshStats userId hintPoints]
  end.

Definition hintTransaction (userId : string) (techniqueLevel hintPoints : Z)
    (s : GameSession.t) : PointTransaction.t :=
  PointTransaction.mk userId hintPoints "hint_used"
    (Metadata.mk techniqueLevel (GameSession.level s)
       (GameSession.puzzleType s) (GameSession.puzzleId s)).

Definition trackedStore (userId : string) (techniqueLevel now : Z)
    (s : GameSession.t) (d : Database) : Database :=
  mkDatabase (trackedSessions userId s d)
    (trackedStats userId (2 * techniqueLevel)%Z now d)
    (pointTransactions d
       ++ [hintTransaction userId techniqueLevel (2 * techniqueLevel)%Z s])
    (accessLogs d).

(** The store operations of a tracked hint, in order. *)
Definition trackedTrace (userId : string) (d : Database) : list Event :=
  [ DbSelect TGameSessions; DbUpdate TGameSessions; DbSelect TUserStats;
    match activeStats userId d with
    | Some _ => DbUpdate TUserStats
    | None => DbInsert TUserStats
    end;
    DbInsert TPointTransactions ].

(** A reply of the solver service that [proxySolverRequest] turns into a
    thrown error: no reply, the abort timer, a status outside 200..299, or
    a body that is not JSON. *)
Definition fetchFails (r : FetchResult) : bool :=
  match r with
  | NetworkFailure | Aborted => true
  | HttpReply status body =>
      negb (response_ok status) || match body with Some _ => false | None => true end
  end.

Definition noDbEvent (evs : list Event) : bool :=
  forallb (fun ev => negb (isDbEvent ev)) evs.

(** The access log with one more row for the user. *)
Definition withAccess (row : AccessLog.t) (d : Database) : Database :=
  mkDatabase (gameSessions d) (userStats d) (pointTransactions d)
    (accessLogs d ++ [row]).

(** [getTodayDate()] at a given step. *)
Definition todayAt (env : Env) (n : nat) : string :=
  splitHead "T"%char (toISOString env (clock env n)).

(** ** The other routes of [solver.ts] *)

(** [SolverResponse<T>] at an arbitrary payload type, for the routes that
    hand the solver's payload through without looking into it. *)
Module ApiResult.
Record t (D : Type) := mk {
  success : bool;
  error : option SolverError.t;
  data : option D
}.
Arguments mk {D} _ _ _.
Arguments success {D} _.
Arguments error {D} _.
Arguments data {D} _.
End ApiResult.

(** What [fetch(url)] can do. *)
Inductive UrlFetch (D : Type) :=
  | UrlNetworkFailure
  | UrlAborted
  | UrlReply (status : Z) (json : option (ApiResult.t D)).
Arguments UrlNetworkFailure {D}.
Arguments UrlAborted {D}.
Arguments UrlReply {D} status json.

(** The replies of the [validate] and [generate] routes. *)
Inductive RouteBody (D : Type) :=
  | RouteSuccess (data : D)
  | RouteError (message : string).
Arguments RouteSuccess {D} data.
Arguments RouteError {D} message.

Record RouteReply (D : Type) := mkRouteReply {
  routeStatus : Z;
  routeBody : RouteBody D
}.
Arguments mkRouteReply {D} _ _.
Arguments routeStatus {D} _.
Arguments routeBody {D} _.

(** [s.slice(1)] *)
Definition slice1 (s : string) : string :=
  match s with
  | EmptyString => EmptyString
  | String _ rest => rest
  end.

Section Routes.

Variable D : Type.

(** The value of the [SOLVER_URL] environment variable. *)
Variable SOLVER_URL : string.

(** The solver service, by URL. *)
Variable fetchUrl : string -> UrlFetch D.

(** The URL [proxySolverRequest] builds for an endpoint and a query. *)
Definition solverUrl (endpoint queryString : string) : string :=
  SOLVER_URL +:+ "/api/" +:+ endpoint
    +:+ (if String.eqb queryString "" then "" else "?" +:+ queryString).

(** [proxySolverRequest<T>(endpoint, queryString)], as a function of what
    the one [fetch] does: the parsed body, or the error thrown. *)
Definition proxyByUrl (endpoint queryString : string) : Error + ApiResult.t D :=
  match fetchUrl (solverUrl endpoint queryString) with
  | UrlNetworkFailure => inl FetchFailed
  | UrlAborted => inl SolverServiceTimeout
  | UrlReply status body =>
      if negb (response_ok status) then inl (SolverServiceError status)
      else match body with
           | Some r => inr r
           | None => inl InvalidJson
           end
  end.

Definition routeErrorMessage (result : ApiResult.t D) (dflt : string) : string :=
  match ApiResult.error result with
  | Some e => SolverError.code e +:+ ": " +:+ SolverError.message e
  | None => dflt
  end.

(** The tail shared by both routes: the solver's result turned into a
    reply, [failure] being the status of an unsuccessful result. *)
Definition relay (endpoint queryString dflt : string) (failure : Z)
  : RouteReply D * list string :=
  let url := solverUrl endpoint queryString in
  match proxyByUrl endpoint queryString with
  | inl _ => (mkRouteReply 503 (RouteError "Solver service unavailable"), [url])
  | inr result =>
      match ApiResult.success result, ApiResult.data result with
      | true, Some d => (mkRouteReply 200 (RouteSuccess d), [url])
      | _, _ =>
          (mkRouteReply failure (RouteError (routeErrorMessage result dflt)), [url])
      end
  end.

(** [GET /validate]: the reply, and the URLs fetched on the way.  [search]
    is [new URL(c.req.url).search]. *)
Definition validateRoute (c : RequestContext) (search : string)
  : RouteReply D * list string :=
  let original := queryOr c "original" "" in
  if String.eqb original "" || negb (Nat.eqb (String.length original) 81)
  then (mkRouteReply 400
          (RouteError "Invalid puzzle: original must be 81 characters"), [])
  else relay "validate" (slice1 search) "Validation failed" 400.

(** [GET /generate] *)
Definition generateRoute (search : string) : RouteReply D * list string :=
  relay "generate" (slice1 search) "Generation failed" 500.

End Routes.

(** ** The access-control middleware *)

Module DecodedToken.
Record t := mk { uid : string; email : option string }.
End DecodedToken.

(** The collaborators of the middleware that live outside the sources:
    [verifyIdToken] ([None] when it throws), [isSiteAdmin], and
    [getSubscriptionHelper()] with its [getSubscriptionInfo(userId,
    testMode)], which yields the entitlements or throws ([None]). *)
Record AuthEnv := mkAuthEnv {
  verifyIdToken : string -> option DecodedToken.t;
  isSiteAdmin : option string -> bool;
  getSubscriptionHelper : option (string -> bool -> option (list string))
}.

(** What the middleware reads from the request: the [Authorization]
    header and the result of [getTestMode(c)]. *)
Record AccessRequest := mkAccessRequest {
  authorization : option string;
  testMode : bool
}.

(** How the middleware ends: with a 401, with the 402 "Daily limit
    reached" reply, or by calling [next()] with [firebaseUser] set and
    possibly the [X-Daily-Remaining] header.  What the handlers behind
    [next()] do, errors included, is dealt with by the framework's
    dispatcher and is not part of the middleware's outcome. *)
Inductive AccessOutcome :=
  | Unauthorized (message : string)
  | DailyLimitReached (timestamp : string)
  | Proceed (firebaseUser : DecodedToken.t) (dailyRemaining : option string).

(** [s.split(sep)] *)
Fixpoint splitOn (sep : ascii) (s : string) : list string :=
  match s with
  | EmptyString => [EmptyString]
  | String c rest =>
      if Ascii.eqb c sep then EmptyString :: splitOn sep rest
      else match splitOn sep rest with
           | [] => [String c EmptyString]
           | piece :: pieces => String c piece :: pieces
           end
  end.

Definition invalidToken : AccessOutcome :=
  Unauthorized "Invalid or expired Firebase token".

Section AccessControl.

Variable env : Env.
Variable auth : AuthEnv.

(** Whether the subscription check lets the caller through: a helper
    exists, answers, and reports at least one entitlement. *)
Definition isSubscriber (userId : string) (testMode : bool) : bool :=
  match getSubscriptionHelper auth with
  | Some getSubscriptionInfo =>
      match getSubscriptionInfo userId testMode with
      | Some entitlements => negb (Nat.eqb (length entitlements) 0)
      | None => false
      end
  | None => false
  end.

(** The [try] block of the middleware, once the token is decoded. *)
Definition accessControl_body (endpoint : string) (req : AccessRequest)
    (decodedToken : DecodedToken.t) : Async AccessOutcome :=
  let userId := DecodedToken.uid decodedToken in
  if isSiteAdmin auth (DecodedToken.email decodedToken)
  then mret (Proceed decodedToken None)
  else if isSubscriber userId (testMode req)
  then mret (Proceed decodedToken None)
  else
    r ← checkAndRecordAccess env userId endpoint;
    if negb (AccessResult.granted r) then
      now ← newDate env;
      mret (DailyLimitReached (toISOString env now))
    else mret (Proceed decodedToken (Some (pretty (AccessResult.remaining r)))).

(** [createAccessControlMiddleware(endpoint)].  A token that does not
    verify and anything thrown by the [try] block end in the same 401. *)
Definition createAccessControlMiddleware (endpoint : string)
    (req : AccessRequest) : Async AccessOutcome :=
  if negb (truthy (authorization req))
  then mret (Unauthorized "Authorization header required")
  else
    let parts := splitOn " "%char (nullish (authorization req) "") in
    if negb (bool_decide (parts !! 0%nat = Some "Bearer"))
       || negb (truthy (parts !! 1%nat))
    then mret (Unauthorized "Invalid authorization format. Use: Bearer <token>")
    else
      match verifyIdToken auth (nullish (parts !! 1%nat) "") with
      | None => mret invalidToken
      | Some decodedToken =>
          try_catch (accessControl_body endpoint req decodedToken)
                    (fun _ => mret invalidToken)
      end.

End AccessControl.

(** [k] successive calls of [checkAndRecordAccess], results in order. *)
Fixpoint repeatAccess (env : Env) (userId endpoint : string) (k : nat)
  : Async (list AccessResult.t) :=
  match k with
  | O => mret []
  | S k' =>
      r ← checkAndRecordAccess env userId endpoint;
      rs ← repeatAccess env userId endpoint k';
      mret (r :: rs)
  end.

(** The result of the [i]-th of a run of calls that starts with [count]
    accesses already logged. *)
Definition nthAccess (limit count : Z) (i : nat) : AccessResult.t :=
  if (count + Z.of_nat i <? limit)%Z
  then AccessResult.mk true (limit - (count + Z.of_nat i) - 1)
  else AccessResult.mk false 0.

(** ** Stores a hint leaves behind when the store gives up half-way *)

Definition markedStore (userId : string) (s : GameSession.t) (d : Database)
  : Database :=
  mkDatabase (trackedSessions userId s d) (userStats d) (pointTransactions d)
    (accessLogs d).

Definition creditedStore (userId : string) (techniqueLevel now : Z)
    (s : GameSession.t) (d : Database) : Database :=
  mkDatabase (trackedSessions userId s d)
    (trackedStats userId (2 * techniqueLevel)%Z now d)
    (pointTransactions d) (accessLogs d).

(** The columns of a session that identify the puzzle being played. *)
Definition puzzleOf (r : GameSession.t)
  : string * string * string * Z * Z * Z * string * string :=
  (GameSession.userId r, GameSession.board r, GameSession.solution r,
   GameSession.level r, GameSession.techniquesBitfield r,
   GameSession.startedAt r, GameSession.puzzleType r, GameSession.puzzleId r).

Definition isSolverFetch (ev : Event) : bool := negb (isDbEvent ev).

(** More concrete data. *)
Definition aliceToken : DecodedToken.t :=
  DecodedToken.mk "alice" (Some "alice@example.org").

Definition authOf (admins : list string) (subscribers : list string) : AuthEnv :=
  mkAuthEnv
    (fun token => if String.eqb token "good" then Some aliceToken else None)
    (fun email => match email with
                  | Some e => bool_decide (e ∈ admins)
                  | None => false
                  end)
    (Some (fun userId _ =>
             Some (if bool_decide (userId ∈ subscribers) then ["premium"] else []))).

Definition validReply : UrlFetch Z :=
  UrlReply 200 (Some (ApiResult.mk true None (Some 7%Z))).

(** A reply to [fetch(url)] that makes the proxy throw. *)
Definition urlFails {D} (r : UrlFetch D) : bool :=
  match r with
  | UrlNetworkFailure | UrlAborted => true
  | UrlReply status body =>
      negb (response_ok status) || match body with Some _ => false | None => true end
  end.

(** The token of an [Authorization] header the middleware's format check
    lets through: the second piece of a header whose first piece is
    "Bearer". *)
Definition bearerToken (req : AccessRequest) : option string :=
  match authorization req with
  | Some header =>
      match splitOn " "%char header with
      | type :: token :: _ =>
          if String.eqb type "Bearer" && negb (String.eqb token "")
          then Some token else None
      | _ => None
      end
  | None => None
  end.

Fixpoint hasSpace (s : string) : bool :=
  match s with
  | EmptyString => false
  | String c rest => Ascii.eqb c " "%char || hasSpace rest
  end.

(** A solver whose filtered calls come back with HTTP 500, while a call
    without filter finds a level-[n] hint. *)
Definition brokenFilterSolver (n : Z) : Env :=
  mkEnv (fun _ _ p => match SolveParams.techniques p with
                      | Some _ => HttpReply 500 None
                      | None => HttpReply 200 (Some (hintOfLevel n))
                      end)
        (fun _ => false)
        (fun k => (1000 + Z.of_nat k)%Z) (fun t => "2026-01-01T" +:+ pretty t).

(** * Properties *)

(** ** The monad and the store primitives *)

Section Primitives.

Variable env : Env.

Lemma bind_run {A B} (m : Async A) (f : A -> Async B) (w : World) :
  (m ≫= f) w = match m w with
               | (Return a, w') => f a w'
               | (Throw e, w') => (Throw e, w')
               end.
Proof. reflexivity. Qed.

Lemma step_record ev w : step (record ev w) = S (step w).
Proof. unfold step, record. simpl. rewrite length_app. simpl. lia. Qed.

Lemma dbOp_runs {A} ev (run : Database -> A * Database) w :
  dbFails env (step w) = false ->
  dbOp env ev run w =
    (Return (fst (run (db w))), mkWorld (snd (run (db w))) (trace w ++ [ev])).
Proof. intros H. unfold dbOp. rewrite H. destruct (run (db w)); reflexivity. Qed.

Lemma dbOp_fails {A} ev (run : Database -> A * Database) w :
  dbFails env (step w) = true ->
  dbOp env ev run w = (Throw StoreError, record ev w).
Proof. intros H. unfold dbOp. rewrite H. reflexivity. Qed.

(** A store operation that throws leaves the tables as they were. *)
Lemma dbOp_throw_inv {A} ev (run : Database -> A * Database) w e w' :
  dbOp env ev run w = (Throw e, w') ->
  dbFails env (step w) = true /\ w' = record ev w.
Proof.
  unfold dbOp. destruct (dbFails env (step w)).
  - intros [= _ <-]. auto.
  - destruct (run (db w)). discriminate.
Qed.

Lemma dbOp_return_inv {A} ev (run : Database -> A * Database) w a w' :
  dbOp env ev run w = (Return a, w') ->
  dbFails env (step w) = false /\ a = fst (run (db w))
  /\ w' = mkWorld (snd (run (db w))) (trace w ++ [ev]).
Proof.
  unfold dbOp. destruct (dbFails env (step w)); [discriminate|].
  destruct (run (db w)). intros [= <- <-]. auto.
Qed.

Lemma bind_return_inv {A B} (m : Async A) (f : A -> Async B) w b w' :
  (m ≫= f) w = (Return b, w') ->
  exists a w1, m w = (Return a, w1) /\ f a w1 = (Return b, w').
Proof.
  rewrite bind_run. destruct (m w) as [[a|e] w1]; [eauto|discriminate].
Qed.

Lemma try_catch_run {A} (body : Async A) (handler : Error -> Async A) w :
  try_catch body handler w = match body w with
                             | (Return a, w') => (Return a, w')
                             | (Throw e, w') => handler e w'
                             end.
Proof. reflexivity. Qed.

End Primitives.

(** ** The hint-usage tracker *)

Section Tracker.

Variable env : Env.

Lemma filter_map_agree {A} (P : A -> Prop) `{!forall x, Decision (P x)}
    (f g : A -> A) (l : list A) :
  (forall x, P x -> f x = g x /\ P (g x)) ->
  (forall x, ~ P x -> ~ P (f x)) ->
  filter P (map f l) = map g (filter P l).
Proof.
  intros Hin Hout. induction l as [|x l IH]; [reflexivity|].
  simpl map. destruct (decide (P x)) as [HP|HP].
  - destruct (Hin x HP) as [Hfg HPg].
    rewrite (filter_cons_True P x l HP). simpl map.
    rewrite filter_cons_True by (rewrite Hfg; exact HPg).
    rewrite IH, Hfg. reflexivity.
  - rewrite (filter_cons_False P x l HP).
    rewrite filter_cons_False by (apply Hout; exact HP).
    exact IH.
Qed.

Lemma sessionOf_markHint userId n r :
  sessionOf userId (markHint n r) = sessionOf userId r.
Proof. reflexivity. Qed.

Lemma statsOf_setPoints userId p t r :
  statsOf userId (setPoints p t r) = statsOf userId r.
Proof. reflexivity. Qed.

(** After the update, the user's active session is the old one, marked. *)
Lemma activeSession_tracked userId lvl now s d :
  activeSession userId (trackedStore userId lvl now s d)
  = markHint (GameSession.hintsCount s + 1)%Z <$> activeSession userId d.
Proof.
  unfold activeSession, trackedStore, trackedSessions. simpl.
  rewrite (filter_map_agree _ _ (markHint (GameSession.hintsCount s + 1)%Z)).
  - destruct (filter _ (gameSessions d)); reflexivity.
  - intros x Hx. cbv beta in *. rewrite Hx. split; [reflexivity|].
    rewrite sessionOf_markHint. exact Hx.
  - intros x Hx. cbv beta in *.
    destruct (sessionOf userId x) eqn:E; cbv iota; congruence.
Qed.

(** Sessions of other users are left as they were. *)
Lemma otherSession_tracked userId other lvl now s d :
  other <> userId ->
  filter (fun r => sessionOf other r = true)
         (gameSessions (trackedStore userId lvl now s d))
  = filter (fun r => sessionOf other r = true) (gameSessions d).
Proof.
  intros Hne. unfold trackedStore, trackedSessions. simpl.
  rewrite (filter_map_agree _ _ (fun r => r)).
  - rewrite map_id. reflexivity.
  - intros x Hx. cbv beta in *. split; [|exact Hx].
    destruct (sessionOf userId x) eqn:E; [|reflexivity].
    unfold sessionOf in *. apply String.eqb_eq in Hx, E. congruence.
  - intros x Hx. cbv beta in *. destruct (sessionOf userId x); [|exact Hx].
    rewrite sessionOf_markHint. exact Hx.
Qed.

(** The user's total grows by exactly the awarded points. *)
Lemma totalPointsOf_tracked userId lvl now s d :
  totalPointsOf userId (trackedStore userId lvl now s d)
  = (totalPointsOf userId d + 2 * lvl)%Z.
Proof.
  unfold totalPointsOf, trackedStore, trackedStats. simpl.
  destruct (activeStats userId d) as [st|] eqn:E.
  - unfold activeStats in *. simpl.
    rewrite (filter_map_agree _ _
               (setPoints (UserStats.totalPoints st + 2 * lvl)%Z now)).
    + destruct (filter _ (userStats d)) as [|x l]; [discriminate|].
      simpl in *. reflexivity.
    + intros x Hx. cbv beta in *. rewrite Hx. split; [reflexivity|].
      rewrite statsOf_setPoints. exact Hx.
    + intros x Hx. cbv beta in *.
      destruct (statsOf userId x) eqn:E'; cbv iota; congruence.
  - unfold activeStats in *. simpl. rewrite filter_app.
    destruct (filter _ (userStats d)) as [|x l]; [|discriminate].
    simpl. rewrite filter_cons_True.
    + simpl. lia.
    + unfold statsOf, freshStats. simpl. apply String.eqb_refl.
Qed.

Lemma step_mkWorld d t : step (mkWorld d t) = length t.
Proof. reflexivity. Qed.

Lemma length_snoc {A} (l : list A) (x : A) : length (l ++ [x]) = S (length l).
Proof. rewrite length_app. simpl. lia. Qed.

(** With a matching session and a store that answers, the [try] block
    runs to its end. *)
Lemma trackHintUsage_body_tracked userId originalBoard lvl w s :
  activeSession userId (db w) = Some s ->
  GameSession.board s = originalBoard ->
  (forall k, k < 5 -> dbFails env (step w + k) = false) ->
  trackHintUsage_body env userId originalBoard lvl w
  = (Return (TrackResult.mk true (2 * lvl)),
     mkWorld (trackedStore userId lvl (clock env (step w + 3)) s (db w))
             (trace w ++ trackedTrace userId (db w))).
Proof.
  intros Hs Hb Hok.
  assert (H0 := Hok 0 ltac:(lia)). assert (H1 := Hok 1 ltac:(lia)).
  assert (H2 := Hok 2 ltac:(lia)). assert (H3 := Hok 3 ltac:(lia)).
  assert (H4 := Hok 4 ltac:(lia)). clear Hok.
  rewrite Nat.add_0_r in H0.
  replace (step w + 1) with (S (step w)) in H1 by lia.
  replace (step w + 2) with (S (S (step w))) in H2 by lia.
  replace (step w + 3) with (S (S (S (step w)))) in * by lia.
  replace (step w + 4) with (S (S (S (S (step w))))) in H4 by lia.
  unfold trackHintUsage_body, selectGameSessions.
  rewrite bind_run, (dbOp_runs env _ _ w H0). cbn [fst snd].
  unfold activeSession in Hs.
  unfold trackedStore, trackedStats, trackedTrace, activeStats.
  destruct (filter _ (gameSessions (db w))) as [|s0 rest] eqn:Hsel;
    [discriminate|].
  simpl in Hs. injection Hs as ->.
  rewrite Hb, String.eqb_refl. cbn [negb].
  unfold updateGameSessions, selectUserStats.
  rewrite bind_run, dbOp_runs
    by (rewrite step_mkWorld, length_snoc; exact H1).
  cbn [fst snd db trace]. 
  rewrite bind_run, dbOp_runs
    by (rewrite step_mkWorld, !length_snoc; exact H2).
  cbn [fst snd db trace userStats gameSessions pointTransactions accessLogs].
  destruct (filter _ (userStats (db w))) as [|st0 others] eqn:Hst.
  - unfold insertUserStats, insertPointTransaction.
    rewrite bind_run, dbOp_runs
      by (rewrite step_mkWorld, !length_snoc; exact H3).
    cbn [fst snd db trace userStats gameSessions pointTransactions accessLogs].
    rewrite bind_run, dbOp_runs
      by (rewrite step_mkWorld, !length_snoc; exact H4).
    cbn [fst snd db trace userStats gameSessions pointTransactions accessLogs head].
    unfold hintTransaction.
    rewrite <- !app_assoc. reflexivity.
  - unfold updateUserStats, insertPointTransaction.
    rewrite !bind_run. unfold newDate at 1.
    rewrite step_mkWorld, !length_snoc.
    rewrite dbOp_runs by (rewrite step_mkWorld, !length_snoc; exact H3).
    cbn [fst snd db trace userStats gameSessions pointTransactions accessLogs].
    rewrite bind_run, dbOp_runs
      by (rewrite step_mkWorld, !length_snoc; exact H4).
    cbn [fst snd db trace userStats gameSessions pointTransactions accessLogs head].
    unfold hintTransaction.
    rewrite <- !app_assoc. reflexivity.
Qed.

(** The tracker never throws: whatever the [try] block throws is turned
    into "not tracked". *)
Lemma trackHintUsage_catches userId originalBoard lvl w :
  trackHintUsage env userId originalBoard lvl w
  = match trackHintUsage_body env userId originalBoard lvl w with
    | (Return r, w') => (Return r, w')
    | (Throw _, w') => (Return notTracked, w')
    end.
Proof. reflexivity. Qed.

Lemma trackHintUsage_returns userId originalBoard lvl w :
  exists r w', trackHintUsage env userId originalBoard lvl w = (Return r, w').
Proof.
  rewrite trackHintUsage_catches.
  destruct (trackHintUsage_body env userId originalBoard lvl w) as [[r|e] w'];
    eauto.
Qed.

(** Without a session, or with a session on another board, the tracker
    only reads. *)
Lemma trackHintUsage_unmatched userId originalBoard lvl w :
  match activeSession userId (db w) with
  | None => True
  | Some s => GameSession.board s <> originalBoard
  end ->
  trackHintUsage env userId originalBoard lvl w
  = (Return notTracked, record (DbSelect TGameSessions) w).
Proof.
  intros Hs. rewrite trackHintUsage_catches.
  unfold trackHintUsage_body, selectGameSessions. rewrite bind_run.
  destruct (dbFails env (step w)) eqn:Hf.
  - rewrite (dbOp_fails env _ _ w Hf). reflexivity.
  - rewrite (dbOp_runs env _ _ w Hf). cbn [fst snd].
    unfold activeSession in Hs.
    destruct (filter _ (gameSessions (db w))) as [|s rest]; [reflexivity|].
    simpl in Hs. apply String.eqb_neq in Hs. rewrite Hs. reflexivity.
Qed.

(** A hint is reported as tracked only if the session matched and every
    one of the five store operations went through. *)
Lemma trackHintUsage_tracked_inv userId originalBoard lvl w r w' :
  trackHintUsage env userId originalBoard lvl w = (Return r, w') ->
  TrackResult.tracked r = true ->
  exists s, activeSession userId (db w) = Some s
            /\ GameSession.board s = originalBoard
            /\ (forall k, k < 5 -> dbFails env (step w + k) = false).
Proof.
  rewrite trackHintUsage_catches.
  destruct (trackHintUsage_body env userId originalBoard lvl w)
    as [[r0|e] w0] eqn:Hbody; intros [= <- <-] Htr; [|discriminate].
  unfold trackHintUsage_body in Hbody.
  apply bind_return_inv in Hbody as (sessions & w1 & Hsel & Hbody).
  apply dbOp_return_inv in Hsel as (H0 & -> & ->). cbn [fst snd] in Hbody.
  unfold activeSession.
  destruct (filter _ (gameSessions (db w))) as [|s rest].
  { injection Hbody as <- _. discriminate. }
  destruct (String.eqb_spec (GameSession.board s) originalBoard) as [Hb|Hb];
    cbn [negb] in Hbody.
  2:{ injection Hbody as <- _. discriminate. }
  exists s. split; [reflexivity|]. split; [exact Hb|].
  apply bind_return_inv in Hbody as ([] & w2 & Hupd & Hbody).
  apply dbOp_return_inv in Hupd as (H1 & _ & ->).
  apply bind_return_inv in Hbody as (stats & w3 & Hst & Hbody).
  apply dbOp_return_inv in Hst as (H2 & -> & ->).
  apply bind_return_inv in Hbody as ([] & w4 & Hups & Hbody).
  apply bind_return_inv in Hbody as ([] & w5 & Hins & _).
  apply dbOp_return_inv in Hins as (H4 & _ & _).
  unfold step in *. cbn [db trace fst snd] in *.
  rewrite ?length_snoc in *.
  assert (H3 : dbFails env (S (S (S (length (trace w))))) = false
               /\ length (trace w4) = S (S (S (S (length (trace w)))))).
  { destruct (filter _ (userStats _)) as [|st0 others].
    - apply dbOp_return_inv in Hups as (H3 & _ & ->).
      unfold step in *. cbn [db trace fst snd] in *.
      rewrite ?length_snoc in *. auto.
    - apply bind_return_inv in Hups as (now & w6 & Hnow & Hups).
      injection Hnow as <- <-.
      apply dbOp_return_inv in Hups as (H3 & _ & ->).
      unfold step in *. cbn [db trace fst snd] in *.
      rewrite ?length_snoc in *. auto. }
  destruct H3 as [H3 Hw4]. rewrite Hw4 in H4.
  intros k Hk.
  destruct k as [|[|[|[|[|k]]]]]; [..|lia];
    rewrite ?Nat.add_0_r;
    repeat (rewrite Nat.add_succ_r); rewrite ?Nat.add_0_r; assumption.
Qed.

(** The user's statistics row after a tracked hint. *)
Lemma activeStats_tracked userId lvl now s d st :
  activeStats userId d = Some st ->
  activeStats userId (trackedStore userId lvl now s d)
  = Some (setPoints (UserStats.totalPoints st + 2 * lvl)%Z now st)
  /\ length (userStats (trackedStore userId lvl now s d)) = length (userStats d).
Proof.
  intros Hst. unfold trackedStore, trackedStats. cbn [userStats].
  rewrite Hst. split; [|apply length_map].
  unfold activeStats in *. cbn [userStats].
  rewrite (filter_map_agree _ _
             (setPoints (UserStats.totalPoints st + 2 * lvl)%Z now)).
  - destruct (filter _ (userStats d)) as [|x l]; [discriminate|].
    simpl in *. congruence.
  - intros x Hx. cbv beta in *. rewrite Hx. split; [reflexivity|].
    rewrite statsOf_setPoints. exact Hx.
  - intros x Hx. cbv beta in *.
    destruct (statsOf userId x) eqn:E'; cbv iota; congruence.
Qed.

Lemma trackHintUsage_tracked userId originalBoard lvl w s :
  activeSession userId (db w) = Some s ->
  GameSession.board s = originalBoard ->
  (forall k, k < 5 -> dbFails env (step w + k) = false) ->
  trackHintUsage env userId originalBoard lvl w
  = (Return (TrackResult.mk true (2 * lvl)),
     mkWorld (trackedStore userId lvl (clock env (step w + 3)) s (db w))
             (trace w ++ trackedTrace userId (db w))).
Proof.
  intros Hs Hb Hok. rewrite trackHintUsage_catches.
  rewrite (trackHintUsage_body_tracked userId originalBoard lvl w s Hs Hb Hok).
  reflexivity.
Qed.

End Tracker.

(** ** The solver proxy and the solve handler *)

Section Handler.

Variable env : Env.

Lemma proxySolverRequest_world endpoint params w :
  snd (proxySolverRequest env endpoint params w)
  = record (SolverFetch endpoint params) w.
Proof.
  unfold proxySolverRequest.
  destruct (fetch env (step w) endpoint params) as [| |status [r|]];
    try reflexivity; destruct (negb (response_ok status)); reflexivity.
Qed.

(** The proxy returns exactly the JSON body of a 2xx reply. *)
Lemma proxySolverRequest_returns endpoint params w r :
  fst (proxySolverRequest env endpoint params w) = Return r
  <-> exists status, fetch env (step w) endpoint params = HttpReply status (Some r)
                     /\ response_ok status = true.
Proof.
  unfold proxySolverRequest.
  destruct (fetch env (step w) endpoint params) as [| |status [r0|]] eqn:E;
    cbn [fst]; try destruct (response_ok status) eqn:Hok; cbn [negb fst];
    split; try discriminate; try (intros (st & [=] & _); fail).
  - intros [= ->]. eauto.
  - intros (st & [= -> ->] & _). reflexivity.
  - intros (st & [= -> ->] & Hst). congruence.
Qed.

(** Every other reply makes it throw. *)
Lemma proxySolverRequest_throws endpoint params w :
  (exists e, fst (proxySolverRequest env endpoint params w) = Throw e)
  <-> match fetch env (step w) endpoint params with
      | NetworkFailure | Aborted => True
      | HttpReply status body => response_ok status = false \/ body = None
      end.
Proof.
  unfold proxySolverRequest.
  destruct (fetch env (step w) endpoint params) as [| |status [r0|]] eqn:E;
    cbn [fst]; try destruct (response_ok status) eqn:Hok; cbn [negb fst];
    split; eauto; try (intros [e [=]]; fail); intros [|]; discriminate.
Qed.

Lemma callSolver_filtered o u a p t :
  truthy (Some t) = true ->
  callSolver env o u a p (Some t)
  = proxySolverRequest env "solve" (SolveParams.mk o u a p (Some t)).
Proof. intros H. unfold callSolver. rewrite H. reflexivity. Qed.

Lemma callSolver_generic o u a p :
  callSolver env o u a p None
  = proxySolverRequest env "solve" (SolveParams.mk o u a p None).
Proof. reflexivity. Qed.

(** The tracking step always ends in the success response. *)
Lemma trackAndRespond_returns c original d w :
  exists pts w',
    trackAndRespond env c original d w
    = (Return (json (SuccessResponse d pts) None), w').
Proof.
  unfold trackAndRespond.
  destruct (truthy (FirebaseUser.uid <$> firebaseUser c)).
  - rewrite !bind_run.
    destruct (trackHintUsage_returns env
                (nullish (FirebaseUser.uid <$> firebaseUser c) "")
                original (levelOr d 1) w) as (r & w' & ->).
    destruct (TrackResult.tracked r); eauto.
  - eauto.
Qed.

(** Without an authenticated user nothing is tracked: no store operation
    is issued at all. *)
Lemma trackAndRespond_unauthenticated c original d w :
  truthy (FirebaseUser.uid <$> firebaseUser c) = false ->
  trackAndRespond env c original d w
  = (Return (json (SuccessResponse d None) None), w).
Proof. intros H. unfold trackAndRespond. rewrite H. reflexivity. Qed.

(** With one, the tracker runs once and the points are attached exactly
    when it reports the hint as tracked. *)
Lemma trackAndRespond_authenticated c original d w uid r w' :
  firebaseUser c = Some (FirebaseUser.mk uid) ->
  uid <> "" ->
  trackHintUsage env uid original (levelOr d 1) w = (Return r, w') ->
  trackAndRespond env c original d w
  = (Return (json (SuccessResponse d
               (if TrackResult.tracked r
                then Some (PointsEarned.mk (TrackResult.hintPoints r) (levelOr d 1))
                else None)) None), w').
Proof.
  intros Hu Hne Hrun. unfold trackAndRespond. rewrite Hu. cbn [fmap option_fmap option_map truthy nullish FirebaseUser.uid].
  apply String.eqb_neq in Hne. rewrite Hne. cbn [negb].
  rewrite !bind_run, Hrun. destruct (TrackResult.tracked r); reflexivity.
Qed.

Lemma respond_returns c original result w :
  exists resp w', respond env c original result w = (Return resp, w').
Proof.
  unfold respond.
  destruct (SolverResponse.success result); [|eauto].
  destruct (SolverResponse.data result) as [d|]; [|eauto].
  destruct (trackAndRespond_returns c original d w) as (pts & w' & Ht).
  destruct (hintAccess c) as [access|]; [|eauto].
  destruct (exceeds _ _); eauto.
Qed.

(** Once the solver phase has returned, the handler's answer is what
    [respond] makes of the result. *)
Lemma handle_after_solver c w result w1 :
  solverPhase env c w = (Return result, w1) ->
  handleSolveRequest env c w = respond env c (queryOr c "original" "") result w1.
Proof.
  intros H. unfold handleSolveRequest, handleSolveRequest_body.
  rewrite try_catch_run, bind_run, H.
  destruct (respond_returns c (queryOr c "original" "") result w1)
    as (resp & w' & ->).
  reflexivity.
Qed.

(** A solver phase that throws ends in the 503 response. *)
Lemma handle_solver_throws c w e w1 :
  solverPhase env c w = (Throw e, w1) ->
  handleSolveRequest env c w = (Return unavailable, w1).
Proof.
  intros H. unfold handleSolveRequest, handleSolveRequest_body.
  rewrite try_catch_run, bind_run, H. reflexivity.
Qed.

Lemma handleSolveRequest_returns c w :
  exists resp w', handleSolveRequest env c w = (Return resp, w').
Proof.
  destruct (solverPhase env c w) as [[result|e] w1] eqn:H.
  - rewrite (handle_after_solver c w result w1 H). apply respond_returns.
  - rewrite (handle_solver_throws c w e w1 H). eauto.
Qed.

(** For a caller without a user id, [respond] leaves the world alone. *)
Lemma respond_unauthenticated_world c original result w :
  truthy (FirebaseUser.uid <$> firebaseUser c) = false ->
  snd (respond env c original result w) = w.
Proof.
  intros Hu. unfold respond.
  destruct (SolverResponse.success result); [|reflexivity].
  destruct (SolverResponse.data result) as [d|]; [|reflexivity].
  destruct (hintAccess c) as [access|];
    [destruct (exceeds _ _); [reflexivity|]|];
    rewrite (trackAndRespond_unauthenticated c original d w Hu); reflexivity.
Qed.

End Handler.

(** ** The hint gate *)

Section Gate.

Variable env : Env.

Lemma exceeds_above x m : exceeds x m = true <-> above x m.
Proof.
  destruct m as [n|]; simpl.
  - rewrite Z.ltb_lt. reflexivity.
  - split; [discriminate|contradiction].
Qed.

Lemma exceeds_not_above x m : exceeds x m = false <-> ~ above x m.
Proof.
  rewrite <- exceeds_above. destruct (exceeds x m); split; congruence.
Qed.

(** What [respond] does with a successful result when the gate denies. *)
Lemma respond_denied c original result d access w :
  SolverResponse.success result = true ->
  SolverResponse.data result = Some d ->
  hintAccess c = Some access ->
  exceeds (levelOr d 0) (HintAccessContext.maxHintLevel access) = true ->
  respond env c original result w
  = (Return (mkResponse 402
       (HintAccessDeniedResponse
          (HintAccessDenied.mk "HINT_ACCESS_DENIED"
             (deniedMessage (levelOr d 0) (HintAccessContext.maxHintLevel access))
             (levelOr d 0) (getRequiredEntitlement (levelOr d 0))
             (HintAccessContext.userState access))
          (toISOString env (clock env (step w))))), w).
Proof.
  intros Hs Hd Ha Hx. unfold respond. rewrite Hs, Hd, Ha, Hx. reflexivity.
Qed.

(** ... and when it lets the hint through. *)
Lemma respond_allowed c original result d w :
  SolverResponse.success result = true ->
  SolverResponse.data result = Some d ->
  match hintAccess c with
  | Some access =>
      exceeds (levelOr d 0) (HintAccessContext.maxHintLevel access) = false
  | None => True
  end ->
  respond env c original result w = trackAndRespond env c original d w.
Proof.
  intros Hs Hd Ha. unfold respond. rewrite Hs, Hd.
  destruct (hintAccess c) as [access|]; [rewrite Ha|]; reflexivity.
Qed.

(** ... and with an unsuccessful result. *)
Lemma respond_solve_error c original result w :
  SolverResponse.success result = false \/ SolverResponse.data result = None ->
  respond env c original result w
  = (Return (mkResponse 400 (ErrorResponse (solverErrorMessage result))), w).
Proof.
  intros H. unfold respond.
  destruct (SolverResponse.success result), (SolverResponse.data result);
    try reflexivity.
  destruct H; discriminate.
Qed.

End Gate.

(** ** The solver phase *)

Section SolverPhase.

Variable env : Env.

Lemma needsFallback_iff r :
  needsFallback r = true
  <-> SolverResponse.success r = false
      \/ SolverResponse.data r = None
      \/ exists d h, SolverResponse.data r = Some d
                     /\ SolveData.hints d = Some h /\ Hints.level h = 0%Z.
Proof.
  unfold needsFallback.
  destruct (SolverResponse.success r); cbn [negb orb].
  2:{ split; auto. }
  destruct (SolverResponse.data r) as [d|].
  2:{ split; auto. }
  destruct (SolveData.hints d) as [h|] eqn:Hh.
  - rewrite Z.eqb_eq. split.
    + intros Hl. right. right. exists d, h. auto.
    + intros [H|[H|(d' & h' & [= <-] & Hh' & Hl)]]; try discriminate.
      rewrite Hh in Hh'. injection Hh' as <-. exact Hl.
  - split; [discriminate|].
    intros [H|[H|(d' & h' & [= <-] & Hh' & _)]]; try discriminate.
    rewrite Hh in Hh'. discriminate.
Qed.

Lemma proxySolverRequest_run endpoint params w :
  proxySolverRequest env endpoint params w
  = (fst (proxySolverRequest env endpoint params w),
     record (SolverFetch endpoint params) w).
Proof.
  rewrite <- (proxySolverRequest_world env).
  destruct (proxySolverRequest env endpoint params w). reflexivity.
Qed.

Lemma proxySolverRequest_fetchFails endpoint params w :
  fetchFails (fetch env (step w) endpoint params) = true ->
  exists e, proxySolverRequest env endpoint params w
            = (Throw e, record (SolverFetch endpoint params) w).
Proof.
  intros H. rewrite proxySolverRequest_run.
  destruct (proj2 (proxySolverRequest_throws env endpoint params w)) as [e He].
  - destruct (fetch env (step w) endpoint params) as [| |status [r|]];
      try exact I; cbn [fetchFails] in H.
    + left. rewrite orb_false_r in H. apply negb_true_iff in H. exact H.
    + right. reflexivity.
  - exists e. rewrite He. reflexivity.
Qed.

(** Without a (truthy) technique filter there is one generic call. *)
Lemma solverPhase_generic c w :
  truthy (query c !! "techniques") = false ->
  solverPhase env c w = proxySolverRequest env "solve" (paramsOf c None) w.
Proof.
  intros H. unfold solverPhase, solveWithFallback. rewrite H. reflexivity.
Qed.

Lemma truthy_Some t : t <> "" -> truthy (Some t) = true.
Proof. intros H. simpl. apply String.eqb_neq in H. rewrite H. reflexivity. Qed.

(** With one, the filtered call comes first ... *)
Lemma solverPhase_filtered c w t :
  query c !! "techniques" = Some t -> t <> "" ->
  solverPhase env c w
  = match proxySolverRequest env "solve" (paramsOf c (Some t)) w with
    | (Return r1, w1) =>
        if needsFallback r1
        then proxySolverRequest env "solve" (paramsOf c None) w1
        else (Return r1, w1)
    | (Throw e, w1) => (Throw e, w1)
    end.
Proof.
  intros Hq Ht. unfold solverPhase, solveWithFallback. rewrite Hq.
  rewrite (truthy_Some t Ht), bind_run, (callSolver_filtered env)
    by (apply truthy_Some; exact Ht).
  unfold paramsOf.
  destruct (proxySolverRequest env "solve" _ w) as [[r1|e] w1]; [|reflexivity].
  destruct (needsFallback r1); reflexivity.
Qed.

(** The solver phase touches no table and issues no store operation. *)
Lemma solverPhase_world c w :
  exists evs, snd (solverPhase env c w) = mkWorld (db w) (trace w ++ evs)
              /\ noDbEvent evs = true.
Proof.
  destruct (query c !! "techniques") as [t|] eqn:Hq.
  - destruct (String.eqb_spec t "") as [->|Ht].
    + rewrite solverPhase_generic by (rewrite Hq; reflexivity).
      rewrite (proxySolverRequest_world env). eexists [_]. split; reflexivity.
    + rewrite (solverPhase_filtered c w t Hq Ht).
      rewrite proxySolverRequest_run.
      destruct (fst (proxySolverRequest env "solve" (paramsOf c (Some t)) w))
        as [r1|e].
      * destruct (needsFallback r1).
        -- rewrite (proxySolverRequest_world env). unfold record. cbn [db trace].
           rewrite <- app_assoc. eexists [_; _]. split; reflexivity.
        -- eexists [_]. split; reflexivity.
      * eexists [_]. split; reflexivity.
  - rewrite solverPhase_generic by (rewrite Hq; reflexivity).
    rewrite (proxySolverRequest_world env). eexists [_]. split; reflexivity.
Qed.

(** A filtered call that throws is not retried: the error leaves the
    solver phase after that single call. *)
Remark solverPhase_filtered_throw c w t e w1 :
  query c !! "techniques" = Some t -> t <> "" ->
  proxySolverRequest env "solve" (paramsOf c (Some t)) w = (Throw e, w1) ->
  solverPhase env c w
  = (Throw e, record (SolverFetch "solve" (paramsOf c (Some t))) w).
Proof.
  intros Hq Ht Hfirst. rewrite (solverPhase_filtered c w t Hq Ht).
  rewrite proxySolverRequest_run in Hfirst. injection Hfirst as Hf <-.
  rewrite proxySolverRequest_run, Hf. reflexivity.
Qed.

(** A filtered call that finds a proper hint is not retried either. *)
Remark solverPhase_filtered_kept c w t r1 w1 :
  query c !! "techniques" = Some t -> t <> "" ->
  proxySolverRequest env "solve" (paramsOf c (Some t)) w = (Return r1, w1) ->
  needsFallback r1 = false ->
  solverPhase env c w = (Return r1, w1).
Proof.
  intros Hq Ht Hfirst Hkeep. rewrite (solverPhase_filtered c w t Hq Ht).
  rewrite Hfirst, Hkeep. reflexivity.
Qed.

End SolverPhase.

(** ** The tracker under an unreliable store *)

Section TrackerFaults.

Variable env : Env.

Ltac db_step :=
  rewrite bind_run;
  match goal with
  | |- context [dbOp ?e ?ev ?run ?w0] =>
      let H := fresh "Hf" in
      destruct (dbFails e (step w0)) eqn:H;
      [ rewrite (dbOp_fails e ev run w0 H)
      | rewrite (dbOp_runs e ev run w0 H) ]
  end;
  cbn [fst snd record db trace gameSessions userStats pointTransactions accessLogs].

Ltac stop_here :=
  eexists _, _; split; [reflexivity|]; unfold record; cbn [db trace];
  split;
    [ eexists; split;
        [ rewrite <- ?app_assoc; reflexivity
        | split; [discriminate | eexists; reflexivity] ]
    | ].

(** Wherever the tracker stops, the store operations it has issued are an
    initial segment of the five of a tracked hint, and the tables are in
    one of four states: untouched; session marked; session marked and
    points credited; or fully tracked. *)
Lemma trackHintUsage_cases userId originalBoard lvl w :
  exists r w',
    trackHintUsage env userId originalBoard lvl w = (Return r, w')
    /\ (exists evs, trace w' = (trace w ++ evs)%list /\ evs <> []
                    /\ evs `prefix_of` trackedTrace userId (db w))
    /\ ((r = notTracked /\ db w' = db w)
        \/ exists s, activeSession userId (db w) = Some s
                     /\ GameSession.board s = originalBoard
                     /\ ((r = notTracked /\ db w' = markedStore userId s (db w))
                         \/ (r = notTracked
                             /\ db w' = creditedStore userId lvl
                                          (clock env (step w + 3)) s (db w))
                         \/ (r = TrackResult.mk true (2 * lvl)
                             /\ db w' = trackedStore userId lvl
                                          (clock env (step w + 3)) s (db w)))).
Proof.
  rewrite trackHintUsage_catches.
  unfold trackHintUsage_body, selectGameSessions, trackedTrace, activeSession,
    activeStats.
  db_step; [stop_here; left; auto|].
  destruct (filter _ (gameSessions (db w))) as [|s rest] eqn:Hsel;
    [stop_here; left; auto|].
  destruct (String.eqb_spec (GameSession.board s) originalBoard) as [Hb|Hb];
    cbn [negb]; [|stop_here; left; auto].
  unfold updateGameSessions, selectUserStats.
  db_step; [stop_here; left; auto|].
  db_step; [stop_here; right; exists s; auto|].
  unfold markedStore, creditedStore, trackedStore, trackedStats, activeStats.
  destruct (filter _ (userStats (db w))) as [|st0 others] eqn:Hst; cbn [head].
  - unfold insertUserStats, insertPointTransaction.
    db_step; [stop_here; right; exists s; auto|].
    db_step; stop_here; right; exists s; auto 10.
  - unfold updateUserStats, insertPointTransaction.
    rewrite bind_run, bind_run. unfold newDate at 1.
    rewrite step_mkWorld, !length_snoc.
    replace (S (S (S (length (trace w))))) with (step w + 3)
      by (unfold step; lia).
    match goal with
    | |- context [dbOp ?e ?ev ?run ?w0] =>
        destruct (dbFails e (step w0)) eqn:Hf3;
        [ rewrite (dbOp_fails e ev run w0 Hf3)
        | rewrite (dbOp_runs e ev run w0 Hf3) ]
    end;
    cbn [fst snd record db trace gameSessions userStats pointTransactions
           accessLogs];
    [stop_here; right; exists s; auto|].
    db_step; stop_here; right; exists s; auto 10.
Qed.

Lemma puzzleOf_tracked userId s d :
  map puzzleOf (trackedSessions userId s d) = map puzzleOf (gameSessions d).
Proof.
  unfold trackedSessions. rewrite map_map. apply map_ext.
  intros r. destruct (sessionOf userId r); reflexivity.
Qed.

Lemma otherSessions_tracked userId other s d :
  other <> userId ->
  filter (fun r => sessionOf other r = true) (trackedSessions userId s d)
  = filter (fun r => sessionOf other r = true) (gameSessions d).
Proof.
  intros Hne.
  apply (otherSession_tracked userId other 0%Z 0%Z s d Hne).
Qed.

Lemma otherStats_tracked userId other hintPoints now d :
  other <> userId ->
  filter (fun r => statsOf other r = true) (trackedStats userId hintPoints now d)
  = filter (fun r => statsOf other r = true) (userStats d).
Proof.
  intros Hne. unfold trackedStats.
  destruct (activeStats userId d) as [st|].
  - rewrite (filter_map_agree _ _ (fun r => r)).
    + rewrite map_id. reflexivity.
    + intros x Hx. cbv beta in *. split; [|exact Hx].
      destruct (statsOf userId x) eqn:E; [|reflexivity].
      unfold statsOf in *. apply String.eqb_eq in Hx, E. congruence.
    + intros x Hx. cbv beta in *. destruct (statsOf userId x); [|exact Hx].
      rewrite statsOf_setPoints. exact Hx.
  - rewrite filter_app, filter_cons_False, filter_nil, app_nil_r; [reflexivity|].
    unfold statsOf, freshStats. cbn [UserStats.userId].
    intros E. apply String.eqb_eq in E. congruence.
Qed.

End TrackerFaults.

(** ** The solve handler as a whole *)

Section HandlerFacts.

Variable env : Env.

(** The solver calls of one request. *)
Lemma solverPhase_fetches c w :
  exists fetches,
    snd (solverPhase env c w) = mkWorld (db w) (trace w ++ fetches)
    /\ (fetches = [SolverFetch "solve" (paramsOf c None)]
        \/ exists t, query c !! "techniques" = Some t /\ t <> ""
                     /\ (fetches = [SolverFetch "solve" (paramsOf c (Some t))]
                         \/ fetches = [SolverFetch "solve" (paramsOf c (Some t));
                                       SolverFetch "solve" (paramsOf c None)])).
Proof.
  destruct (query c !! "techniques") as [t|] eqn:Hq.
  - destruct (String.eqb_spec t "") as [->|Ht].
    + rewrite solverPhase_generic by (rewrite Hq; reflexivity).
      rewrite (proxySolverRequest_world env). eexists. split; [reflexivity|].
      left. reflexivity.
    + rewrite (solverPhase_filtered env c w t Hq Ht).
      rewrite proxySolverRequest_run.
      destruct (fst (proxySolverRequest env "solve" (paramsOf c (Some t)) w))
        as [r1|e].
      * destruct (needsFallback r1).
        -- rewrite (proxySolverRequest_world env). unfold record. cbn [db trace].
           rewrite <- app_assoc. eexists. split; [reflexivity|].
           right. exists t. auto.
        -- eexists. split; [reflexivity|]. right. exists t. auto.
      * eexists. split; [reflexivity|]. right. exists t. auto.
  - rewrite solverPhase_generic by (rewrite Hq; reflexivity).
    rewrite (proxySolverRequest_world env). eexists. split; [reflexivity|].
    left. reflexivity.
Qed.

(** The two ways the tracking step can go. *)
Lemma trackAndRespond_cases c original d w :
  (truthy (FirebaseUser.uid <$> firebaseUser c) = false
   /\ trackAndRespond env c original d w
      = (Return (mkResponse 200 (SuccessResponse d None)), w))
  \/ exists uid r w',
       firebaseUser c = Some (FirebaseUser.mk uid) /\ uid <> ""
       /\ trackHintUsage env uid original (levelOr d 1) w = (Return r, w')
       /\ trackAndRespond env c original d w
          = (Return (mkResponse 200
               (SuccessResponse d
                  (if TrackResult.tracked r
                   then Some (PointsEarned.mk (TrackResult.hintPoints r)
                                (levelOr d 1))
                   else None))), w').
Proof.
  destruct (truthy (FirebaseUser.uid <$> firebaseUser c)) eqn:Hu.
  - right. destruct (firebaseUser c) as [[uid]|] eqn:Hf; [|discriminate].
    cbn in Hu. apply negb_true_iff, String.eqb_neq in Hu.
    destruct (trackHintUsage_returns env uid original (levelOr d 1) w)
      as (r & w' & Hrun).
    exists uid, r, w'. split; [reflexivity|]. split; [exact Hu|].
    split; [exact Hrun|].
    apply (trackAndRespond_authenticated env c original d w uid r w' Hf Hu Hrun).
  - left. split; [reflexivity|].
    apply trackAndRespond_unauthenticated. exact Hu.
Qed.

(** Every run of the handler is one of four: the solver phase throws;
    the result is unsuccessful; the gate denies; or the tracking step
    runs on the solver's data. *)
Lemma handleSolveRequest_cases c w :
  exists w1,
    db w1 = db w
    /\ snd (solverPhase env c w) = w1
    /\ ((handleSolveRequest env c w = (Return unavailable, w1))
        \/ (exists result,
              handleSolveRequest env c w
              = (Return (mkResponse 400 (ErrorResponse (solverErrorMessage result))),
                 w1))
        \/ (exists error timestamp,
              handleSolveRequest env c w
              = (Return (mkResponse 402 (HintAccessDeniedResponse error timestamp)),
                 w1))
        \/ (exists result d,
              solverPhase env c w = (Return result, w1)
              /\ SolverResponse.data result = Some d
              /\ handleSolveRequest env c w
                 = trackAndRespond env c (queryOr c "original" "") d w1)).
Proof.
  destruct (solverPhase_fetches c w) as (fetches & Hw1 & _).
  exists (snd (solverPhase env c w)). split; [rewrite Hw1; reflexivity|].
  split; [reflexivity|].
  destruct (solverPhase env c w) as [[result|e] w1] eqn:Hphase; cbn [snd].
  - rewrite (handle_after_solver env c w result w1 Hphase).
    destruct (SolverResponse.success result) eqn:Hs;
      [destruct (SolverResponse.data result) as [d|] eqn:Hd|].
    + destruct (hintAccess c) as [access|] eqn:Ha.
      * destruct (exceeds (levelOr d 0) (HintAccessContext.maxHintLevel access))
          eqn:Hx.
        -- rewrite (respond_denied env c _ result d access w1 Hs Hd Ha Hx).
           right. right. left. eauto.
        -- rewrite (respond_allowed env c _ result d w1 Hs Hd)
             by (rewrite Ha; exact Hx).
           right. right. right. eauto.
      * rewrite (respond_allowed env c _ result d w1 Hs Hd)
          by (rewrite Ha; exact I).
        right. right. right. eauto.
    + rewrite (respond_solve_error env c _ result w1) by (right; exact Hd).
      right. left. eauto.
    + rewrite (respond_solve_error env c _ result w1) by (left; exact Hs).
      right. left. eauto.
  - rewrite (handle_solver_throws env c w e w1 Hphase). left. reflexivity.
Qed.

End HandlerFacts.

(** * The claims of the specification *)

(** C1. A solve request that reaches the hint gate with an access decision
    present is denied if and only if the hint's level is strictly greater
    than the decision's [maxHintLevel].  Every denial is a 402 response
    whose error carries the code "HINT_ACCESS_DENIED", the hint level, the
    required entitlement and the caller's user state, and it changes
    nothing in the world; a request that is not denied gets the solver's
    own hint back with status 200. *)
Theorem hint_gate_denies_iff_above env c w result w1 d access :
  solverPhase env c w = (Return result, w1) ->
  SolverResponse.success result = true ->
  SolverResponse.data result = Some d ->
  hintAccess c = Some access ->
  exists resp w',
    handleSolveRequest env c w = (Return resp, w')
    /\ (status resp = 402%Z
        <-> above (levelOr d 0) (HintAccessContext.maxHintLevel access))
    /\ (above (levelOr d 0) (HintAccessContext.maxHintLevel access) ->
        w' = w1 /\
        exists message timestamp,
          resp = mkResponse 402
                   (HintAccessDeniedResponse
                      (HintAccessDenied.mk "HINT_ACCESS_DENIED" message
                         (levelOr d 0) (getRequiredEntitlement (levelOr d 0))
                         (HintAccessContext.userState access))
                      timestamp))
    /\ (~ above (levelOr d 0) (HintAccessContext.maxHintLevel access) ->
        status resp = 200%Z /\ exists points, body resp = SuccessResponse d points).
Proof.
  intros Hphase Hs Hd Ha.
  rewrite (handle_after_solver env c w result w1 Hphase).
  destruct (exceeds (levelOr d 0) (HintAccessContext.maxHintLevel access))
    eqn:Hx.
  - rewrite (respond_denied env c _ result d access w1 Hs Hd Ha Hx).
    apply exceeds_above in Hx.
    eexists _, _. split; [reflexivity|]. cbn [status body].
    split; [tauto|]. split; [eauto|]. tauto.
  - rewrite (respond_allowed env c _ result d w1 Hs Hd)
      by (rewrite Ha; exact Hx).
    destruct (trackAndRespond_returns env c (queryOr c "original" "") d w1)
      as (pts & w' & ->).
    apply exceeds_not_above in Hx.
    eexists _, _. split; [reflexivity|]. cbn [status body json nullish].
    split; [split; [discriminate|tauto]|]. split; [tauto|]. eauto.
Qed.

(** A level-4 hint for a free-tier caller. *)
Lemma hint_gate_denies_iff_above_witness :
  exists resp w',
    handleSolveRequest (solverOfLevel 4 noFaults)
      (requestOf [("original", boardB)] (Some freeTier) (Some "alice"))
      (start storeWithSession) = (Return resp, w')
    /\ (status resp = 402%Z <-> above 4 (Finite 3))
    /\ (above 4 (Finite 3) ->
        w' = snd (solverPhase (solverOfLevel 4 noFaults)
                    (requestOf [("original", boardB)] (Some freeTier) (Some "alice"))
                    (start storeWithSession)) /\
        exists message timestamp,
          resp = mkResponse 402
                   (HintAccessDeniedResponse
                      (HintAccessDenied.mk "HINT_ACCESS_DENIED" message 4
                         (Some Entitlement.blue_belt) UserState.free)
                      timestamp))
    /\ (~ above 4 (Finite 3) ->
        status resp = 200%Z /\
        exists points,
          body resp = SuccessResponse (SolveData.mk "{}" (Some (Hints.mk 4 1))) points).
Proof.
  apply (hint_gate_denies_iff_above (solverOfLevel 4 noFaults)
           (requestOf [("original", boardB)] (Some freeTier) (Some "alice"))
           (start storeWithSession) (hintOfLevel 4)
           (snd (solverPhase (solverOfLevel 4 noFaults)
                   (requestOf [("original", boardB)] (Some freeTier) (Some "alice"))
                   (start storeWithSession)))
           (SolveData.mk "{}" (Some (Hints.mk 4 1))) freeTier);
    vm_compute; reflexivity.
Defined.

(** C9. When the middleware stored no access decision, the denial branch
    cannot be taken: the response is never a 402, and every hint the
    solver returns, whatever its level, is sent back with status 200. *)
Theorem gate_open_without_decision env c w :
  hintAccess c = None ->
  exists resp w',
    handleSolveRequest env c w = (Return resp, w')
    /\ status resp <> 402%Z
    /\ (forall result w1 d,
          solverPhase env c w = (Return result, w1) ->
          SolverResponse.success result = true ->
          SolverResponse.data result = Some d ->
          status resp = 200%Z /\ exists points, body resp = SuccessResponse d points).
Proof.
  intros Ha.
  destruct (solverPhase env c w) as [[result|e] w1] eqn:Hphase.
  - rewrite (handle_after_solver env c w result w1 Hphase).
    destruct (SolverResponse.success result) eqn:Hs;
      [destruct (SolverResponse.data result) as [d|] eqn:Hd|].
    + rewrite (respond_allowed env c _ result d w1 Hs Hd) by (rewrite Ha; exact I).
      destruct (trackAndRespond_returns env c (queryOr c "original" "") d w1)
        as (pts & w' & ->).
      eexists _, _. split; [reflexivity|]. cbn [status body json nullish].
      split; [discriminate|]. intros r' w1' d' [= <- <-] _ Hd'.
      rewrite Hd in Hd'. injection Hd' as <-. eauto.
    + rewrite (respond_solve_error env c _ result w1) by (right; exact Hd).
      eexists _, _. split; [reflexivity|]. cbn [status].
      split; [discriminate|]. intros r' w1' d' [= <- <-] _ Hd'. congruence.
    + rewrite (respond_solve_error env c _ result w1) by (left; exact Hs).
      eexists _, _. split; [reflexivity|]. cbn [status].
      split; [discriminate|]. intros r' w1' d' [= <- <-] Hs' _. congruence.
  - rewrite (handle_solver_throws env c w e w1 Hphase).
    eexists _, _. split; [reflexivity|]. cbn [status unavailable].
    split; [discriminate|]. intros r' w1' d' [=].
Qed.

(** A level-9 hint with no access decision in the context. *)
Lemma gate_open_without_decision_witness :
  exists resp w',
    handleSolveRequest (solverOfLevel 9 noFaults)
      (requestOf [("original", boardB)] None None) (start emptyStore)
    = (Return resp, w')
    /\ status resp <> 402%Z
    /\ (forall result w1 d,
          solverPhase (solverOfLevel 9 noFaults)
            (requestOf [("original", boardB)] None None) (start emptyStore)
          = (Return result, w1) ->
          SolverResponse.success result = true ->
          SolverResponse.data result = Some d ->
          status resp = 200%Z /\ exists points, body resp = SuccessResponse d points).
Proof.
  apply (gate_open_without_decision (solverOfLevel 9 noFaults)
           (requestOf [("original", boardB)] None None) (start emptyStore)).
  reflexivity.
Defined.

(** C5, as the specification states it, fails for a filtered call that
    fails by throwing: with a solver that answers the filtered call with
    HTTP 500 and would answer the generic call with a level-2 hint, the
    handler makes the filtered call only, never retries, and answers 503
    instead of the hint. *)
Lemma failed_filtered_call_is_not_retried :
  let env := brokenFilterSolver 2 in
  let c := requestOf [("original", boardB); ("techniques", "7")]
             (Some freeTier) None in
  let w := start emptyStore in
  fetch env (step w) "solve" (paramsOf c (Some "7")) = HttpReply 500 None
  /\ fst (proxySolverRequest env "solve" (paramsOf c None)
            (record (SolverFetch "solve" (paramsOf c (Some "7"))) w))
     = Return (hintOfLevel 2)
  /\ trace (snd (handleSolveRequest env c w))
     = [SolverFetch "solve" (paramsOf c (Some "7"))]
  /\ fst (handleSolveRequest env c w)
     = Return (mkResponse 503 (ErrorResponse "Solver service unavailable")).
Proof.
  cbv zeta. repeat split; vm_compute; reflexivity.
Qed.

(** C5, amended.  When a technique filter is supplied and the filtered
    solver call returns an unsuccessful response, or no data, or a hint of
    level 0, the handler calls the solver exactly once more, without the
    filter, and its response is the one computed from that second call;
    when no filter is supplied, a single unfiltered call is made; and when
    the filtered call throws (network failure, status outside 200..299,
    abort timer, body that is not JSON) there is no retry: after that one
    call the handler answers 503. *)
Theorem technique_filter_fallback env c w :
  (forall t r1,
     query c !! "techniques" = Some t -> t <> "" ->
     fst (proxySolverRequest env "solve" (paramsOf c (Some t)) w) = Return r1 ->
     (SolverResponse.success r1 = false
      \/ SolverResponse.data r1 = None
      \/ exists d h, SolverResponse.data r1 = Some d
                     /\ SolveData.hints d = Some h /\ Hints.level h = 0%Z) ->
     let w1 := record (SolverFetch "solve" (paramsOf c (Some t))) w in
     let retry := proxySolverRequest env "solve" (paramsOf c None) w1 in
     solverPhase env c w = retry
     /\ trace (snd retry)
        = (trace w ++ [SolverFetch "solve" (paramsOf c (Some t));
                       SolverFetch "solve" (paramsOf c None)])%list
     /\ handleSolveRequest env c w
        = match retry with
          | (Return r2, w2) => respond env c (queryOr c "original" "") r2 w2
          | (Throw _, w2) => (Return unavailable, w2)
          end)
  /\ (truthy (query c !! "techniques") = false ->
      solverPhase env c w = proxySolverRequest env "solve" (paramsOf c None) w
      /\ trace (snd (solverPhase env c w))
         = (trace w ++ [SolverFetch "solve" (paramsOf c None)])%list)
  /\ (forall t,
        query c !! "techniques" = Some t -> t <> "" ->
        fetchFails (fetch env (step w) "solve" (paramsOf c (Some t))) = true ->
        handleSolveRequest env c w
        = (Return (mkResponse 503 (ErrorResponse "Solver service unavailable")),
           mkWorld (db w)
                   (trace w ++ [SolverFetch "solve" (paramsOf c (Some t))]))).
Proof.
  split; [|split].
  - intros t r1 Hq Ht Hfirst Hneed w1 retry.
    apply needsFallback_iff in Hneed.
    assert (Hphase : solverPhase env c w = retry).
    { rewrite (solverPhase_filtered env c w t Hq Ht).
      rewrite proxySolverRequest_run, Hfirst, Hneed. reflexivity. }
    split; [exact Hphase|]. split.
    + unfold retry. rewrite proxySolverRequest_world. unfold w1, record.
      cbn [trace]. rewrite <- app_assoc. reflexivity.
    + destruct retry as [[r2|e] w2] eqn:Hretry.
      * apply handle_after_solver. exact Hphase.
      * apply (handle_solver_throws env c w e w2). exact Hphase.
  - intros Hq. rewrite (solverPhase_generic env c w Hq).
    split; [reflexivity|]. rewrite proxySolverRequest_world. reflexivity.
  - intros t Hq Ht Hfail.
    destruct (proxySolverRequest_fetchFails env _ _ w Hfail) as [e He].
    apply (handle_solver_throws env c w e).
    apply (solverPhase_filtered_throw env c w t e _ Hq Ht He).
Qed.

(** A filter that finds nothing: the level-2 hint of the retry is what
    the caller gets. *)
Lemma technique_filter_fallback_witness :
  let env := narrowSolver 2 in
  let c := requestOf [("original", boardB); ("techniques", "7")]
             (Some freeTier) None in
  let w := start emptyStore in
  trace (snd (solverPhase env c w))
  = [SolverFetch "solve" (paramsOf c (Some "7"));
     SolverFetch "solve" (paramsOf c None)]
  /\ fst (handleSolveRequest env c w)
     = Return (mkResponse 200
                 (SuccessResponse (SolveData.mk "{}" (Some (Hints.mk 2 1))) None))
  /\ handleSolveRequest (brokenFilterSolver 2) c w
     = (Return (mkResponse 503 (ErrorResponse "Solver service unavailable")),
        mkWorld emptyStore [SolverFetch "solve" (paramsOf c (Some "7"))]).
Proof.
  intros env c w.
  destruct (proj1 (technique_filter_fallback env c w) "7" (hintOfLevel 0))
    as (Hphase & Htrace & Hresp).
  - vm_compute. reflexivity.
  - discriminate.
  - vm_compute. reflexivity.
  - right. right. eexists _, _. repeat split; reflexivity.
  - split; [|split].
    + rewrite Hphase, Htrace. reflexivity.
    + rewrite Hresp. vm_compute. reflexivity.
    + apply (proj2 (proj2 (technique_filter_fallback (brokenFilterSolver 2) c w))
               "7").
      * vm_compute. reflexivity.
      * discriminate.
      * reflexivity.
Defined.

(** C7. The failures of the solve flow: when the (possibly retried)
    solver call returns an unsuccessful response or no data, the handler
    answers 400 with the solver's error code and message; when the solver
    call throws, it answers 503 "Solver service unavailable".  The call
    throws on a network failure, on a status outside 200..299 and when the
    abort timer fires, so a timed-out call, be it the first or the retried
    one, always ends in the 503 response. *)
Theorem solve_failure_taxonomy env c w :
  (forall result w1,
     solverPhase env c w = (Return result, w1) ->
     SolverResponse.success result = false \/ SolverResponse.data result = None ->
     handleSolveRequest env c w
     = (Return (mkResponse 400 (ErrorResponse (solverErrorMessage result))), w1)
     /\ forall e, SolverResponse.error result = Some e ->
                  solverErrorMessage result
                  = SolverError.code e +:+ ": " +:+ SolverError.message e)
  /\ (forall e w1,
        solverPhase env c w = (Throw e, w1) ->
        handleSolveRequest env c w
        = (Return (mkResponse 503 (ErrorResponse "Solver service unavailable")), w1))
  /\ (forall endpoint params w0,
        (exists e, fst (proxySolverRequest env endpoint params w0) = Throw e)
        <-> fetchFails (fetch env (step w0) endpoint params) = true)
  /\ (fetchFails (fetch env (step w) "solve"
                    (paramsOf c (if truthy (query c !! "techniques")
                                 then query c !! "techniques" else None))) = true ->
      fst (handleSolveRequest env c w) = Return unavailable)
  /\ (forall t r1,
        query c !! "techniques" = Some t -> t <> "" ->
        fst (proxySolverRequest env "solve" (paramsOf c (Some t)) w) = Return r1 ->
        needsFallback r1 = true ->
        fetchFails (fetch env (S (step w)) "solve" (paramsOf c None)) = true ->
        fst (handleSolveRequest env c w) = Return unavailable).
Proof.
  split; [|split; [|split; [|split]]].
  - intros result w1 Hphase Hbad.
    rewrite (handle_after_solver env c w result w1 Hphase).
    rewrite (respond_solve_error env c _ result w1 Hbad).
    split; [reflexivity|]. intros e He. unfold solverErrorMessage.
    rewrite He. reflexivity.
  - intros e w1 Hphase. apply (handle_solver_throws env c w e w1 Hphase).
  - intros endpoint params w0. rewrite proxySolverRequest_throws.
    destruct (fetch env (step w0) endpoint params) as [| |status [r|]];
      cbn [fetchFails]; try tauto.
    + rewrite orb_false_r, negb_true_iff. split; [intros [H|H]|]; auto.
      discriminate.
    + rewrite orb_true_r. tauto.
  - intros Hfail.
    destruct (query c !! "techniques") as [t|] eqn:Hq.
    + destruct (String.eqb_spec t "") as [->|Ht].
      * cbn [truthy String.eqb negb] in Hfail.
        destruct (proxySolverRequest_fetchFails env _ _ w Hfail) as [e He].
        erewrite handle_solver_throws; [reflexivity|].
        rewrite solverPhase_generic by (rewrite Hq; reflexivity). exact He.
      * rewrite (truthy_Some t Ht) in Hfail.
        destruct (proxySolverRequest_fetchFails env _ _ w Hfail) as [e He].
        erewrite handle_solver_throws; [reflexivity|].
        rewrite (solverPhase_filtered env c w t Hq Ht), He. reflexivity.
    + cbn [truthy] in Hfail.
      destruct (proxySolverRequest_fetchFails env _ _ w Hfail) as [e He].
      erewrite handle_solver_throws; [reflexivity|].
      rewrite solverPhase_generic by (rewrite Hq; reflexivity). exact He.
  - intros t r1 Hq Ht Hfirst Hneed Hfail.
    rewrite <- (step_record (SolverFetch "solve" (paramsOf c (Some t))) w)
      in Hfail.
    destruct (proxySolverRequest_fetchFails env _ _ _ Hfail) as [e He].
    erewrite handle_solver_throws; [reflexivity|].
    rewrite (solverPhase_filtered env c w t Hq Ht).
    rewrite proxySolverRequest_run, Hfirst, Hneed. exact He.
Qed.

(** An unsolvable puzzle, and a solver that times out. *)
Lemma solve_failure_taxonomy_witness :
  fst (handleSolveRequest (solverReplying (HttpReply 200 (Some unsolvable)))
         (requestOf [("original", boardB)] (Some freeTier) None)
         (start emptyStore))
  = Return (mkResponse 400 (ErrorResponse "UNSOLVABLE: no solution"))
  /\ fst (handleSolveRequest (solverReplying Aborted)
            (requestOf [("original", boardB)] (Some freeTier) None)
            (start emptyStore))
     = Return (mkResponse 503 (ErrorResponse "Solver service unavailable")).
Proof.
  split.
  - destruct (proj1 (solve_failure_taxonomy
                       (solverReplying (HttpReply 200 (Some unsolvable)))
                       (requestOf [("original", boardB)] (Some freeTier) None)
                       (start emptyStore))
                unsolvable
                (snd (solverPhase
                        (solverReplying (HttpReply 200 (Some unsolvable)))
                        (requestOf [("original", boardB)] (Some freeTier) None)
                        (start emptyStore))))
      as [Hresp _].
    + vm_compute. reflexivity.
    + left. reflexivity.
    + rewrite Hresp. reflexivity.
  - apply (proj1 (proj2 (proj2 (proj2
             (solve_failure_taxonomy (solverReplying Aborted)
                (requestOf [("original", boardB)] (Some freeTier) None)
                (start emptyStore)))))).
    vm_compute. reflexivity.
Defined.

(** C3. [trackHintUsage] answers "not tracked" with zero points and only
    reads the store (one query, no write, tables unchanged) whenever the
    user has no active session or the session's board differs from the
    board the hint was requested against; and a request without an
    authenticated user id issues no store operation at all. *)
Theorem trackHintUsage_noop env :
  (forall userId originalBoard lvl w,
     activeSession userId (db w) = None
     \/ (exists s, activeSession userId (db w) = Some s
                   /\ GameSession.board s <> originalBoard) ->
     exists w',
       trackHintUsage env userId originalBoard lvl w
       = (Return (TrackResult.mk false 0), w')
       /\ db w' = db w
       /\ trace w' = (trace w ++ [DbSelect TGameSessions])%list)
  /\ (forall c w,
        firebaseUser c = None \/ firebaseUser c = Some (FirebaseUser.mk "") ->
        exists evs,
          snd (handleSolveRequest env c w) = mkWorld (db w) (trace w ++ evs)
          /\ noDbEvent evs = true).
Proof.
  split.
  - intros userId originalBoard lvl w Hs.
    exists (record (DbSelect TGameSessions) w).
    split; [|split; reflexivity].
    apply trackHintUsage_unmatched.
    destruct Hs as [->|(s & -> & Hb)]; [exact I|exact Hb].
  - intros c w Hu.
    assert (Hf : truthy (FirebaseUser.uid <$> firebaseUser c) = false)
      by (destruct Hu as [->| ->]; reflexivity).
    destruct (solverPhase_world env c w) as (evs & Hw & Hevs).
    exists evs. split; [|exact Hevs].
    destruct (solverPhase env c w) as [[result|e] w1] eqn:Hphase;
      cbn [snd] in Hw; subst w1.
    + rewrite (handle_after_solver env c w result _ Hphase).
      apply respond_unauthenticated_world. exact Hf.
    + rewrite (handle_solver_throws env c w e _ Hphase). reflexivity.
Qed.

(** A hint requested against another board than the one in play. *)
Lemma trackHintUsage_noop_witness :
  exists w',
    trackHintUsage (solverOfLevel 3 noFaults) "alice" boardC 3
      (start storeWithStats)
    = (Return (TrackResult.mk false 0), w')
    /\ db w' = storeWithStats
    /\ trace w' = [DbSelect TGameSessions].
Proof.
  apply (proj1 (trackHintUsage_noop (solverOfLevel 3 noFaults))
           "alice" boardC 3%Z (start storeWithStats)).
  right. exists sessionOfAlice. split; [reflexivity|].
  vm_compute. discriminate.
Defined.

(** C4. On a matched hint, with a store that answers, [trackHintUsage]
    performs, in this order: the session query; the session update, which
    sets [hintUsed] and adds one to [hintsCount], leaving the rest of the
    row and the sessions of other users alone; the statistics query; the
    statistics upsert (an existing row gets [hintPoints] added to
    [totalPoints] and a fresh [updatedAt], otherwise a row with
    [totalPoints = hintPoints] is created); and the insertion of one
    point transaction of type "hint_used" with [points = hintPoints] and
    the metadata of the hint and of the session.  These are all the
    changes: no session row is added, removed or given another puzzle,
    the statistics rows of every other user are as they were, and the
    access log is untouched. *)
Theorem tracked_hint_effects env userId originalBoard lvl w s :
  activeSession userId (db w) = Some s ->
  GameSession.board s = originalBoard ->
  (forall k, k < 5 -> dbFails env (step w + k) = false) ->
  exists w',
    trackHintUsage env userId originalBoard lvl w
    = (Return (TrackResult.mk true (2 * lvl)), w')
    /\ trace w'
       = (trace w ++
          [ DbSelect TGameSessions; DbUpdate TGameSessions; DbSelect TUserStats;
            match activeStats userId (db w) with
            | Some _ => DbUpdate TUserStats
            | None => DbInsert TUserStats
            end;
            DbInsert TPointTransactions ])%list
    /\ activeSession userId (db w')
       = Some (GameSession.mk (GameSession.userId s) (GameSession.board s)
                 (GameSession.solution s) (GameSession.level s)
                 (GameSession.techniquesBitfield s) true
                 (GameSession.hintsCount s + 1) (GameSession.startedAt s)
                 (GameSession.puzzleType s) (GameSession.puzzleId s))
    /\ (forall other, other <> userId ->
          filter (fun r => sessionOf other r = true) (gameSessions (db w'))
          = filter (fun r => sessionOf other r = true) (gameSessions (db w)))
    /\ match activeStats userId (db w) with
       | Some st =>
           activeStats userId (db w')
           = Some (UserStats.mk (UserStats.userId st)
                     (UserStats.totalPoints st + 2 * lvl)
                     (Some (clock env (step w + 3))))
           /\ length (userStats (db w')) = length (userStats (db w))
       | None =>
           userStats (db w')
           = (userStats (db w) ++ [UserStats.mk userId (2 * lvl) None])%list
       end
    /\ pointTransactions (db w')
       = (pointTransactions (db w) ++
          [PointTransaction.mk userId (2 * lvl) "hint_used"
             (Metadata.mk lvl (GameSession.level s) (GameSession.puzzleType s)
                (GameSession.puzzleId s))])%list
    /\ accessLogs (db w') = accessLogs (db w)
    /\ (forall other, other <> userId ->
          filter (fun r => statsOf other r = true) (userStats (db w'))
          = filter (fun r => statsOf other r = true) (userStats (db w)))
    /\ map puzzleOf (gameSessions (db w')) = map puzzleOf (gameSessions (db w))
    /\ gameSessions (db w')
       = map (fun r =>
                if String.eqb (GameSession.userId r) userId
                then GameSession.mk (GameSession.userId r) (GameSession.board r)
                       (GameSession.solution r) (GameSession.level r)
                       (GameSession.techniquesBitfield r) true
                       (GameSession.hintsCount s + 1) (GameSession.startedAt r)
                       (GameSession.puzzleType r) (GameSession.puzzleId r)
                else r)
             (gameSessions (db w))
    /\ (forall st, activeStats userId (db w) = Some st ->
          userStats (db w')
          = map (fun r =>
                   if String.eqb (UserStats.userId r) userId
                   then UserStats.mk (UserStats.userId r)
                          (UserStats.totalPoints st + 2 * lvl)
                          (Some (clock env (step w + 3)))
                   else r)
                (userStats (db w))).
Proof.
  intros Hs Hb Hok.
  eexists. split.
  { apply (trackHintUsage_tracked env userId originalBoard lvl w s Hs Hb Hok). }
  cbn [db trace]. split.
  { unfold trackedTrace. destruct (activeStats userId (db w)); reflexivity. }
  split.
  { rewrite activeSession_tracked, Hs. reflexivity. }
  split.
  { intros other Hne. apply otherSession_tracked. exact Hne. }
  split.
  { destruct (activeStats userId (db w)) as [st|] eqn:Hst.
    - apply activeStats_tracked. exact Hst.
    - unfold trackedStore, trackedStats. cbn [userStats]. rewrite Hst.
      reflexivity. }
  split; [reflexivity|]. split; [reflexivity|].
  cbn [trackedStore userStats gameSessions].
  split; [intros other Hne; apply otherStats_tracked; exact Hne|].
  split; [apply puzzleOf_tracked|].
  split; [reflexivity|].
  intros st Hst. unfold trackedStats. rewrite Hst. reflexivity.
Qed.

(** Alice, with 40 points, takes a level-3 hint on the board she plays. *)
Lemma tracked_hint_effects_witness :
  exists w',
    trackHintUsage (solverOfLevel 3 noFaults) "alice" boardB 3
      (start storeWithStats)
    = (Return (TrackResult.mk true 6), w')
    /\ trace w'
       = [ DbSelect TGameSessions; DbUpdate TGameSessions; DbSelect TUserStats;
           DbUpdate TUserStats; DbInsert TPointTransactions ]
    /\ userStats (db w') = [UserStats.mk "alice" 46 (Some 1003%Z)]
    /\ pointTransactions (db w')
       = [PointTransaction.mk "alice" 6 "hint_used"
            (Metadata.mk 3 4 "daily" "2026-01-01")].
Proof.
  destruct (tracked_hint_effects (solverOfLevel 3 noFaults) "alice" boardB 3
              (start storeWithStats) sessionOfAlice)
    as (w' & Hrun & Htrace & _ & _ & _ & Htx & _ & _ & _ & _ & Hstats).
  - reflexivity.
  - reflexivity.
  - intros k _. reflexivity.
  - exists w'. split; [exact Hrun|]. split; [exact Htrace|].
    split; [|exact Htx].
    rewrite (Hstats (UserStats.mk "alice" 40 None) eq_refl). reflexivity.
Defined.

(** C2, as the specification states it, fails: a hint of level 0 on the
    board in play is tracked and awards [2 * 0 = 0] points, not
    [2 * max 0 1 = 2]; the handler hands the level 0 to the tracker as it
    is, since [?? 1] only replaces a missing level. *)
Lemma level0_hint_awards_zero_points :
  let run := trackHintUsage (solverOfLevel 0 noFaults) "alice" boardB 0
               (start storeWithSession) in
  fst run = Return (TrackResult.mk true 0)
  /\ totalPointsOf "alice" (db (snd run)) = 0%Z
  /\ pointTransactions (db (snd run))
     = [PointTransaction.mk "alice" 0 "hint_used"
          (Metadata.mk 0 4 "daily" "2026-01-01")]
  /\ (0 <> 2 * Z.max 0 1)%Z
  /\ fst (handleSolveRequest (solverOfLevel 0 noFaults)
            (requestOf [("original", boardB)] (Some freeTier) (Some "alice"))
            (start storeWithSession))
     = Return (mkResponse 200
                 (SuccessResponse (SolveData.mk "{}" (Some (Hints.mk 0 1)))
                    (Some (PointsEarned.mk 0 0)))).
Proof.
  cbv zeta. repeat split; try (vm_compute; reflexivity). discriminate.
Qed.

(** C2, amended.  Every tracked hint awards exactly [2 * techniqueLevel]
    points, which is [2 * max techniqueLevel 1] as soon as the level is at
    least 1; the user's total grows by exactly that amount, and the one
    point transaction recorded carries the same amount.  The level is the
    one [handleSolveRequest] hands over: whenever its response reports
    points, the tracker was called, and reported the hint as tracked, with
    the hint's own level, or with 1 when the hint has no level, and the
    points reported are twice that level. *)
Theorem tracked_hint_points env userId originalBoard lvl w r w' :
  trackHintUsage env userId originalBoard lvl w = (Return r, w') ->
  TrackResult.tracked r = true ->
  TrackResult.hintPoints r = (2 * lvl)%Z
  /\ (1 <= lvl -> TrackResult.hintPoints r = 2 * Z.max lvl 1)%Z
  /\ totalPointsOf userId (db w')
     = (totalPointsOf userId (db w) + TrackResult.hintPoints r)%Z
  /\ (exists tx,
        pointTransactions (db w') = (pointTransactions (db w) ++ [tx])%list
        /\ PointTransaction.userId tx = userId
        /\ PointTransaction.points tx = TrackResult.hintPoints r)
  /\ (forall c w0 d p w1,
        handleSolveRequest env c w0
        = (Return (mkResponse 200 (SuccessResponse d (Some p))), w1) ->
        PointsEarned.techniqueLevel p
        = match SolveData.hints d with
          | Some h => Hints.level h
          | None => 1%Z
          end
        /\ PointsEarned.points p = (2 * PointsEarned.techniqueLevel p)%Z
        /\ exists uid w2,
             firebaseUser c = Some (FirebaseUser.mk uid)
             /\ trackHintUsage env uid (queryOr c "original" "")
                  (PointsEarned.techniqueLevel p) w2
                = (Return (TrackResult.mk true (PointsEarned.points p)), w1)).
Proof.
  intros Hrun Htr. split; [|split; [|split; [|split]]].
  1-4: destruct (trackHintUsage_tracked_inv env userId originalBoard lvl w r w'
                   Hrun Htr) as (s & Hs & Hb & Hok);
       rewrite (trackHintUsage_tracked env userId originalBoard lvl w s Hs Hb Hok)
         in Hrun;
       injection Hrun as <- <-; cbn [TrackResult.hintPoints db].
  - reflexivity.
  - intros Hl. rewrite Z.max_l by lia. reflexivity.
  - apply totalPointsOf_tracked.
  - eexists. split; [reflexivity|]. split; reflexivity.
  - clear Hrun Htr. intros c w0 d p w1 Hrun.
    destruct (handleSolveRequest_cases env c w0)
      as (w2 & _ & _ & [H|[(result & H)|[(error & ts & H)|(result & d' & _ & _ & H)]]]);
      rewrite H in Hrun; try discriminate.
    destruct (trackAndRespond_cases env c (queryOr c "original" "") d' w2)
      as [[_ Ht]|(uid & r0 & w3 & Hf & Hne & Htrack & Ht)];
      rewrite Ht in Hrun; [discriminate|].
    injection Hrun as <- Hp <-.
    destruct (TrackResult.tracked r0) eqn:Htr0; [|discriminate].
    injection Hp as <-. cbn [PointsEarned.points PointsEarned.techniqueLevel].
    destruct (trackHintUsage_tracked_inv env uid _ _ w2 r0 w3 Htrack Htr0)
      as (s & Hs & Hb & Hok).
    assert (Hr0 : r0 = TrackResult.mk true (2 * levelOr d' 1)).
    { rewrite (trackHintUsage_tracked env uid _ _ w2 s Hs Hb Hok) in Htrack.
      injection Htrack as <- _. reflexivity. }
    subst r0. cbn [TrackResult.hintPoints] in *.
    split; [unfold levelOr; destruct (SolveData.hints d'); reflexivity|].
    split; [reflexivity|].
    exists uid, w2. split; [exact Hf|exact Htrack].
Qed.

(** Alice, with 40 points, takes a level-3 hint: 6 points. *)
Lemma tracked_hint_points_witness :
  let run := trackHintUsage (solverOfLevel 3 noFaults) "alice" boardB 3
               (start storeWithStats) in
  TrackResult.hintPoints (TrackResult.mk true 6) = (2 * 3)%Z
  /\ (1 <= 3 -> TrackResult.hintPoints (TrackResult.mk true 6) = 2 * Z.max 3 1)%Z
  /\ totalPointsOf "alice" (db (snd run))
     = (totalPointsOf "alice" storeWithStats + 6)%Z
  /\ exists tx,
       pointTransactions (db (snd run)) = ([] ++ [tx])%list
       /\ PointTransaction.userId tx = "alice"
       /\ PointTransaction.points tx = 6%Z.
Proof.
  intros run.
  destruct (tracked_hint_points (solverOfLevel 3 noFaults) "alice" boardB 3
              (start storeWithStats) (TrackResult.mk true 6) (snd run))
    as (Hpoints & Hmax & Htotal & Htx & _).
  - vm_compute. reflexivity.
  - reflexivity.
  - split; [exact Hpoints|]. split; [exact Hmax|]. split; [exact Htotal|].
    exact Htx.
Defined.

(** C6. [trackHintUsage] never throws: whatever is thrown by one of its
    store operations is caught and answered with "not tracked", zero
    points.  The handler runs the tracker only for a request with an
    authenticated user id, attaches the points to the success response
    exactly when the tracker reports the hint as tracked, and a request
    that passed the gate is answered with status 200 and the solver's
    hint however the store behaves. *)
Theorem tracking_failure_is_swallowed env :
  (forall userId originalBoard lvl w,
     exists r w',
       trackHintUsage env userId originalBoard lvl w = (Return r, w')
       /\ forall e w0,
            trackHintUsage_body env userId originalBoard lvl w = (Throw e, w0) ->
            r = TrackResult.mk false 0 /\ w' = w0)
  /\ (forall userId originalBoard lvl w,
        dbFails env (step w) = true ->
        trackHintUsage env userId originalBoard lvl w
        = (Return (TrackResult.mk false 0), record (DbSelect TGameSessions) w))
  /\ (forall c original d w,
        firebaseUser c = None \/ firebaseUser c = Some (FirebaseUser.mk "") ->
        trackAndRespond env c original d w
        = (Return (mkResponse 200 (SuccessResponse d None)), w))
  /\ (forall c original d w uid,
        firebaseUser c = Some (FirebaseUser.mk uid) -> uid <> "" ->
        exists r w',
          trackHintUsage env uid original (levelOr d 1) w = (Return r, w')
          /\ trackAndRespond env c original d w
             = (Return (mkResponse 200
                  (SuccessResponse d
                     (if TrackResult.tracked r
                      then Some (PointsEarned.mk (TrackResult.hintPoints r)
                                   (levelOr d 1))
                      else None))), w'))
  /\ (forall c w result w1 d,
        solverPhase env c w = (Return result, w1) ->
        SolverResponse.success result = true ->
        SolverResponse.data result = Some d ->
        match hintAccess c with
        | Some access =>
            ~ above (levelOr d 0) (HintAccessContext.maxHintLevel access)
        | None => True
        end ->
        exists points w',
          handleSolveRequest env c w
          = (Return (mkResponse 200 (SuccessResponse d points)), w')).
Proof.
  split; [|split; [|split; [|split]]].
  - intros userId originalBoard lvl w. rewrite trackHintUsage_catches.
    destruct (trackHintUsage_body env userId originalBoard lvl w)
      as [[r|e] w'].
    + eexists _, _. split; [reflexivity|]. discriminate.
    + eexists _, _. split; [reflexivity|]. intros e' w0 [= _ <-]. auto.
  - intros userId originalBoard lvl w Hf. rewrite trackHintUsage_catches.
    unfold trackHintUsage_body, selectGameSessions.
    rewrite bind_run, (dbOp_fails env _ _ w Hf). reflexivity.
  - intros c original d w Hu. apply trackAndRespond_unauthenticated.
    destruct Hu as [->| ->]; reflexivity.
  - intros c original d w uid Hu Hne.
    destruct (trackHintUsage_returns env uid original (levelOr d 1) w)
      as (r & w' & Hrun).
    exists r, w'. split; [exact Hrun|].
    apply (trackAndRespond_authenticated env c original d w uid r w' Hu Hne Hrun).
  - intros c w result w1 d Hphase Hs Hd Hgate.
    rewrite (handle_after_solver env c w result w1 Hphase).
    rewrite (respond_allowed env c _ result d w1 Hs Hd).
    + apply trackAndRespond_returns.
    + destruct (hintAccess c) as [access|]; [|exact I].
      apply exceeds_not_above. exact Hgate.
Qed.

(** The store gives up part-way through the bookkeeping: the hint is
    served all the same, without points. *)
Lemma tracking_failure_is_swallowed_witness :
  let env := solverOfLevel 3 (faultAt 4) in
  let c := requestOf [("original", boardB)] (Some freeTier) (Some "alice") in
  (exists e w0,
     trackHintUsage_body env "alice" boardB 3 (start storeWithStats)
     = (Throw e, w0))
  /\ fst (trackHintUsage env "alice" boardB 3 (start storeWithStats))
     = Return (TrackResult.mk false 0)
  /\ exists points w',
       handleSolveRequest env c (start storeWithStats)
       = (Return (mkResponse 200
            (SuccessResponse (SolveData.mk "{}" (Some (Hints.mk 3 1))) points)),
          w').
Proof.
  intros env c.
  assert (Hthrow : trackHintUsage_body env "alice" boardB 3 (start storeWithStats)
                   = (Throw StoreError,
                      snd (trackHintUsage_body env "alice" boardB 3
                             (start storeWithStats))))
    by (vm_compute; reflexivity).
  split; [eauto|]. split.
  - destruct (proj1 (tracking_failure_is_swallowed env)
                "alice" boardB 3%Z (start storeWithStats))
      as (r & w' & Hrun & Hcatch).
    destruct (Hcatch _ _ Hthrow) as [-> _]. rewrite Hrun. reflexivity.
  - apply (proj2 (proj2 (proj2 (proj2 (tracking_failure_is_swallowed env))))
             c (start storeWithStats) (hintOfLevel 3)
             (snd (solverPhase env c (start storeWithStats)))).
    + vm_compute. reflexivity.
    + reflexivity.
    + reflexivity.
    + vm_compute. discriminate.
Defined.

(** ** The daily access counter *)

Lemma getDailyLimit_table endpoint :
  getDailyLimit endpoint = if String.eqb endpoint "solve" then 10%Z else 2%Z.
Proof.
  unfold getDailyLimit, DAILY_LIMITS.
  destruct (String.eqb_spec endpoint "solve") as [->|Hsolve];
    [vm_compute; reflexivity|].
  rewrite !lookup_insert.
  repeat case_decide; try reflexivity. congruence.
Qed.

(** C10. With a store that answers, [checkAndRecordAccess] grants access
    if and only if the number of rows logged today for the user and the
    endpoint is strictly below the endpoint's daily limit (10 for "solve",
    2 for "boards", "dailies", "challenges" and for any other endpoint).
    On a grant it appends exactly one row to the access log and returns
    [remaining = limit - count - 1]; on a denial it writes nothing and
    returns [granted = false, remaining = 0]. *)
Theorem checkAndRecordAccess_spec env userId endpoint w :
  dbFails env (step w) = false ->
  let limit := getDailyLimit endpoint in
  let accessCount := countAccess userId endpoint (todayAt env (step w)) (db w) in
  (limit <= accessCount ->
     checkAndRecordAccess env userId endpoint w
     = (Return (AccessResult.mk false 0), record (DbSelect TAccessLogs) w))%Z
  /\ (accessCount < limit -> dbFails env (S (step w)) = false ->
      checkAndRecordAccess env userId endpoint w
      = (Return (AccessResult.mk true (limit - accessCount - 1)),
         mkWorld
           (withAccess (AccessLog.mk userId endpoint (todayAt env (S (step w))))
              (db w))
           (trace w ++ [DbSelect TAccessLogs; DbInsert TAccessLogs])))%Z
  /\ (forall r w',
        checkAndRecordAccess env userId endpoint w = (Return r, w') ->
        AccessResult.granted r = true <-> (accessCount < limit)%Z)
  /\ getDailyLimit "solve" = 10%Z
  /\ getDailyLimit "boards" = 2%Z
  /\ getDailyLimit "dailies" = 2%Z
  /\ getDailyLimit "challenges" = 2%Z
  /\ (endpoint <> "solve" -> limit = 2%Z).
Proof.
  intros H0 limit accessCount.
  assert (Hcount : getAccessCountToday env userId endpoint w
                   = (Return accessCount, record (DbSelect TAccessLogs) w)).
  { unfold getAccessCountToday, getTodayDate, newDate.
    rewrite !bind_run. cbn [mret Async_ret].
    rewrite (dbOp_runs env _ _ w H0). reflexivity. }
  assert (Hdeny : (limit <= accessCount)%Z ->
            checkAndRecordAccess env userId endpoint w
            = (Return (AccessResult.mk false 0), record (DbSelect TAccessLogs) w)).
  { intros Hle. unfold checkAndRecordAccess. rewrite bind_run, Hcount.
    fold limit. apply Z.leb_le in Hle. rewrite Hle. reflexivity. }
  assert (Hstep : forall ok : bool,
            dbFails env (S (step w)) = ok -> (accessCount < limit)%Z ->
            checkAndRecordAccess env userId endpoint w
            = if ok
              then (Throw StoreError,
                    record (DbInsert TAccessLogs)
                      (record (DbSelect TAccessLogs) w))
              else (Return (AccessResult.mk true (limit - accessCount - 1)),
                    mkWorld
                      (withAccess
                         (AccessLog.mk userId endpoint (todayAt env (S (step w))))
                         (db w))
                      (trace w ++ [DbSelect TAccessLogs; DbInsert TAccessLogs]))).
  { intros ok H1 Hlt. unfold checkAndRecordAccess. rewrite bind_run, Hcount.
    fold limit. apply Z.leb_gt in Hlt. rewrite Hlt.
    unfold recordAccess, getTodayDate, newDate. rewrite !bind_run.
    cbn [mret Async_ret]. rewrite <- (step_record (DbSelect TAccessLogs) w) in H1.
    destruct ok.
    - rewrite (dbOp_fails env _ _ _ H1). reflexivity.
    - rewrite (dbOp_runs env _ _ _ H1). cbn [fst snd record db trace].
      unfold withAccess, todayAt. rewrite step_record.
      rewrite <- app_assoc. reflexivity. }
  split; [exact Hdeny|]. split; [intros Hlt H1; exact (Hstep false H1 Hlt)|].
  split.
  { intros r w' Hrun.
    destruct (Z.le_gt_cases limit accessCount) as [Hle|Hlt].
    - rewrite (Hdeny Hle) in Hrun. injection Hrun as <- _. cbn.
      split; [discriminate|lia].
    - rewrite (Hstep _ eq_refl Hlt) in Hrun.
      destruct (dbFails env (S (step w))); [discriminate|].
      injection Hrun as <- _. cbn. tauto. }
  repeat (split; [vm_compute; reflexivity|]).
  intros Hne. unfold limit. rewrite getDailyLimit_table.
  apply String.eqb_neq in Hne. rewrite Hne. reflexivity.
Qed.

(** A user's first and third access to "boards" on the same day. *)
Lemma checkAndRecordAccess_spec_witness :
  let env := solverOfLevel 3 noFaults in
  let row := AccessLog.mk "alice" "boards" "2026-01-01" in
  checkAndRecordAccess env "alice" "boards" (start emptyStore)
  = (Return (AccessResult.mk true 1),
     mkWorld (mkDatabase [] [] [] [row]) [DbSelect TAccessLogs; DbInsert TAccessLogs])
  /\ checkAndRecordAccess env "alice" "boards"
       (start (mkDatabase [] [] [] [row; row]))
     = (Return (AccessResult.mk false 0),
        mkWorld (mkDatabase [] [] [] [row; row]) [DbSelect TAccessLogs]).
Proof.
  intros env row. split.
  - apply (proj1 (proj2 (checkAndRecordAccess_spec env "alice" "boards"
                           (start emptyStore) eq_refl))).
    + vm_compute. reflexivity.
    + reflexivity.
  - apply (proj1 (checkAndRecordAccess_spec env "alice" "boards"
                    (start (mkDatabase [] [] [] [row; row])) eq_refl)).
    vm_compute. discriminate.
Defined.

(** ** The access-tier resolver *)

Ltac tier_case :=
  eexists; split; [reflexivity|]; cbn;
  repeat split; intros; subst; cbn in *; congruence.

(** C8. The access-tier resolver is total, and its rules do not overlap
    once priority is taken into account: a site administrator gets an
    unbounded level; otherwise a holder of [red_belt] gets an unbounded
    level; otherwise a holder of [blue_belt] gets 5; any other
    authenticated caller gets 3, and so does an anonymous one.  A failed
    entitlement lookup leaves a caller who is not an administrator at
    level 3.  In every case the level is the one the tier table gives for
    the resulting user state. *)
Theorem access_tier_total (c : Caller) :
  exists d,
    hintAccessCheck c = Some d
    /\ HintAccessContext.maxHintLevel d = tierLevel (HintAccessContext.userState d)
    /\ (isAdmin c = true -> d = HintAccessContext.mk Unbounded UserState.admin)
    /\ (isAdmin c = false -> holds "red_belt" c = true ->
        d = HintAccessContext.mk Unbounded UserState.red_belt)
    /\ (isAdmin c = false -> holds "red_belt" c = false ->
        holds "blue_belt" c = true ->
        d = HintAccessContext.mk (Finite 5) UserState.blue_belt)
    /\ (isAdmin c = false -> holds "red_belt" c = false ->
        holds "blue_belt" c = false -> isAuthenticated c = true ->
        d = HintAccessContext.mk (Finite 3) UserState.free)
    /\ (c = Anonymous -> d = HintAccessContext.mk (Finite 3) UserState.anonymous)
    /\ (c = Authenticated false LookupFailed ->
        HintAccessContext.maxHintLevel d = Finite 3).
Proof.
  unfold hintAccessCheck, policyTable. cbn [firstMatch applies decision].
  destruct (isAdmin c) eqn:Ha; [tier_case|].
  destruct (holds "red_belt" c) eqn:Hr; [tier_case|].
  destruct (holds "blue_belt" c) eqn:Hb; [tier_case|].
  destruct (isAuthenticated c) eqn:Hau; tier_case.
Qed.

(** A holder of [blue_belt] who also holds nothing else, and an
    administrator whose entitlement lookup failed. *)
Lemma access_tier_total_witness :
  hintAccessCheck (Authenticated false (LookupOk {["blue_belt"]}))
  = Some (HintAccessContext.mk (Finite 5) UserState.blue_belt)
  /\ hintAccessCheck (Authenticated true LookupFailed)
     = Some (HintAccessContext.mk Unbounded UserState.admin).
Proof.
  split.
  - destruct (access_tier_total (Authenticated false (LookupOk {["blue_belt"]})))
      as (d & Hd & _ & _ & _ & Hblue & _).
    rewrite Hd, Hblue; vm_compute; reflexivity.
  - destruct (access_tier_total (Authenticated true LookupFailed))
      as (d & Hd & _ & Hadm & _).
    rewrite Hd, Hadm; reflexivity.
Defined.

(** * Further properties of the code *)

(** ** What the tracker never does *)

(** X1. Whatever the store does, [trackHintUsage] never throws and never
    touches anything but the caller's own bookkeeping: the access log is
    unchanged; no session row is added or removed, and no session changes
    user, board, solution, level or puzzle; the sessions and statistics
    rows of every other user are as they were; and the transaction table
    only grows, by at most one "hint_used" row of the caller. *)
Theorem trackHintUsage_frame env userId originalBoard lvl w :
  exists r w',
    trackHintUsage env userId originalBoard lvl w = (Return r, w')
    /\ accessLogs (db w') = accessLogs (db w)
    /\ map puzzleOf (gameSessions (db w')) = map puzzleOf (gameSessions (db w))
    /\ (forall other, other <> userId ->
          filter (fun x => sessionOf other x = true) (gameSessions (db w'))
          = filter (fun x => sessionOf other x = true) (gameSessions (db w))
          /\ filter (fun x => statsOf other x = true) (userStats (db w'))
             = filter (fun x => statsOf other x = true) (userStats (db w)))
    /\ exists added,
         pointTransactions (db w') = (pointTransactions (db w) ++ added)%list
         /\ length added <= 1
         /\ Forall (fun tx => PointTransaction.userId tx = userId
                              /\ PointTransaction.transactionType tx = "hint_used")
                   added.
Proof.
  destruct (trackHintUsage_cases env userId originalBoard lvl w)
    as (r & w' & Hrun & _ & Hdb).
  exists r, w'. split; [exact Hrun|].
  destruct Hdb as [[_ ->]|(s & _ & _ & [[_ ->]|[[_ ->]|[_ ->]]])];
    cbn [markedStore creditedStore trackedStore accessLogs gameSessions
           userStats pointTransactions];
    (split; [reflexivity|]);
    (split; [try reflexivity; apply puzzleOf_tracked|]);
    (split;
      [ intros other Hne; split;
          [ try reflexivity; apply otherSessions_tracked; exact Hne
          | try reflexivity; apply otherStats_tracked; exact Hne ]
      | ]).
  1-3: exists []; rewrite app_nil_r; repeat split; [simpl; lia|constructor].
  eexists [_]. split; [reflexivity|]. split; [simpl; lia|].
  constructor; [split; reflexivity|constructor].
Qed.

(** X2. Wherever the tracker stops, the store operations it has issued
    are a non-empty initial segment of the fixed sequence: session query,
    session update, statistics query, statistics update or insert,
    transaction insert.  In particular it issues at most five, and never
    a write before the session query. *)
Theorem trackHintUsage_operations env userId originalBoard lvl w :
  exists evs,
    trace (snd (trackHintUsage env userId originalBoard lvl w))
    = (trace w ++ evs)%list
    /\ evs `prefix_of` trackedTrace userId (db w)
    /\ 1 <= length evs <= 5
    /\ head evs = Some (DbSelect TGameSessions).
Proof.
  destruct (trackHintUsage_cases env userId originalBoard lvl w)
    as (r & w' & Hrun & (evs & Htrace & Hne & Hpre) & _).
  rewrite Hrun. exists evs. split; [exact Htrace|]. split; [exact Hpre|].
  destruct Hpre as [rest Hrest].
  assert (Hlen : length (trackedTrace userId (db w)) = 5) by reflexivity.
  rewrite Hrest, length_app in Hlen.
  destruct evs as [|ev evs]; [congruence|].
  split; [simpl in *; lia|].
  unfold trackedTrace in Hrest. injection Hrest as <- _. reflexivity.
Qed.

(** X3. The statistics update and the audit row are not one unit: when
    the store answers the first four operations of a matched hint and
    fails the transaction insert, the session is marked and the points
    are added to the user's total, yet no transaction is recorded and the
    hint is reported as not tracked. *)
Theorem points_credited_without_transaction env userId originalBoard lvl w s :
  activeSession userId (db w) = Some s ->
  GameSession.board s = originalBoard ->
  (forall k, k < 4 -> dbFails env (step w + k) = false) ->
  dbFails env (step w + 4) = true ->
  exists w',
    trackHintUsage env userId originalBoard lvl w
    = (Return (TrackResult.mk false 0), w')
    /\ totalPointsOf userId (db w') = (totalPointsOf userId (db w) + 2 * lvl)%Z
    /\ (GameSession.hintsCount <$> activeSession userId (db w'))
       = Some (GameSession.hintsCount s + 1)%Z
    /\ pointTransactions (db w') = pointTransactions (db w).
Proof.
  intros Hs Hb Hok Hko.
  destruct (trackHintUsage_cases env userId originalBoard lvl w)
    as (r & w' & Hrun & (evs & Htrace & Hne & Hpre) & Hdb).
  assert (Hbody : exists e w0,
            trackHintUsage_body env userId originalBoard lvl w = (Throw e, w0)
            /\ db w0 = creditedStore userId lvl (clock env (step w + 3)) s (db w)).
  { assert (H0 := Hok 0 ltac:(lia)). assert (H1 := Hok 1 ltac:(lia)).
    assert (H2 := Hok 2 ltac:(lia)). assert (H3 := Hok 3 ltac:(lia)).
    clear Hok. rewrite Nat.add_0_r in H0.
    replace (step w + 1) with (S (step w)) in H1 by lia.
    replace (step w + 2) with (S (S (step w))) in H2 by lia.
    replace (step w + 3) with (S (S (S (step w)))) in * by lia.
    replace (step w + 4) with (S (S (S (S (step w))))) in Hko by lia.
    unfold trackHintUsage_body, selectGameSessions.
    rewrite bind_run, (dbOp_runs env _ _ w H0). cbn [fst snd].
    unfold activeSession in Hs. unfold creditedStore, trackedStats, activeStats.
    destruct (filter _ (gameSessions (db w))) as [|s0 rest0] eqn:Hsel;
      [discriminate|].
    simpl in Hs. injection Hs as ->.
    rewrite Hb, String.eqb_refl. cbn [negb].
    unfold updateGameSessions, selectUserStats.
    rewrite bind_run, dbOp_runs
      by (rewrite step_mkWorld, length_snoc; exact H1).
    cbn [fst snd db trace].
    rewrite bind_run, dbOp_runs
      by (rewrite step_mkWorld, !length_snoc; exact H2).
    cbn [fst snd db trace userStats gameSessions pointTransactions accessLogs].
    destruct (filter _ (userStats (db w))) as [|st0 others] eqn:Hst.
    - unfold insertUserStats, insertPointTransaction.
      rewrite bind_run, dbOp_runs
        by (rewrite step_mkWorld, !length_snoc; exact H3).
      cbn [fst snd db trace userStats gameSessions pointTransactions accessLogs].
      rewrite bind_run, dbOp_fails
        by (rewrite step_mkWorld, !length_snoc; exact Hko).
      eexists _, _. split; reflexivity.
    - unfold updateUserStats, insertPointTransaction.
      rewrite !bind_run. unfold newDate at 1.
      rewrite step_mkWorld, !length_snoc.
      rewrite dbOp_runs by (rewrite step_mkWorld, !length_snoc; exact H3).
      cbn [fst snd db trace userStats gameSessions pointTransactions accessLogs].
      rewrite bind_run, dbOp_fails
        by (rewrite step_mkWorld, !length_snoc; exact Hko).
      eexists _, _. split; reflexivity. }
  destruct Hbody as (e & w0 & Hbody & Hw0).
  rewrite trackHintUsage_catches, Hbody in *. injection Hrun as <- <-.
  exists w0. split; [reflexivity|]. rewrite Hw0.
  split; [apply (totalPointsOf_tracked userId lvl _ s (db w))|].
  split; [|reflexivity].
  change (activeSession userId (creditedStore userId lvl (clock env (step w + 3)) s (db w)))
    with (activeSession userId (trackedStore userId lvl (clock env (step w + 3)) s (db w))).
  rewrite activeSession_tracked, Hs. reflexivity.
Qed.

(** The store gives up on the fifth operation of Alice's level-3 hint. *)
Lemma points_credited_without_transaction_witness :
  exists w',
    trackHintUsage (solverOfLevel 3 (faultAt 4)) "alice" boardB 3
      (start storeWithStats)
    = (Return (TrackResult.mk false 0), w')
    /\ totalPointsOf "alice" (db w') = (totalPointsOf "alice" storeWithStats + 2 * 3)%Z
    /\ (GameSession.hintsCount <$> activeSession "alice" (db w')) = Some (0 + 1)%Z
    /\ pointTransactions (db w') = [].
Proof.
  apply (points_credited_without_transaction (solverOfLevel 3 (faultAt 4))
           "alice" boardB 3 (start storeWithStats) sessionOfAlice).
  - reflexivity.
  - reflexivity.
  - intros k Hk. destruct k as [|[|[|[|k]]]]; [reflexivity..|lia].
  - reflexivity.
Defined.

(** X4. Hints accumulate: two matched hints in a row, with a store that
    answers, are both tracked; the session's [hintsCount] grows by two,
    the user's total by the sum of both awards, and the two transactions
    are appended in the order of the calls. *)
Theorem two_hints_accumulate env userId originalBoard l1 l2 w s :
  activeSession userId (db w) = Some s ->
  GameSession.board s = originalBoard ->
  (forall k, k < 10 -> dbFails env (step w + k) = false) ->
  exists w1 w2,
    trackHintUsage env userId originalBoard l1 w
    = (Return (TrackResult.mk true (2 * l1)), w1)
    /\ trackHintUsage env userId originalBoard l2 w1
       = (Return (TrackResult.mk true (2 * l2)), w2)
    /\ (GameSession.hintsCount <$> activeSession userId (db w2))
       = Some (GameSession.hintsCount s + 2)%Z
    /\ totalPointsOf userId (db w2)
       = (totalPointsOf userId (db w) + 2 * l1 + 2 * l2)%Z
    /\ pointTransactions (db w2)
       = (pointTransactions (db w)
          ++ [hintTransaction userId l1 (2 * l1) s;
              hintTransaction userId l2 (2 * l2) s])%list.
Proof.
  intros Hs Hb Hok.
  pose (w1 := mkWorld (trackedStore userId l1 (clock env (step w + 3)) s (db w))
                      (trace w ++ trackedTrace userId (db w))).
  assert (Hrun1 : trackHintUsage env userId originalBoard l1 w
                  = (Return (TrackResult.mk true (2 * l1)), w1)).
  { apply trackHintUsage_tracked; [exact Hs|exact Hb|].
    intros k Hk. apply Hok. lia. }
  assert (Hstep : step w1 = step w + 5).
  { unfold w1, step. cbn [trace]. rewrite length_app. reflexivity. }
  assert (Hs1 : activeSession userId (db w1)
                = Some (markHint (GameSession.hintsCount s + 1)%Z s)).
  { unfold w1. cbn [db]. rewrite activeSession_tracked, Hs. reflexivity. }
  eexists w1, _. split; [exact Hrun1|]. split.
  { apply (trackHintUsage_tracked env userId originalBoard l2 w1 _ Hs1).
    - exact Hb.
    - intros k Hk. rewrite Hstep, <- Nat.add_assoc. apply Hok. lia. }
  cbn [db]. split.
  { rewrite activeSession_tracked, Hs1. cbn. f_equal. lia. }
  split.
  { rewrite totalPointsOf_tracked. unfold w1. cbn [db].
    rewrite totalPointsOf_tracked. lia. }
  unfold w1. cbn [db trackedStore pointTransactions].
  rewrite <- app_assoc. reflexivity.
Qed.

(** Alice takes a level-3 and then a level-2 hint. *)
Lemma two_hints_accumulate_witness :
  exists w1 w2,
    trackHintUsage (solverOfLevel 3 noFaults) "alice" boardB 3
      (start storeWithStats)
    = (Return (TrackResult.mk true (2 * 3)), w1)
    /\ trackHintUsage (solverOfLevel 3 noFaults) "alice" boardB 2 w1
       = (Return (TrackResult.mk true (2 * 2)), w2)
    /\ (GameSession.hintsCount <$> activeSession "alice" (db w2)) = Some (0 + 2)%Z
    /\ totalPointsOf "alice" (db w2) = (40 + 2 * 3 + 2 * 2)%Z
    /\ pointTransactions (db w2)
       = ([] ++ [hintTransaction "alice" 3 (2 * 3) sessionOfAlice;
                 hintTransaction "alice" 2 (2 * 2) sessionOfAlice])%list.
Proof.
  apply (two_hints_accumulate (solverOfLevel 3 noFaults) "alice" boardB 3 2
           (start storeWithStats) sessionOfAlice).
  - reflexivity.
  - reflexivity.
  - intros k _. reflexivity.
Defined.

(** ** What one solve request costs and reports *)

(** X5. The solve handler always answers, with status 200, 400, 402 or
    503; and unless the status is 200 the request has changed nothing in
    the store and issued no store operation: a denial, a solver error or
    an outage never marks a session or awards points. *)
Theorem unsuccessful_solve_leaves_store env c w :
  exists resp w',
    handleSolveRequest env c w = (Return resp, w')
    /\ (status resp = 200 \/ status resp = 400 \/ status resp = 402
        \/ status resp = 503)%Z
    /\ (status resp <> 200%Z ->
        db w' = db w
        /\ exists evs, trace w' = (trace w ++ evs)%list /\ noDbEvent evs = true).
Proof.
  destruct (handleSolveRequest_cases env c w)
    as (w1 & Hdb & Hw1 & [H|[(result & H)|[(error & ts & H)|(result & d & _ & _ & H)]]]).
  1-3: rewrite H; eexists _, _; (split; [reflexivity|]); cbn [status unavailable];
       (split; [auto|]); intros _; (split; [exact Hdb|]);
       destruct (solverPhase_world env c w) as (evs & Hevs & Hno);
       exists evs; rewrite <- Hw1, Hevs; auto.
  rewrite H.
  destruct (trackAndRespond_returns env c (queryOr c "original" "") d w1)
    as (pts & w' & ->).
  eexists _, _. split; [reflexivity|]. cbn [status json nullish].
  split; [auto|]. congruence.
Qed.

(** X6. One request costs at most two solver calls and five store
    operations: the trace grows by the solver calls, all to the "solve"
    endpoint (one generic call, or the filtered call possibly followed by
    the generic one, the latter only with a non-empty technique filter),
    followed, for an authenticated caller only, by an initial segment of
    the tracker's five store operations. *)
Theorem solve_request_operations env c w :
  exists fetches ops,
    trace (snd (handleSolveRequest env c w)) = (trace w ++ fetches ++ ops)%list
    /\ (fetches = [SolverFetch "solve" (paramsOf c None)]
        \/ exists t, query c !! "techniques" = Some t /\ t <> ""
                     /\ (fetches = [SolverFetch "solve" (paramsOf c (Some t))]
                         \/ fetches = [SolverFetch "solve" (paramsOf c (Some t));
                                       SolverFetch "solve" (paramsOf c None)]))
    /\ (ops = []
        \/ exists uid, firebaseUser c = Some (FirebaseUser.mk uid) /\ uid <> ""
                       /\ ops `prefix_of` trackedTrace uid (db w))
    /\ 1 <= length fetches <= 2 /\ length ops <= 5.
Proof.
  destruct (solverPhase_fetches env c w) as (fetches & Hw & Hfetches).
  assert (Hlen : 1 <= length fetches <= 2).
  { destruct Hfetches as [->|(t & _ & _ & [->| ->])]; simpl; lia. }
  destruct (handleSolveRequest_cases env c w)
    as (w1 & Hdb & Hw1 & [H|[(result & H)|[(error & ts & H)|(result & d & _ & _ & H)]]]).
  1-3: exists fetches, []; rewrite H; cbn [snd]; rewrite <- Hw1, Hw;
       rewrite app_nil_r; (split; [reflexivity|]); (split; [exact Hfetches|]);
       (split; [left; reflexivity|]); split; [exact Hlen|simpl; lia].
  rewrite H.
  destruct (trackAndRespond_cases env c (queryOr c "original" "") d w1)
    as [[_ ->]|(uid & r & w' & Hf & Hne & Hrun & ->)]; cbn [snd].
  - exists fetches, []. rewrite <- Hw1, Hw, app_nil_r.
    split; [reflexivity|]. split; [exact Hfetches|].
    split; [left; reflexivity|]. split; [exact Hlen|simpl; lia].
  - destruct (trackHintUsage_cases env uid (queryOr c "original" "")
                (levelOr d 1) w1)
      as (r' & w'' & Hrun' & (ops & Htrace & _ & Hpre) & _).
    rewrite Hrun in Hrun'. injection Hrun' as <- <-.
    assert (Hops : length ops <= 5).
    { destruct Hpre as [rest Hrest].
      assert (H5 : length (trackedTrace uid (db w1)) = 5) by reflexivity.
      rewrite Hrest, length_app in H5. lia. }
    exists fetches, ops. rewrite Htrace, <- Hw1, Hw. cbn [trace db] in *.
    rewrite <- Hw1, Hw in Hpre. cbn [db] in Hpre.
    split; [rewrite app_assoc; reflexivity|]. split; [exact Hfetches|].
    split; [right; exists uid; auto|]. split; [exact Hlen|exact Hops].
Qed.

(** X7. The points a success response reports are the points the store
    has credited: whenever the response carries a [points] object, the
    caller is authenticated, the reported technique level is the hint's
    level (1 when the hint has none), the reported points are twice
    that level, and the caller's total has grown by exactly that amount. *)
Theorem reported_points_are_credited env c w d p w' :
  handleSolveRequest env c w
  = (Return (mkResponse 200 (SuccessResponse d (Some p))), w') ->
  exists uid,
    firebaseUser c = Some (FirebaseUser.mk uid) /\ uid <> ""
    /\ PointsEarned.techniqueLevel p = levelOr d 1
    /\ PointsEarned.points p = (2 * PointsEarned.techniqueLevel p)%Z
    /\ totalPointsOf uid (db w')
       = (totalPointsOf uid (db w) + PointsEarned.points p)%Z.
Proof.
  intros Hrun.
  destruct (handleSolveRequest_cases env c w)
    as (w1 & Hdb & Hw1 & [H|[(result & H)|[(error & ts & H)|(result & d' & _ & _ & H)]]]);
    rewrite H in Hrun; try discriminate.
  destruct (trackAndRespond_cases env c (queryOr c "original" "") d' w1)
    as [[_ Ht]|(uid & r & w2 & Hf & Hne & Htrack & Ht)];
    rewrite Ht in Hrun; [discriminate|].
  injection Hrun as <- Hp <-.
  destruct (TrackResult.tracked r) eqn:Htr; [|discriminate].
  injection Hp as <-. cbn [PointsEarned.points PointsEarned.techniqueLevel].
  exists uid. split; [exact Hf|]. split; [exact Hne|]. split; [reflexivity|].
  destruct (trackHintUsage_tracked_inv env uid _ _ w1 r w2 Htrack Htr)
    as (s & Hs & Hb & Hok).
  rewrite (trackHintUsage_tracked env uid _ _ w1 s Hs Hb Hok) in Htrack.
  injection Htrack as <- <-. cbn [TrackResult.hintPoints db].
  split; [reflexivity|]. rewrite totalPointsOf_tracked, Hdb. reflexivity.
Qed.

(** Alice's level-3 hint, as the client sees it. *)
Lemma reported_points_are_credited_witness :
  exists uid,
    Some (FirebaseUser.mk "alice") = Some (FirebaseUser.mk uid) /\ uid <> ""
    /\ 3%Z = 3%Z /\ 6%Z = (2 * 3)%Z
    /\ totalPointsOf uid
         (db (snd (handleSolveRequest (solverOfLevel 3 noFaults)
                     (requestOf [("original", boardB)] (Some freeTier) (Some "alice"))
                     (start storeWithStats))))
       = (totalPointsOf uid storeWithStats + 6)%Z.
Proof.
  apply (reported_points_are_credited (solverOfLevel 3 noFaults)
           (requestOf [("original", boardB)] (Some freeTier) (Some "alice"))
           (start storeWithStats)
           (SolveData.mk "{}" (Some (Hints.mk 3 1))) (PointsEarned.mk 6 3)
           (snd (handleSolveRequest (solverOfLevel 3 noFaults)
                   (requestOf [("original", boardB)] (Some freeTier) (Some "alice"))
                   (start storeWithStats)))).
  vm_compute. reflexivity.
Defined.

(** ** The validate and generate routes *)

Section RouteFacts.

Variable D : Type.
Variable SOLVER_URL : string.
Variable fetchUrl : string -> UrlFetch D.

Lemma proxyByUrl_throws endpoint queryString :
  (exists e, proxyByUrl D SOLVER_URL fetchUrl endpoint queryString = inl e)
  <-> urlFails (fetchUrl (solverUrl SOLVER_URL endpoint queryString)) = true.
Proof.
  unfold proxyByUrl.
  destruct (fetchUrl _) as [| |status [r|]]; cbn [urlFails];
    try destruct (response_ok status); cbn [negb orb];
    split; eauto; try discriminate; intros [e He]; discriminate.
Qed.

Lemma relay_unavailable endpoint queryString dflt failure :
  urlFails (fetchUrl (solverUrl SOLVER_URL endpoint queryString)) = true ->
  relay D SOLVER_URL fetchUrl endpoint queryString dflt failure
  = (mkRouteReply 503 (RouteError "Solver service unavailable"),
     [solverUrl SOLVER_URL endpoint queryString]).
Proof.
  intros H. apply proxyByUrl_throws in H as [e He].
  unfold relay. rewrite He. reflexivity.
Qed.

Lemma relay_answered endpoint queryString dflt failure st r :
  fetchUrl (solverUrl SOLVER_URL endpoint queryString) = UrlReply st (Some r) ->
  response_ok st = true ->
  relay D SOLVER_URL fetchUrl endpoint queryString dflt failure
  = (match ApiResult.success r, ApiResult.data r with
     | true, Some d => mkRouteReply 200 (RouteSuccess d)
     | _, _ => mkRouteReply failure (RouteError (routeErrorMessage D r dflt))
     end, [solverUrl SOLVER_URL endpoint queryString]).
Proof.
  intros Hf Hok. unfold relay, proxyByUrl. rewrite Hf, Hok. cbn [negb].
  destruct (ApiResult.success r), (ApiResult.data r); reflexivity.
Qed.

(** Either the one fetch fails, or it is a 2xx reply with a JSON body. *)
Lemma fetch_trichotomy (url : string) :
  urlFails (fetchUrl url) = true
  \/ exists st r, fetchUrl url = UrlReply st (Some r) /\ response_ok st = true.
Proof.
  destruct (fetchUrl url) as [| |st [r|]]; cbn [urlFails]; auto.
  - destruct (response_ok st) eqn:Hok; cbn [negb orb]; eauto.
  - rewrite orb_true_r. auto.
Qed.

Lemma urlFails_answered (url : string) st r :
  fetchUrl url = UrlReply st (Some r) -> response_ok st = true ->
  urlFails (fetchUrl url) = false.
Proof. intros -> Hok. cbn [urlFails]. rewrite Hok. reflexivity. Qed.

(** What [relay] answers, and that it fetches exactly one URL. *)
Lemma relay_spec endpoint queryString dflt failure :
  failure <> 200%Z -> failure <> 503%Z ->
  let url := solverUrl SOLVER_URL endpoint queryString in
  let run := relay D SOLVER_URL fetchUrl endpoint queryString dflt failure in
  snd run = [url]
  /\ (routeStatus (fst run) = 200 \/ routeStatus (fst run) = failure
      \/ routeStatus (fst run) = 503)%Z
  /\ (routeStatus (fst run) = 503%Z <-> urlFails (fetchUrl url) = true)
  /\ (routeStatus (fst run) = 503%Z ->
      routeBody (fst run) = RouteError "Solver service unavailable")
  /\ (forall d, routeBody (fst run) = RouteSuccess d <->
        routeStatus (fst run) = 200%Z
        /\ exists st r, fetchUrl url = UrlReply st (Some r)
                        /\ response_ok st = true
                        /\ ApiResult.success r = true
                        /\ ApiResult.data r = Some d)
  /\ (routeStatus (fst run) = failure ->
      exists st r, fetchUrl url = UrlReply st (Some r)
                   /\ response_ok st = true
                   /\ (ApiResult.success r = false \/ ApiResult.data r = None)
                   /\ routeBody (fst run) = RouteError (routeErrorMessage D r dflt)).
Proof.
  intros H200 H503 url run.
  destruct (fetch_trichotomy url) as [Hfail|(st & r & Hf & Hok)].
  - unfold run. rewrite (relay_unavailable _ _ _ _ Hfail).
    cbn [fst snd routeStatus routeBody]. fold url.
    split; [reflexivity|]. split; [auto|]. split; [tauto|].
    split; [reflexivity|]. split.
    + intros d. split; [discriminate|]. intros [Hst _]. discriminate.
    + intros Hst. congruence.
  - assert (Hnf := urlFails_answered url st r Hf Hok).
    unfold run. rewrite (relay_answered _ _ dflt failure st r Hf Hok). fold url.
    destruct (ApiResult.success r) eqn:Hs;
      [destruct (ApiResult.data r) as [d0|] eqn:Hd|];
      cbn [fst snd routeStatus routeBody];
      (split; [reflexivity|]); (split; [auto|]);
      (split; [split; congruence|]); (split; [congruence|]).
    + split; [|congruence]. intros d. split.
      * intros [= <-]. split; [reflexivity|]. eauto 10.
      * intros [_ (st' & r' & Hf' & _ & _ & Hd')].
        rewrite Hf in Hf'. injection Hf' as <- <-. congruence.
    + split.
      * intros d. split; [discriminate|]. intros [Hst _]. congruence.
      * intros _. eauto 10.
    + split.
      * intros d. split; [discriminate|]. intros [Hst _]. congruence.
      * intros _. eauto 10.
Qed.

Lemma append_empty_r (s : string) : s +:+ "" = s.
Proof.
  induction s as [|c s IH]; [reflexivity|].
  change (String c (s +:+ "") = String c s). f_equal. exact IH.
Qed.

(** The query string goes to the solver as it came in. *)
Lemma solverUrl_forwards endpoint q :
  solverUrl SOLVER_URL endpoint (slice1 "") = SOLVER_URL +:+ "/api/" +:+ endpoint
  /\ (q <> "" ->
      solverUrl SOLVER_URL endpoint (slice1 ("?" +:+ q))
      = SOLVER_URL +:+ "/api/" +:+ endpoint +:+ "?" +:+ q).
Proof.
  unfold solverUrl. split.
  - cbn [slice1 String.eqb]. rewrite append_empty_r. reflexivity.
  - intros Hq. change (slice1 ("?" +:+ q)) with q.
    apply String.eqb_neq in Hq. rewrite Hq. reflexivity.
Qed.

(** The reply of [relay] in each of its three cases. *)
Lemma relay_exact endpoint queryString dflt failure :
  let url := solverUrl SOLVER_URL endpoint queryString in
  let run := relay D SOLVER_URL fetchUrl endpoint queryString dflt failure in
  (urlFails (fetchUrl url) = true ->
   run = (mkRouteReply 503 (RouteError "Solver service unavailable"), [url]))
  /\ (forall st r d,
        fetchUrl url = UrlReply st (Some r) -> response_ok st = true ->
        ApiResult.success r = true -> ApiResult.data r = Some d ->
        run = (mkRouteReply 200 (RouteSuccess d), [url]))
  /\ (forall st r,
        fetchUrl url = UrlReply st (Some r) -> response_ok st = true ->
        ApiResult.success r = false \/ ApiResult.data r = None ->
        run = (mkRouteReply failure (RouteError (routeErrorMessage D r dflt)),
               [url])).
Proof.
  cbv zeta. split; [apply relay_unavailable|]. split.
  - intros st r d Hf Hok Hs Hd.
    rewrite (relay_answered _ _ dflt failure st r Hf Hok), Hs, Hd. reflexivity.
  - intros st r Hf Hok Hbad.
    rewrite (relay_answered _ _ dflt failure st r Hf Hok).
    destruct (ApiResult.success r), (ApiResult.data r); try reflexivity.
    destruct Hbad; discriminate.
Qed.

(** The status tells the three cases apart. *)
Lemma relay_status_iff endpoint queryString dflt failure :
  failure <> 200%Z -> failure <> 503%Z ->
  let url := solverUrl SOLVER_URL endpoint queryString in
  let reply := fst (relay D SOLVER_URL fetchUrl endpoint queryString dflt failure) in
  (routeStatus reply = 200%Z
   <-> exists st r d, fetchUrl url = UrlReply st (Some r)
                      /\ response_ok st = true
                      /\ ApiResult.success r = true
                      /\ ApiResult.data r = Some d)
  /\ (routeStatus reply = failure
      <-> exists st r, fetchUrl url = UrlReply st (Some r)
                       /\ response_ok st = true
                       /\ (ApiResult.success r = false \/ ApiResult.data r = None)).
Proof.
  intros H200 H503 url reply.
  destruct (relay_exact endpoint queryString dflt failure)
    as (Hdown & Hgood & Hbad). fold url in Hdown, Hgood, Hbad.
  destruct (fetch_trichotomy url) as [Hfail|(st & r & Hf & Hok)].
  - unfold reply. rewrite (Hdown Hfail). cbn [fst routeStatus].
    split; (split; [congruence|]).
    + intros (st & r & d & Hf & Hok & _).
      rewrite (urlFails_answered url st r Hf Hok) in Hfail. discriminate.
    + intros (st & r & Hf & Hok & _).
      rewrite (urlFails_answered url st r Hf Hok) in Hfail. discriminate.
  - destruct (ApiResult.success r) eqn:Hs;
      [destruct (ApiResult.data r) as [d|] eqn:Hd|].
    + unfold reply. rewrite (Hgood st r d Hf Hok Hs Hd). cbn [fst routeStatus].
      split.
      * split; [eauto 10|reflexivity].
      * split; [congruence|].
        intros (st' & r' & Hf' & _ & Hbad').
        rewrite Hf in Hf'. injection Hf' as <- <-.
        destruct Hbad'; congruence.
    + unfold reply. rewrite (Hbad st r Hf Hok (or_intror Hd)).
      cbn [fst routeStatus]. split.
      * split; [congruence|].
        intros (st' & r' & d' & Hf' & _ & _ & Hd').
        rewrite Hf in Hf'. injection Hf' as <- <-. congruence.
      * split; [eauto 10|reflexivity].
    + unfold reply. rewrite (Hbad st r Hf Hok (or_introl Hs)).
      cbn [fst routeStatus]. split.
      * split; [congruence|].
        intros (st' & r' & d' & Hf' & _ & Hs' & _).
        rewrite Hf in Hf'. injection Hf' as <- <-. congruence.
      * split; [eauto 10|reflexivity].
Qed.

(** With an 81-character puzzle, [validateRoute] is the relay. *)
Lemma validateRoute_relay c search :
  String.length (queryOr c "original" "") = 81 ->
  validateRoute D SOLVER_URL fetchUrl c search
  = relay D SOLVER_URL fetchUrl "validate" (slice1 search) "Validation failed" 400.
Proof.
  intros Hlen. unfold validateRoute.
  assert (Hne : String.eqb (queryOr c "original" "") "" = false).
  { apply String.eqb_neq. intros E. rewrite E in Hlen. discriminate. }
  rewrite Hne. apply Nat.eqb_eq in Hlen. rewrite Hlen. reflexivity.
Qed.

End RouteFacts.

(** X8. [GET /validate] contacts the solver if and only if [original] is
    exactly 81 characters long: a missing, empty, shorter or longer puzzle
    is answered 400 "Invalid puzzle: original must be 81 characters"
    without any request to the solver; an 81-character one causes exactly
    one request, to [SOLVER_URL/api/validate] with the query string of the
    incoming URL appended as it came in. *)
Theorem validate_checks_length D SOLVER_URL (fetchUrl : string -> UrlFetch D)
    c search :
  (String.length (queryOr c "original" "") <> 81 ->
   validateRoute D SOLVER_URL fetchUrl c search
   = (mkRouteReply 400
        (RouteError "Invalid puzzle: original must be 81 characters"), []))
  /\ (String.length (queryOr c "original" "") = 81 ->
      snd (validateRoute D SOLVER_URL fetchUrl c search)
      = [solverUrl SOLVER_URL "validate" (slice1 search)]
      /\ (search = "" ->
          snd (validateRoute D SOLVER_URL fetchUrl c search)
          = [SOLVER_URL +:+ "/api/validate"])
      /\ (forall q, q <> "" -> search = "?" +:+ q ->
          snd (validateRoute D SOLVER_URL fetchUrl c search)
          = [SOLVER_URL +:+ "/api/validate?" +:+ q])).
Proof.
  unfold validateRoute. split.
  - intros Hlen. apply Nat.eqb_neq in Hlen. rewrite Hlen, orb_true_r.
    reflexivity.
  - intros Hlen.
    assert (Hne : String.eqb (queryOr c "original" "") "" = false).
    { apply String.eqb_neq. intros E. rewrite E in Hlen. discriminate. }
    rewrite Hne. apply Nat.eqb_eq in Hlen. rewrite Hlen. cbn [negb orb].
    destruct (relay_spec D SOLVER_URL fetchUrl "validate" (slice1 search)
                "Validation failed" 400 ltac:(lia) ltac:(lia)) as (Hurl & _).
    rewrite Hurl. split; [reflexivity|].
    destruct (solverUrl_forwards SOLVER_URL "validate" "x") as [Hempty _].
    split.
    + intros ->. rewrite Hempty. reflexivity.
    + intros q Hq ->.
      destruct (solverUrl_forwards SOLVER_URL "validate" q) as [_ Hq'].
      rewrite (Hq' Hq). reflexivity.
Qed.

(** An 80-character puzzle never reaches the solver; an 81-character one
    is forwarded with its query string. *)
Lemma validate_checks_length_witness :
  validateRoute Z "http://solver" (fun _ => validReply)
    (requestOf [("original", replicate_string 80 "0")] None None)
    "?original=0"
  = (mkRouteReply 400
       (RouteError "Invalid puzzle: original must be 81 characters"), [])
  /\ snd (validateRoute Z "http://solver" (fun _ => validReply)
            (requestOf [("original", boardB)] None None) "?original=x")
     = ["http://solver/api/validate?original=x"].
Proof.
  split.
  - apply (proj1 (validate_checks_length Z "http://solver" (fun _ => validReply)
                    (requestOf [("original", replicate_string 80 "0")] None None)
                    "?original=0")).
    vm_compute. discriminate.
  - apply (proj2 (proj2 (proj2 (validate_checks_length Z "http://solver"
             (fun _ => validReply)
             (requestOf [("original", boardB)] None None) "?original=x")
             ltac:(vm_compute; reflexivity))) "original=x").
    + discriminate.
    + reflexivity.
Defined.

(** X9. For an 81-character puzzle, [GET /validate] answers 200, 400 or
    503: 503 "Solver service unavailable" exactly when the solver call
    fails (network failure, abort timer, status outside 200..299, or a
    body that is not JSON); 200 exactly when the solver reports success
    with data, which is then handed back unchanged; and 400 with the
    solver's "code: message" (or "Validation failed") otherwise, that is
    exactly when the solver answered without success or without data. *)
Theorem validate_relays D SOLVER_URL (fetchUrl : string -> UrlFetch D) c search :
  String.length (queryOr c "original" "") = 81 ->
  let url := solverUrl SOLVER_URL "validate" (slice1 search) in
  let reply := fst (validateRoute D SOLVER_URL fetchUrl c search) in
  (routeStatus reply = 200 \/ routeStatus reply = 400 \/ routeStatus reply = 503)%Z
  /\ (routeStatus reply = 503%Z <-> urlFails (fetchUrl url) = true)
  /\ (routeStatus reply = 503%Z ->
      routeBody reply = RouteError "Solver service unavailable")
  /\ (forall d, routeBody reply = RouteSuccess d <->
        routeStatus reply = 200%Z
        /\ exists st r, fetchUrl url = UrlReply st (Some r)
                        /\ response_ok st = true
                        /\ ApiResult.success r = true
                        /\ ApiResult.data r = Some d)
  /\ (routeStatus reply = 400%Z ->
      exists st r, fetchUrl url = UrlReply st (Some r)
                   /\ response_ok st = true
                   /\ (ApiResult.success r = false \/ ApiResult.data r = None)
                   /\ routeBody reply
                      = RouteError (routeErrorMessage D r "Validation failed"))
  /\ (routeStatus reply = 200%Z
      <-> exists st r d, fetchUrl url = UrlReply st (Some r)
                         /\ response_ok st = true
                         /\ ApiResult.success r = true
                         /\ ApiResult.data r = Some d)
  /\ (routeStatus reply = 400%Z
      <-> exists st r, fetchUrl url = UrlReply st (Some r)
                       /\ response_ok st = true
                       /\ (ApiResult.success r = false \/ ApiResult.data r = None))
  /\ (urlFails (fetchUrl url) = true ->
      reply = mkRouteReply 503 (RouteError "Solver service unavailable"))
  /\ (forall st r d,
        fetchUrl url = UrlReply st (Some r) -> response_ok st = true ->
        ApiResult.success r = true -> ApiResult.data r = Some d ->
        reply = mkRouteReply 200 (RouteSuccess d))
  /\ (forall st r,
        fetchUrl url = UrlReply st (Some r) -> response_ok st = true ->
        ApiResult.success r = false \/ ApiResult.data r = None ->
        reply = mkRouteReply 400
                  (RouteError (routeErrorMessage D r "Validation failed"))).
Proof.
  intros Hlen url reply. unfold reply.
  rewrite (validateRoute_relay D SOLVER_URL fetchUrl c search Hlen).
  destruct (relay_spec D SOLVER_URL fetchUrl "validate" (slice1 search)
              "Validation failed" 400 ltac:(lia) ltac:(lia))
    as (_ & Hst & H503 & Hbody & Hok & Hbad).
  destruct (relay_status_iff D SOLVER_URL fetchUrl "validate" (slice1 search)
              "Validation failed" 400 ltac:(lia) ltac:(lia)) as (H200 & H400).
  destruct (relay_exact D SOLVER_URL fetchUrl "validate" (slice1 search)
              "Validation failed" 400) as (Edown & Egood & Ebad).
  fold url in Edown, Egood, Ebad.
  repeat (split; [assumption|]).
  split; [intros Hf; rewrite (Edown Hf); reflexivity|].
  split.
  - intros st r d Hf Ho Hs Hd. rewrite (Egood st r d Hf Ho Hs Hd). reflexivity.
  - intros st r Hf Ho Hb. rewrite (Ebad st r Hf Ho Hb). reflexivity.
Qed.

(** The solver rejects the puzzle. *)
Lemma validate_relays_witness :
  let fetchUrl := fun _ : string =>
    UrlReply 200
      (Some (ApiResult.mk (D := Z) false
               (Some (SolverError.mk "INVALID" "two solutions")) None)) in
  let c := requestOf [("original", boardB)] None None in
  fst (validateRoute Z "http://solver" fetchUrl c "?original=x")
  = mkRouteReply 400 (RouteError "INVALID: two solutions").
Proof.
  intros fetchUrl c.
  apply (proj2 (proj2 (proj2 (proj2 (proj2 (proj2 (proj2 (proj2 (proj2
           (validate_relays Z "http://solver" fetchUrl c "?original=x"
              ltac:(vm_compute; reflexivity))))))))))
           200%Z
           (ApiResult.mk false (Some (SolverError.mk "INVALID" "two solutions"))
              None)).
  - reflexivity.
  - reflexivity.
  - left. reflexivity.
Defined.

(** X10. [GET /generate] always sends exactly one request to the solver,
    to [SOLVER_URL/api/generate] with the incoming query string, and
    answers 200, 500 or 503, never 400: an unsuccessful result of the
    solver is a 500 with the solver's "code: message" (or "Generation
    failed"), a failed call a 503, and a successful result is handed back
    unchanged. *)
Theorem generate_relays D SOLVER_URL (fetchUrl : string -> UrlFetch D) search :
  let url := solverUrl SOLVER_URL "generate" (slice1 search) in
  let run := generateRoute D SOLVER_URL fetchUrl search in
  snd run = [url]
  /\ (routeStatus (fst run) = 200 \/ routeStatus (fst run) = 500
      \/ routeStatus (fst run) = 503)%Z
  /\ (routeStatus (fst run) = 503%Z <-> urlFails (fetchUrl url) = true)
  /\ (forall d, routeBody (fst run) = RouteSuccess d <->
        routeStatus (fst run) = 200%Z
        /\ exists st r, fetchUrl url = UrlReply st (Some r)
                        /\ response_ok st = true
                        /\ ApiResult.success r = true
                        /\ ApiResult.data r = Some d)
  /\ (routeStatus (fst run) = 500%Z ->
      exists st r, fetchUrl url = UrlReply st (Some r)
                   /\ response_ok st = true
                   /\ (ApiResult.success r = false \/ ApiResult.data r = None)
                   /\ routeBody (fst run)
                      = RouteError (routeErrorMessage D r "Generation failed"))
  /\ (search = "" -> url = SOLVER_URL +:+ "/api/generate")
  /\ (routeStatus (fst run) = 200%Z
      <-> exists st r d, fetchUrl url = UrlReply st (Some r)
                         /\ response_ok st = true
                         /\ ApiResult.success r = true
                         /\ ApiResult.data r = Some d)
  /\ (routeStatus (fst run) = 500%Z
      <-> exists st r, fetchUrl url = UrlReply st (Some r)
                       /\ response_ok st = true
                       /\ (ApiResult.success r = false \/ ApiResult.data r = None))
  /\ (urlFails (fetchUrl url) = true ->
      fst run = mkRouteReply 503 (RouteError "Solver service unavailable"))
  /\ (forall st r d,
        fetchUrl url = UrlReply st (Some r) -> response_ok st = true ->
        ApiResult.success r = true -> ApiResult.data r = Some d ->
        fst run = mkRouteReply 200 (RouteSuccess d))
  /\ (forall st r,
        fetchUrl url = UrlReply st (Some r) -> response_ok st = true ->
        ApiResult.success r = false \/ ApiResult.data r = None ->
        fst run = mkRouteReply 500
                    (RouteError (routeErrorMessage D r "Generation failed"))).
Proof.
  intros url run. unfold run, generateRoute.
  destruct (relay_spec D SOLVER_URL fetchUrl "generate" (slice1 search)
              "Generation failed" 500 ltac:(lia) ltac:(lia))
    as (Hurl & Hst & H503 & _ & Hok & Hbad).
  destruct (relay_status_iff D SOLVER_URL fetchUrl "generate" (slice1 search)
              "Generation failed" 500 ltac:(lia) ltac:(lia)) as (H200 & H500).
  destruct (relay_exact D SOLVER_URL fetchUrl "generate" (slice1 search)
              "Generation failed" 500) as (Edown & Egood & Ebad).
  fold url in Edown, Egood, Ebad.
  repeat (split; [assumption|]).
  split; [intros ->; apply (solverUrl_forwards SOLVER_URL "generate" "x")|].
  repeat (split; [assumption|]).
  split; [intros Hf; rewrite (Edown Hf); reflexivity|].
  split.
  - intros st r d Hf Ho Hs Hd. rewrite (Egood st r d Hf Ho Hs Hd). reflexivity.
  - intros st r Hf Ho Hb. rewrite (Ebad st r Hf Ho Hb). reflexivity.
Qed.

(** The solver cannot generate a puzzle, and says so. *)
Lemma generate_relays_witness :
  let fetchUrl := fun _ : string =>
    UrlReply 200
      (Some (ApiResult.mk (D := Z) false
               (Some (SolverError.mk "BUSY" "try again")) None)) in
  fst (generateRoute Z "http://solver" fetchUrl "?symmetrical=true")
  = mkRouteReply 500 (RouteError "BUSY: try again").
Proof.
  intros fetchUrl.
  apply (proj2 (proj2 (proj2 (proj2 (proj2 (proj2 (proj2 (proj2 (proj2 (proj2
           (generate_relays Z "http://solver" fetchUrl "?symmetrical=true"))))))))))
           200%Z
           (ApiResult.mk false (Some (SolverError.mk "BUSY" "try again")) None)).
  - reflexivity.
  - reflexivity.
  - left. reflexivity.
Defined.

(** ** The access counter, call after call *)

Section AccessFacts.

Variable env : Env.

Lemma getAccessCountToday_run userId endpoint w :
  getAccessCountToday env userId endpoint w
  = if dbFails env (step w)
    then (Throw StoreError, record (DbSelect TAccessLogs) w)
    else (Return (countAccess userId endpoint (todayAt env (step w)) (db w)),
          record (DbSelect TAccessLogs) w).
Proof.
  unfold getAccessCountToday, getTodayDate, newDate.
  rewrite !bind_run. cbn [mret Async_ret].
  destruct (dbFails env (step w)) eqn:Hf.
  - rewrite (dbOp_fails env _ _ w Hf). reflexivity.
  - rewrite (dbOp_runs env _ _ w Hf). reflexivity.
Qed.

Lemma recordAccess_run userId endpoint w :
  recordAccess env userId endpoint w
  = if dbFails env (step w)
    then (Throw StoreError, record (DbInsert TAccessLogs) w)
    else (Return tt,
          mkWorld (withAccess (AccessLog.mk userId endpoint (todayAt env (step w)))
                     (db w))
                  (trace w ++ [DbInsert TAccessLogs])).
Proof.
  unfold recordAccess, getTodayDate, newDate.
  rewrite !bind_run. cbn [mret Async_ret].
  destruct (dbFails env (step w)) eqn:Hf.
  - rewrite (dbOp_fails env _ _ w Hf). reflexivity.
  - rewrite (dbOp_runs env _ _ w Hf). reflexivity.
Qed.

(** Every way a call of [checkAndRecordAccess] can go. *)
Lemma checkAndRecordAccess_cases userId endpoint w :
  checkAndRecordAccess env userId endpoint w
  = let limit := getDailyLimit endpoint in
    let count := countAccess userId endpoint (todayAt env (step w)) (db w) in
    if dbFails env (step w)
    then (Throw StoreError, record (DbSelect TAccessLogs) w)
    else if (limit <=? count)%Z
    then (Return (AccessResult.mk false 0), record (DbSelect TAccessLogs) w)
    else if dbFails env (S (step w))
    then (Throw StoreError,
          record (DbInsert TAccessLogs) (record (DbSelect TAccessLogs) w))
    else (Return (AccessResult.mk true (limit - count - 1)),
          mkWorld
            (withAccess (AccessLog.mk userId endpoint (todayAt env (S (step w))))
               (db w))
            (trace w ++ [DbSelect TAccessLogs; DbInsert TAccessLogs])).
Proof.
  cbv zeta. unfold checkAndRecordAccess.
  rewrite bind_run, getAccessCountToday_run.
  destruct (dbFails env (step w)); [reflexivity|].
  destruct (getDailyLimit endpoint <=? _)%Z; [reflexivity|].
  rewrite bind_run, recordAccess_run, step_record.
  destruct (dbFails env (S (step w))); [reflexivity|].
  unfold record. cbn [db trace]. rewrite <- app_assoc. reflexivity.
Qed.

Lemma accessOf_true userId endpoint day r :
  accessOf userId endpoint day r = true
  <-> r = AccessLog.mk userId endpoint day.
Proof.
  unfold accessOf. rewrite !andb_true_iff, !String.eqb_eq.
  destruct r as [u e d]. cbn. split.
  - intros [[-> ->] ->]. reflexivity.
  - intros [= -> -> ->]. auto.
Qed.

(** One more row counts for its own user, endpoint and day, and for no
    other. *)
Lemma countAccess_withAccess userId endpoint day row d :
  countAccess userId endpoint day (withAccess row d)
  = (countAccess userId endpoint day d
     + if accessOf userId endpoint day row then 1 else 0)%Z.
Proof.
  unfold countAccess, withAccess. cbn [accessLogs].
  rewrite filter_app, length_app, Nat2Z.inj_add. f_equal.
  destruct (accessOf userId endpoint day row) eqn:E.
  - rewrite filter_cons_True by exact E. reflexivity.
  - rewrite filter_cons_False by congruence. reflexivity.
Qed.

End AccessFacts.

(** X11. [checkAndRecordAccess] throws exactly when the store fails the
    count query, or the count is below the limit and the store fails the
    insert; whenever it throws, and whenever it denies, the access log is
    exactly as it was, so a failed call never uses up an access. *)
Theorem access_check_store_failure env userId endpoint w :
  let limit := getDailyLimit endpoint in
  let count := countAccess userId endpoint (todayAt env (step w)) (db w) in
  ((exists e w', checkAndRecordAccess env userId endpoint w = (Throw e, w'))
   <-> dbFails env (step w) = true
       \/ (count < limit)%Z /\ dbFails env (S (step w)) = true)
  /\ (forall o w',
        checkAndRecordAccess env userId endpoint w = (o, w') ->
        o <> Return (AccessResult.mk true (limit - count - 1)) ->
        db w' = db w).
Proof.
  cbv zeta. rewrite checkAndRecordAccess_cases. cbv zeta.
  destruct (dbFails env (step w)).
  { split; [split; eauto|]. intros o w' [= <- <-] _. reflexivity. }
  destruct (Z.leb_spec (getDailyLimit endpoint)
              (countAccess userId endpoint (todayAt env (step w)) (db w)))
    as [Hle|Hlt].
  { split.
    - split; [intros (e & w' & [=])|]. intros [[=]|[Hlt _]]. lia.
    - intros o w' [= <- <-] _. reflexivity. }
  destruct (dbFails env (S (step w))).
  { split; [split; eauto|]. intros o w' [= <- <-] _. reflexivity. }
  split.
  - split; [intros (e & w' & [=])|]. intros [[=]|[_ [=]]].
  - intros o w' [= <- <-] Hne. congruence.
Qed.

(** X12. An access that has been recorded is counted: after a successful
    [recordAccess], on the same day, [getAccessCountToday] for that user
    and endpoint answers one more than before, while the count for any
    other user, endpoint or day is what it was. *)
Theorem recorded_access_is_counted env userId endpoint w :
  dbFails env (step w) = false ->
  dbFails env (S (step w)) = false ->
  todayAt env (S (step w)) = todayAt env (step w) ->
  exists w1 w2,
    recordAccess env userId endpoint w = (Return tt, w1)
    /\ getAccessCountToday env userId endpoint w1
       = (Return (countAccess userId endpoint (todayAt env (step w)) (db w) + 1)%Z,
          w2)
    /\ forall userId' endpoint' day',
         (userId', endpoint', day') <> (userId, endpoint, todayAt env (step w)) ->
         countAccess userId' endpoint' day' (db w1)
         = countAccess userId' endpoint' day' (db w).
Proof.
  intros H0 H1 Hday.
  rewrite recordAccess_run, H0. eexists _, _. split; [reflexivity|].
  rewrite getAccessCountToday_run, step_mkWorld, length_snoc.
  fold (step w). rewrite H1, Hday. cbn [db]. split.
  - rewrite countAccess_withAccess.
    rewrite (proj2 (accessOf_true _ _ _ _) eq_refl). reflexivity.
  - intros u' e' d' Hne. rewrite countAccess_withAccess.
    destruct (accessOf u' e' d' _) eqn:E; [|lia].
    apply accessOf_true in E. injection E as <- <- <-. congruence.
Qed.

(** Alice's first access of the day. *)
Lemma recorded_access_is_counted_witness :
  exists w1 w2,
    recordAccess (solverOfLevel 3 noFaults) "alice" "boards" (start emptyStore)
    = (Return tt, w1)
    /\ getAccessCountToday (solverOfLevel 3 noFaults) "alice" "boards" w1
       = (Return (countAccess "alice" "boards" "2026-01-01" emptyStore + 1)%Z, w2)
    /\ forall userId' endpoint' day',
         (userId', endpoint', day') <> ("alice", "boards", "2026-01-01") ->
         countAccess userId' endpoint' day' (db w1)
         = countAccess userId' endpoint' day' emptyStore.
Proof.
  apply (recorded_access_is_counted (solverOfLevel 3 noFaults) "alice" "boards"
           (start emptyStore)); reflexivity.
Defined.

(** X13. The daily limit holds over any run of calls: with a store that
    answers and within one day, of [k] successive calls for a user and an
    endpoint that start with [count] accesses logged, the [i]-th is
    granted exactly while [count + i] is below the limit, with
    [remaining] counting down to 0, and denied from then on; afterwards
    the day's count is [count + k] capped at the limit (or the initial
    count, if that was above it already). *)
Theorem daily_limit_enforced env userId endpoint day k w :
  (forall n, dbFails env n = false) ->
  (forall n, todayAt env n = day) ->
  let limit := getDailyLimit endpoint in
  let count := countAccess userId endpoint day (db w) in
  exists w',
    repeatAccess env userId endpoint k w
    = (Return (map (nthAccess limit count) (seq 0 k)), w')
    /\ countAccess userId endpoint day (db w')
       = Z.max count (Z.min (count + Z.of_nat k) limit).
Proof.
  intros Hok Hday. cbv zeta. revert w.
  induction k as [|k IH]; intros w.
  - eexists. split; [reflexivity|]. rewrite Z.add_0_r. lia.
  - cbn [repeatAccess]. rewrite bind_run, checkAndRecordAccess_cases. cbv zeta.
    rewrite !Hok, !Hday.
    set (limit := getDailyLimit endpoint).
    set (count := countAccess userId endpoint day (db w)).
    destruct (Z.leb_spec limit count) as [Hle|Hlt].
    + destruct (IH (record (DbSelect TAccessLogs) w)) as (w' & Hrun & Hcount).
      cbn [record db] in Hrun, Hcount. fold limit count in Hrun, Hcount.
      rewrite bind_run, Hrun. exists w'. split; [|rewrite Hcount; lia].
      cbn [mret Async_ret seq map]. rewrite <- seq_shift, map_map.
      assert (E0 : nthAccess limit count 0 = AccessResult.mk false 0).
      { unfold nthAccess. rewrite Z.add_0_r.
        destruct (Z.ltb_spec count limit); [lia|reflexivity]. }
      assert (E1 : map (fun i => nthAccess limit count (S i)) (seq 0 k)
                   = map (nthAccess limit count) (seq 0 k)).
      { apply map_ext. intros i. unfold nthAccess.
        destruct (Z.ltb_spec (count + Z.of_nat (S i)) limit); [lia|].
        destruct (Z.ltb_spec (count + Z.of_nat i) limit); [lia|reflexivity]. }
      rewrite E0, E1. reflexivity.
    + match goal with
      | |- context [mkWorld ?d ?t] => destruct (IH (mkWorld d t))
                                        as (w' & Hrun & Hcount)
      end.
      cbn [db] in Hrun, Hcount. rewrite countAccess_withAccess in Hrun, Hcount.
      rewrite (proj2 (accessOf_true _ _ _ _) eq_refl) in Hrun, Hcount.
      fold limit count in Hrun, Hcount.
      rewrite bind_run, Hrun. exists w'. split; [|rewrite Hcount; lia].
      cbn [mret Async_ret seq map]. rewrite <- seq_shift, map_map.
      assert (E0 : nthAccess limit count 0
                   = AccessResult.mk true (limit - count - 1)).
      { unfold nthAccess. rewrite Z.add_0_r.
        destruct (Z.ltb_spec count limit); [reflexivity|lia]. }
      assert (E1 : map (fun i => nthAccess limit count (S i)) (seq 0 k)
                   = map (nthAccess limit (count + 1)) (seq 0 k)).
      { apply map_ext. intros i. unfold nthAccess.
        replace (count + 1 + Z.of_nat i)%Z with (count + Z.of_nat (S i))%Z by lia.
        reflexivity. }
      rewrite E0, E1. reflexivity.
Qed.

(** Four accesses to "boards" in a row: two granted, two denied. *)
Lemma daily_limit_enforced_witness :
  exists w',
    repeatAccess (solverOfLevel 3 noFaults) "alice" "boards" 4 (start emptyStore)
    = (Return [AccessResult.mk true 1; AccessResult.mk true 0;
               AccessResult.mk false 0; AccessResult.mk false 0], w')
    /\ countAccess "alice" "boards" "2026-01-01" (db w') = 2%Z.
Proof.
  apply (daily_limit_enforced (solverOfLevel 3 noFaults) "alice" "boards"
           "2026-01-01" 4 (start emptyStore)).
  - intros n. reflexivity.
  - intros n. reflexivity.
Defined.

(** ** The access-control middleware *)

Section MiddlewareFacts.

Variable env : Env.
Variable auth : AuthEnv.

Lemma splitOn_no_space s : hasSpace s = false -> splitOn " "%char s = [s].
Proof.
  induction s as [|c s IH]; [reflexivity|].
  cbn [hasSpace splitOn]. intros H. apply orb_false_iff in H as [Hc Hs].
  rewrite Hc, (IH Hs). reflexivity.
Qed.

(** A header made of "Bearer", one space and a token without spaces is
    split into exactly these two pieces. *)
Lemma bearerToken_wellformed req token :
  authorization req = Some ("Bearer " +:+ token) ->
  token <> "" -> hasSpace token = false ->
  bearerToken req = Some token.
Proof.
  intros Hh Hne Hsp. unfold bearerToken. rewrite Hh.
  change (splitOn " "%char ("Bearer " +:+ token))
    with ("Bearer" :: splitOn " "%char token).
  rewrite (splitOn_no_space token Hsp).
  change (String.eqb "Bearer" "Bearer") with true. cbn [andb].
  apply String.eqb_neq in Hne. rewrite Hne. reflexivity.
Qed.

(** The checks the middleware makes before its [try] block, in terms of
    [bearerToken]. *)
Lemma accessControl_entry endpoint req w :
  createAccessControlMiddleware env auth endpoint req w
  = if negb (truthy (authorization req))
    then (Return (Unauthorized "Authorization header required"), w)
    else match bearerToken req with
         | None =>
             (Return (Unauthorized
                        "Invalid authorization format. Use: Bearer <token>"), w)
         | Some token =>
             match verifyIdToken auth token with
             | None => (Return invalidToken, w)
             | Some decodedToken =>
                 try_catch (accessControl_body env auth endpoint req decodedToken)
                           (fun _ => mret invalidToken) w
             end
         end.
Proof.
  unfold createAccessControlMiddleware, bearerToken.
  destruct (authorization req) as [h|]; [|reflexivity].
  destruct (truthy (Some h)); [|reflexivity]. cbn [negb nullish].
  destruct (splitOn " "%char h) as [|type [|token rest]].
  - reflexivity.
  - cbn. rewrite orb_true_r. reflexivity.
  - cbn [lookup list_lookup truthy nullish].
    destruct (String.eqb_spec type "Bearer") as [->|Hty].
    + rewrite bool_decide_eq_true_2 by reflexivity. cbn [negb orb andb].
      destruct (String.eqb token ""); [reflexivity|]. cbn [negb].
      destruct (verifyIdToken auth token); reflexivity.
    + rewrite bool_decide_eq_false_2 by congruence. reflexivity.
Qed.

Lemma accessControl_body_bypass endpoint req tok w :
  isSiteAdmin auth (DecodedToken.email tok) = true
  \/ isSubscriber auth (DecodedToken.uid tok) (testMode req) = true ->
  accessControl_body env auth endpoint req tok w = (Return (Proceed tok None), w).
Proof.
  intros H. unfold accessControl_body.
  destruct (isSiteAdmin auth (DecodedToken.email tok)); [reflexivity|].
  destruct H as [H|H]; [discriminate|]. rewrite H. reflexivity.
Qed.

Lemma accessControl_body_counted endpoint req tok w :
  isSiteAdmin auth (DecodedToken.email tok) = false ->
  isSubscriber auth (DecodedToken.uid tok) (testMode req) = false ->
  accessControl_body env auth endpoint req tok w
  = match checkAndRecordAccess env (DecodedToken.uid tok) endpoint w with
    | (Return r, w') =>
        if AccessResult.granted r
        then (Return (Proceed tok (Some (pretty (AccessResult.remaining r)))), w')
        else (Return (DailyLimitReached (toISOString env (clock env (step w')))), w')
    | (Throw e, w') => (Throw e, w')
    end.
Proof.
  intros Ha Hs. unfold accessControl_body. rewrite Ha, Hs, bind_run.
  destruct (checkAndRecordAccess env (DecodedToken.uid tok) endpoint w)
    as [[r|e] w']; [|reflexivity].
  destruct (AccessResult.granted r); reflexivity.
Qed.

End MiddlewareFacts.

(** X14. The middleware turns away a request before looking at anything
    else when the [Authorization] header is missing or empty ("header
    required"), when it is not "Bearer" followed by a space and a
    non-empty token ("invalid format"), and when the token does not
    verify; in all three cases the answer is a 401, no store operation is
    issued and the store is untouched.  A header "Bearer <token>" with a
    non-empty token free of spaces passes the format check. *)
Theorem access_control_rejects env auth endpoint req w :
  (truthy (authorization req) = false ->
   createAccessControlMiddleware env auth endpoint req w
   = (Return (Unauthorized "Authorization header required"), w))
  /\ (truthy (authorization req) = true -> bearerToken req = None ->
      createAccessControlMiddleware env auth endpoint req w
      = (Return (Unauthorized "Invalid authorization format. Use: Bearer <token>"),
         w))
  /\ (forall token,
        bearerToken req = Some token -> verifyIdToken auth token = None ->
        createAccessControlMiddleware env auth endpoint req w
        = (Return (Unauthorized "Invalid or expired Firebase token"), w))
  /\ (forall token,
        authorization req = Some ("Bearer " +:+ token) ->
        token <> "" -> hasSpace token = false ->
        truthy (authorization req) = true /\ bearerToken req = Some token)
  /\ (forall header,
        authorization req = Some header ->
        In header ["Bearer"; "Bearer "; "bearer good"; "Bearer  good";
                   "Basic good"; "good"] ->
        bearerToken req = None).
Proof.
  rewrite accessControl_entry.
  split; [|split; [|split; [|split]]].
  - intros ->. reflexivity.
  - intros -> ->. reflexivity.
  - intros token Hb Hv.
    assert (Ht : truthy (authorization req) = true).
    { unfold bearerToken in Hb. destruct (authorization req) as [h|];
        [|discriminate].
      destruct h; [discriminate|reflexivity]. }
    rewrite Ht, Hb, Hv. reflexivity.
  - intros token Hh Hne Hsp. split.
    + rewrite Hh. reflexivity.
    + apply bearerToken_wellformed; assumption.
  - intros header Hh Hin. unfold bearerToken. rewrite Hh.
    cbn [In] in Hin.
    repeat (destruct Hin as [<-|Hin]; [reflexivity|]). contradiction.
Qed.

(** A request without a header, and one with a token that does not
    verify. *)
Lemma access_control_rejects_witness :
  createAccessControlMiddleware (solverOfLevel 3 noFaults) (authOf [] [])
    "boards" (mkAccessRequest None false) (start emptyStore)
  = (Return (Unauthorized "Authorization header required"), start emptyStore)
  /\ createAccessControlMiddleware (solverOfLevel 3 noFaults) (authOf [] [])
       "boards" (mkAccessRequest (Some "Bearer bad") false) (start emptyStore)
     = (Return (Unauthorized "Invalid or expired Firebase token"), start emptyStore).
Proof.
  split.
  - apply (proj1 (access_control_rejects (solverOfLevel 3 noFaults) (authOf [] [])
                    "boards" (mkAccessRequest None false) (start emptyStore))).
    reflexivity.
  - apply (proj1 (proj2 (proj2
             (access_control_rejects (solverOfLevel 3 noFaults) (authOf [] [])
                "boards" (mkAccessRequest (Some "Bearer bad") false)
                (start emptyStore)))) "bad"); reflexivity.
Defined.

(** X15. Site administrators and subscribers are never counted: for a
    verified caller who is an administrator, or for whom the subscription
    helper reports at least one entitlement, the middleware calls
    [next()] without the [X-Daily-Remaining] header, issues no store
    operation and writes no access-log row, however many accesses are
    already logged. *)
Theorem admins_and_subscribers_uncounted env auth endpoint req w token tok :
  bearerToken req = Some token ->
  verifyIdToken auth token = Some tok ->
  isSiteAdmin auth (DecodedToken.email tok) = true
  \/ (exists getSubscriptionInfo entitlements,
        getSubscriptionHelper auth = Some getSubscriptionInfo
        /\ getSubscriptionInfo (DecodedToken.uid tok) (testMode req)
           = Some entitlements
        /\ entitlements <> []) ->
  createAccessControlMiddleware env auth endpoint req w
  = (Return (Proceed tok None), w).
Proof.
  intros Hb Hv Hpass. rewrite accessControl_entry.
  assert (Ht : truthy (authorization req) = true).
  { unfold bearerToken in Hb. destruct (authorization req) as [h|];
      [|discriminate].
    destruct h; [discriminate|reflexivity]. }
  rewrite Ht, Hb, Hv, try_catch_run. cbn [negb].
  rewrite accessControl_body_bypass; [reflexivity|].
  destruct Hpass as [Ha|(info & ents & Hh & Hi & Hne)]; [left; exact Ha|].
  right. unfold isSubscriber. rewrite Hh, Hi.
  destruct ents; [congruence|reflexivity].
Qed.

(** Alice as a subscriber, with the day's limit long used up. *)
Lemma admins_and_subscribers_uncounted_witness :
  let row := AccessLog.mk "alice" "boards" "2026-01-01" in
  let w := start (mkDatabase [] [] [] [row; row; row]) in
  createAccessControlMiddleware (solverOfLevel 3 noFaults) (authOf [] ["alice"])
    "boards" (mkAccessRequest (Some "Bearer good") false) w
  = (Return (Proceed aliceToken None), w).
Proof.
  intros row w.
  apply (admins_and_subscribers_uncounted (solverOfLevel 3 noFaults)
           (authOf [] ["alice"]) "boards"
           (mkAccessRequest (Some "Bearer good") false) w "good" aliceToken).
  - reflexivity.
  - reflexivity.
  - right. eexists _, _. split; [reflexivity|]. split; [reflexivity|].
    vm_compute. discriminate.
Defined.

(** X16. Every other verified caller is counted, and this includes the
    caller whose subscription could not be checked (no helper, or the
    lookup threw) or who has no entitlement.  With a store that answers,
    the middleware calls [next()] exactly while the day's count is below
    the endpoint's limit, logging one access and setting
    [X-Daily-Remaining] to [limit - count - 1]; from the limit on it
    answers 402 "Daily limit reached" and logs nothing. *)
Theorem non_subscribers_are_counted env auth endpoint req w token tok :
  bearerToken req = Some token ->
  verifyIdToken auth token = Some tok ->
  isSiteAdmin auth (DecodedToken.email tok) = false ->
  (getSubscriptionHelper auth = None
   \/ exists getSubscriptionInfo,
        getSubscriptionHelper auth = Some getSubscriptionInfo
        /\ (getSubscriptionInfo (DecodedToken.uid tok) (testMode req) = None
            \/ getSubscriptionInfo (DecodedToken.uid tok) (testMode req) = Some [])) ->
  dbFails env (step w) = false ->
  let userId := DecodedToken.uid tok in
  let limit := getDailyLimit endpoint in
  let count := countAccess userId endpoint (todayAt env (step w)) (db w) in
  ((count < limit)%Z -> dbFails env (S (step w)) = false ->
   createAccessControlMiddleware env auth endpoint req w
   = (Return (Proceed tok (Some (pretty (limit - count - 1)%Z))),
      mkWorld
        (withAccess (AccessLog.mk userId endpoint (todayAt env (S (step w)))) (db w))
        (trace w ++ [DbSelect TAccessLogs; DbInsert TAccessLogs])))
  /\ ((limit <= count)%Z ->
      createAccessControlMiddleware env auth endpoint req w
      = (Return (DailyLimitReached (toISOString env (clock env (S (step w))))),
         record (DbSelect TAccessLogs) w)).
Proof.
  intros Hb Hv Ha Hsub H0 userId limit count.
  assert (Ht : truthy (authorization req) = true).
  { unfold bearerToken in Hb. destruct (authorization req) as [h|];
      [|discriminate].
    destruct h; [discriminate|reflexivity]. }
  assert (Hs : isSubscriber auth userId (testMode req) = false).
  { unfold isSubscriber, userId.
    destruct Hsub as [->|(info & -> & [->| ->])]; reflexivity. }
  rewrite accessControl_entry, Ht, Hb, Hv, try_catch_run. cbn [negb].
  rewrite (accessControl_body_counted env auth endpoint req tok w Ha Hs).
  rewrite checkAndRecordAccess_cases. cbv zeta. fold userId limit count.
  rewrite H0. split.
  - intros Hlt H1. apply Z.leb_gt in Hlt. rewrite Hlt, H1. reflexivity.
  - intros Hle. apply Z.leb_le in Hle. rewrite Hle.
    cbn [AccessResult.granted]. rewrite step_record. reflexivity.
Qed.

(** Alice without a subscription, on her first and on her third access
    of the day. *)
Lemma non_subscribers_are_counted_witness :
  let row := AccessLog.mk "alice" "boards" "2026-01-01" in
  let env := solverOfLevel 3 noFaults in
  let req := mkAccessRequest (Some "Bearer good") false in
  fst (createAccessControlMiddleware env (authOf [] []) "boards" req
         (start emptyStore))
  = Return (Proceed aliceToken (Some "1"))
  /\ createAccessControlMiddleware env (authOf [] []) "boards" req
       (start (mkDatabase [] [] [] [row; row]))
     = (Return (DailyLimitReached "2026-01-01T1001"),
        mkWorld (mkDatabase [] [] [] [row; row]) [DbSelect TAccessLogs]).
Proof.
  intros row env req.
  assert (Hsub : getSubscriptionHelper (authOf [] []) = None
                 \/ exists info,
                      getSubscriptionHelper (authOf [] []) = Some info
                      /\ (info (DecodedToken.uid aliceToken) (testMode req) = None
                          \/ info (DecodedToken.uid aliceToken) (testMode req)
                             = Some [])).
  { right. eexists. split; [reflexivity|]. right. reflexivity. }
  split.
  - rewrite (proj1 (non_subscribers_are_counted env (authOf [] []) "boards" req
                      (start emptyStore) "good" aliceToken
                      eq_refl eq_refl eq_refl Hsub eq_refl));
      [reflexivity|vm_compute; reflexivity|reflexivity].
  - apply (proj2 (non_subscribers_are_counted env (authOf [] []) "boards" req
                    (start (mkDatabase [] [] [] [row; row])) "good" aliceToken
                    eq_refl eq_refl eq_refl Hsub eq_refl)).
    vm_compute. discriminate.
Defined.

(** X17. The middleware never throws, and every failure inside its [try]
    block reads as a bad token: when the store fails during the
    daily-limit check of a caller who holds a valid token, the answer is
    401 "Invalid or expired Firebase token", [next()] is not called and
    no access is logged. *)
Theorem store_failure_reads_as_invalid_token env auth endpoint req w :
  (exists outcome w',
     createAccessControlMiddleware env auth endpoint req w = (Return outcome, w'))
  /\ (forall token tok,
        bearerToken req = Some token ->
        verifyIdToken auth token = Some tok ->
        isSiteAdmin auth (DecodedToken.email tok) = false ->
        isSubscriber auth (DecodedToken.uid tok) (testMode req) = false ->
        dbFails env (step w) = true
        \/ ((countAccess (DecodedToken.uid tok) endpoint (todayAt env (step w)) (db w)
             < getDailyLimit endpoint)%Z
            /\ dbFails env (S (step w)) = true) ->
        exists w',
          createAccessControlMiddleware env auth endpoint req w
          = (Return (Unauthorized "Invalid or expired Firebase token"), w')
          /\ db w' = db w).
Proof.
  split.
  - rewrite accessControl_entry.
    destruct (negb (truthy (authorization req))); [eauto|].
    destruct (bearerToken req) as [token|]; [|eauto].
    destruct (verifyIdToken auth token) as [tok|]; [|eauto].
    rewrite try_catch_run.
    destruct (accessControl_body env auth endpoint req tok w) as [[o|e] w'];
      eauto.
  - intros token tok Hb Hv Ha Hs Hfail.
    assert (Ht : truthy (authorization req) = true).
    { unfold bearerToken in Hb. destruct (authorization req) as [h|];
        [|discriminate].
      destruct h; [discriminate|reflexivity]. }
    rewrite accessControl_entry, Ht, Hb, Hv, try_catch_run. cbn [negb].
    rewrite (accessControl_body_counted env auth endpoint req tok w Ha Hs).
    rewrite checkAndRecordAccess_cases. cbv zeta.
    destruct Hfail as [H0|[Hlt H1]].
    + rewrite H0. eexists. split; reflexivity.
    + destruct (dbFails env (step w)); [eexists; split; reflexivity|].
      apply Z.leb_gt in Hlt. rewrite Hlt, H1. eexists. split; reflexivity.
Qed.

(** The store is down when Alice, token in hand, asks for a board. *)
Lemma store_failure_reads_as_invalid_token_witness :
  exists w',
    createAccessControlMiddleware (solverOfLevel 3 (faultAt 0)) (authOf [] [])
      "boards" (mkAccessRequest (Some "Bearer good") false) (start emptyStore)
    = (Return (Unauthorized "Invalid or expired Firebase token"), w')
    /\ db w' = emptyStore.
Proof.
  apply (proj2 (store_failure_reads_as_invalid_token
                  (solverOfLevel 3 (faultAt 0)) (authOf [] []) "boards"
                  (mkAccessRequest (Some "Bearer good") false) (start emptyStore))
           "good" aliceToken); try reflexivity.
  left. reflexivity.
Defined.
